(** * CalendarGPT: the instruction resolution engine of [backend/app.py]

    A shallow embedding of the conversation store, the instruction
    extractor, the action dispatcher and the find-and-delete resolvers of
    [backend/app.py], followed by the properties the specification states
    about them.

    Python values are embedded as they are at run time: a [str] is a
    sequence of code points, a decoded JSON document is a value of [json],
    a raised exception is a value of [exn], and the calls made on the
    scheduling provider are logged in the order they are made. *)

From Stdlib Require Import ZArith NArith String Ascii Lia Bool.
From stdpp Require Import base option list gmap.

Open Scope Z_scope.

(* ===================================================================== *)
(** * Part I: definitions                                                  *)
(* ===================================================================== *)

(** ** Python [str] *)

(** A Python [str] is a sequence of Unicode code points. *)
Abbreviation str := (list N).

(** The code points of an ASCII literal. *)
Definition u (s : string) : str :=
  (fun a => N_of_ascii a) <$> list_ascii_of_string s.
Arguments u s%_string.

(** [a == b] on two [str]. *)
Fixpoint str_eqb (a b : str) : bool :=
  match a, b with
  | [], [] => true
  | x :: a', y :: b' => (x =? y)%N && str_eqb a' b'
  | _, _ => false
  end.

(** ** The interpreter *)

(** What the code takes from the interpreter it runs on, which varies with
    the version of the interpreter, with its Unicode database and with the
    platform: the lower-case mapping of a code point above ASCII, whether a
    code point is cased and whether it is case-ignorable, the two properties
    [str.lower] looks at around a capital sigma, the value of a decimal
    digit above ASCII, the upper-case mapping of a code point above ASCII,
    the text of [repr(s)], the text of the [ValueError] of [int(s)], the
    limit on the number of digits [int] converts, 0 for none, and the text
    [strftime] puts for [%Y], which has the digits of the year on some
    platforms and four digits at least on others. *)
Record interpreter := Interpreter {
  lower_of : N -> str;
  cased : N -> bool;
  case_ignorable : N -> bool;
  decimal_of : N -> option Z;
  upper_of : N -> str;
  repr_of : str -> str;
  int_error : str -> str;
  int_max_str_digits : nat;
  strftime_Y : Z -> str
}.

Section Lower.

Context (U : interpreter).

(** The lower-case mapping of a code point other than the capital sigma:
    one code point for an ASCII one, up to three above ASCII. *)
Definition lower_char (c : N) : str :=
  if (c <? 128)%N
  then [if ((65 <=? c) && (c <=? 90))%N then (c + 32)%N else c]
  else lower_of U c.

(** The first code point of [s] that is not case-ignorable. *)
Fixpoint skip_case_ignorable (s : str) : option N :=
  match s with
  | [] => None
  | c :: s' => if case_ignorable U c then skip_case_ignorable s' else Some c
  end.

(** Whether a capital sigma ends a word: case-ignorable code points apart,
    a cased code point comes before it and none comes after it. [before] is
    the text before the sigma, from the sigma backwards, and [after] the text
    after it. *)
Definition final_sigma (before after : str) : bool :=
  match skip_case_ignorable before with
  | Some c =>
      cased U c
      && match skip_case_ignorable after with
         | Some d => negb (cased U d)
         | None => true
         end
  | None => false
  end.

(** [str.lower()] on the part [s] of a text that follows [before], which is
    kept from [s] backwards: every code point is replaced by its lower-case
    mapping, a capital sigma (931) by the final small sigma (962) where it
    ends a word and by the small sigma (963) elsewhere. *)
Fixpoint lower_from (before s : str) : str :=
  match s with
  | [] => []
  | c :: s' =>
      (if (c =? 931)%N
       then [if final_sigma before s' then 962%N else 963%N]
       else lower_char c)
      ++ lower_from (c :: before) s'
  end.

(** [s.lower()]. *)
Definition lower (s : str) : str := lower_from [] s.

End Lower.

(** [s.startswith(p)]. *)
Fixpoint startswith (p s : str) : bool :=
  match p, s with
  | [], _ => true
  | _ :: _, [] => false
  | a :: p', b :: s' => (a =? b)%N && startswith p' s'
  end.

(** [needle in hay] on two [str]: [needle] occurs in [hay] as a contiguous
    run of code points. *)
Fixpoint contains (needle hay : str) : bool :=
  startswith needle hay ||
  match hay with
  | [] => false
  | _ :: hay' => contains needle hay'
  end.

(** The scan of [s.replace(old, new)] for a non-empty [old]: the occurrences
    of [old] are replaced from left to right and do not overlap; [skip] is
    the number of code points of the occurrence just replaced that are still
    to be passed. *)
Fixpoint replace_scan (old new s : str) (skip : nat) : str :=
  match s with
  | [] => []
  | c :: s' =>
      match skip with
      | S skip' => replace_scan old new s' skip'
      | O =>
          if startswith old s
          then new ++ replace_scan old new s' (length old - 1)
          else c :: replace_scan old new s' 0
      end
  end.

(** [s.replace(old, new)]. With an empty [old] Python puts [new] before
    every code point and at the end. *)
Definition replace (old new s : str) : str :=
  match old with
  | [] => new ++ flat_map (fun c => c :: new) s
  | _ => replace_scan old new s 0
  end.

(** [str.isspace] on one code point, which is also what [\s] matches in a
    [str] pattern of [re] and what [str.strip()] removes. *)
Definition is_space (c : N) : bool :=
  (((9 <=? c) && (c <=? 13)) || ((28 <=? c) && (c <=? 32)) ||
   (c =? 133) || (c =? 160) || (c =? 5760) ||
   ((8192 <=? c) && (c <=? 8202)) || (c =? 8232) || (c =? 8233) ||
   (c =? 8239) || (c =? 8287) || (c =? 12288))%N.

Fixpoint lstrip (s : str) : str :=
  match s with
  | c :: s' => if is_space c then lstrip s' else s
  | [] => []
  end.

(** [s.strip()]. *)
Definition strip (s : str) : str := reverse (lstrip (reverse (lstrip s))).

(** [s.find(c)] for a single code point [c], counted from [i]; [-1] when
    [c] does not occur. *)
Fixpoint find_from (c : N) (s : str) (i : Z) : Z :=
  match s with
  | [] => -1
  | d :: s' => if (d =? c)%N then i else find_from c s' (i + 1)
  end.

Definition find (c : N) (s : str) : Z := find_from c s 0.

(** [seq[start:]] with Python's treatment of a negative or too large
    [start]. *)
Definition slice_from {A} (l : list A) (start : Z) : list A :=
  let n := Z.of_nat (length l) in
  let s := if start <? 0 then Z.max 0 (start + n) else Z.min start n in
  drop (Z.to_nat s) l.

(** [str(n)] for a natural number: its decimal digits. *)
Fixpoint str_of_uint (d : Decimal.uint) : str :=
  match d with
  | Decimal.Nil => []
  | Decimal.D0 d' => 48%N :: str_of_uint d'
  | Decimal.D1 d' => 49%N :: str_of_uint d'
  | Decimal.D2 d' => 50%N :: str_of_uint d'
  | Decimal.D3 d' => 51%N :: str_of_uint d'
  | Decimal.D4 d' => 52%N :: str_of_uint d'
  | Decimal.D5 d' => 53%N :: str_of_uint d'
  | Decimal.D6 d' => 54%N :: str_of_uint d'
  | Decimal.D7 d' => 55%N :: str_of_uint d'
  | Decimal.D8 d' => 56%N :: str_of_uint d'
  | Decimal.D9 d' => 57%N :: str_of_uint d'
  end.

Definition str_of_N (n : N) : str := str_of_uint (N.to_uint n).

(** ** Conversation store *)

(** One stored message: the dict built by [add_to_conversation_history]. *)
Record entry := Entry {
  message : str;
  is_user : bool;
  timestamp : str
}.

(** The module-level dict [conversation_history], from user id to the list
    of that user's messages. *)
Abbreviation history := (gmap str (list entry)).

(** [conversation_history = {}] at start-up. *)
Definition conversation_history : history := ∅.

(** [get_conversation_history(user_id, max_messages=10)]; [None] for
    [max_messages] is a call that leaves the argument out. *)
Definition get_conversation_history
    (h : history) (user_id : str) (max_messages : option Z) : list entry :=
  let max_messages := default 10 max_messages in
  match h !! user_id with
  | None => []
  | Some l => slice_from l (- max_messages)
  end.

(** [add_to_conversation_history(user_id, message, is_user=True)]. [now] is
    the text of [datetime.now().isoformat()] at the time of the call. *)
Definition add_to_conversation_history
    (h : history) (now : str) (user_id : str) (msg : str)
    (is_user : option bool) : history :=
  let is_user := default true is_user in
  let h := match h !! user_id with
           | None => <[user_id := []]> h
           | Some _ => h
           end in
  let l := default [] (h !! user_id) ++ [Entry msg is_user now] in
  let h := <[user_id := l]> h in
  if 20 <? Z.of_nat (length l)
  then <[user_id := slice_from l (-20)]> h
  else h.

(** One call of [add_to_conversation_history], with the clock reading. *)
Record append := Append {
  ap_now : str;
  ap_user : str;
  ap_message : str;
  ap_is_user : option bool
}.

Definition do_append (h : history) (a : append) : history :=
  add_to_conversation_history h (ap_now a) (ap_user a) (ap_message a)
    (ap_is_user a).

(** The store after a sequence of calls, made in order on the empty store of
    start-up. *)
Definition after_appends (ops : list append) : history :=
  foldl do_append conversation_history ops.

(** What the specification calls the last [k] entries of a history. *)
Definition last_entries {A} (k : nat) (l : list A) : list A :=
  drop (length l - k) l.

(** The messages stored for a user; none for a user id that is not a key. *)
Definition stored (h : history) (user_id : str) : list entry :=
  default [] (h !! user_id).

(** Nine messages of one user, appended to the empty store. *)
Definition nine_appends : list append :=
  (fun i => Append (u "2025-06-27T10:00:00") (u "alice") (str_of_N i) None)
    <$> [1; 2; 3; 4; 5; 6; 7; 8; 9]%N.

(** ** Python values and exceptions *)

(** The values the engine handles: what [json.loads] decodes, what the
    provider's client returns, and the dicts the handlers return. [JNull] is
    [None], [JArr] a list, [JObj] a dict with its members in insertion order
    and no key twice. A number is kept as the text that denotes it. *)
#[warnings="-register-all"]
Inductive json :=
| JNull
| JBool (b : bool)
| JNum (lexeme : str)
| JStr (s : str)
| JArr (items : list json)
| JObj (members : list (str * json)).

(** [a == b]: the comparison of the structure. This is Python's [==] whenever
    one side is a [str], an [str] being equal to nothing but the same [str];
    every comparison below has a [str] on one side once the provider's
    fields are strings. *)
Fixpoint json_eqb (a b : json) : bool :=
  match a, b with
  | JNull, JNull => true
  | JBool x, JBool y => eqb x y
  | JNum x, JNum y => str_eqb x y
  | JStr x, JStr y => str_eqb x y
  | JArr xs, JArr ys =>
      (fix arr (xs ys : list json) : bool :=
         match xs, ys with
         | [], [] => true
         | x :: xs', y :: ys' => json_eqb x y && arr xs' ys'
         | _, _ => false
         end) xs ys
  | JObj xs, JObj ys =>
      (fix obj (xs ys : list (str * json)) : bool :=
         match xs, ys with
         | [], [] => true
         | (k, x) :: xs', (l, y) :: ys' =>
             str_eqb k l && json_eqb x y && obj xs' ys'
         | _, _ => false
         end) xs ys
  | _, _ => false
  end.

(** The run of decimal digits at the head of [s]: the number they denote
    after the digits of [acc], how many they are, and what follows them. *)
Fixpoint read_digits (s : str) (acc : Z) (count : Z) : Z * Z * str :=
  match s with
  | c :: s' =>
      if ((48 <=? c) && (c <=? 57))%N
      then read_digits s' (10 * acc + Z.of_N (c - 48)) (count + 1)
      else (acc, count, s)
  | [] => (acc, count, s)
  end.

(** Whether the number a lexeme denotes is read as a number other than
    zero. The lexeme is a sign, digits, a fraction and an exponent, each but
    the digits optional. An [int] has the value of its digits; a [float] is
    the double nearest to the number denoted, ties going to the even one, so
    that a number of at most [2 ^ -1075] in absolute value is read as
    zero. *)
Definition nonzero_number (lexeme : str) : bool :=
  let unsigned :=
    match lexeme with
    | c :: r => if (c =? 45)%N then r else lexeme
    | [] => lexeme
    end in
  let '(whole, _, r) := read_digits unsigned 0 0 in
  let '(mantissa, places, r) :=
    match r with
    | c :: r' => if (c =? 46)%N then read_digits r' whole 0 else (whole, 0, r)
    | [] => (whole, 0, r)
    end in
  let exponent :=
    match r with
    | c :: r' =>
        if ((c =? 101) || (c =? 69))%N then
          match r' with
          | sign :: r'' =>
              if (sign =? 45)%N then - (read_digits r'' 0 0).1.1
              else if (sign =? 43)%N then (read_digits r'' 0 0).1.1
              else (read_digits r' 0 0).1.1
          | [] => 0
          end
        else 0
    | [] => 0
    end in
  let scale := exponent - places in
  if mantissa =? 0 then false
  else if 0 <=? scale then true
  else 10 ^ (- scale) <? mantissa * 2 ^ 1075.

(** [bool(v)], the test of [if v:]. *)
Definition truthy (v : json) : bool :=
  match v with
  | JNull => false
  | JBool b => b
  | JNum lexeme => nonzero_number lexeme || startswith (u "N") lexeme
                   || contains (u "I") lexeme
  | JStr s => negb (str_eqb s [])
  | JArr items => match items with [] => false | _ :: _ => true end
  | JObj members => match members with [] => false | _ :: _ => true end
  end.

(** The classes of the exceptions that can reach a handler. *)
Inductive exn_class :=
| HttpError
| JSONDecodeError
| KeyError
| IndexError
| AttributeError
| TypeError
| ValueError
| OtherException.

(** A raised exception: its class and the text of [str(e)]. *)
Record exn := Exn { exn_cls : exn_class; exn_str : str }.

(** What evaluating an expression gives: a value or a raised exception. *)
Inductive result (A : Type) :=
| Ok (a : A)
| Raise (e : exn).
Arguments Ok {A} a.
Arguments Raise {A} e.

Definition rbind {A B} (r : result A) (f : A -> result B) : result B :=
  match r with
  | Ok a => f a
  | Raise e => Raise e
  end.

Declare Scope result_scope.
Delimit Scope result_scope with result.
Notation "x <- r ;; k" := (rbind r (fun x => k))
  (at level 100, r at next level, right associativity) : result_scope.

(** [type(v).__name__]. *)
Definition type_name (v : json) : str :=
  match v with
  | JNull => u "NoneType"
  | JBool _ => u "bool"
  | JNum lexeme =>
      if contains (u ".") lexeme || contains (u "e") lexeme
         || contains (u "E") lexeme || contains (u "N") lexeme
         || contains (u "I") lexeme
      then u "float" else u "int"
  | JStr _ => u "str"
  | JArr _ => u "list"
  | JObj _ => u "dict"
  end.

Definition no_attribute (v : json) (attr : str) : exn :=
  Exn AttributeError
    (u "'" ++ type_name v ++ u "' object has no attribute '" ++ attr ++ u "'").

(** The value bound to a key of a dict. *)
Fixpoint lookup_member (k : str) (members : list (str * json)) : option json :=
  match members with
  | [] => None
  | (k', v) :: rest => if str_eqb k k' then Some v else lookup_member k rest
  end.

(** [d[k] = v] on the members of a dict: a bound key keeps its place. *)
Fixpoint set_member (k : str) (v : json) (members : list (str * json))
    : list (str * json) :=
  match members with
  | [] => [(k, v)]
  | (k', v') :: rest =>
      if str_eqb k k' then (k, v) :: rest else (k', v') :: set_member k v rest
  end.

(** [v.get(k, dflt)]. *)
Definition py_get (v : json) (k : str) (dflt : json) : result json :=
  match v with
  | JObj members => Ok (default dflt (lookup_member k members))
  | _ => Raise (no_attribute v (u "get"))
  end.

(** [v[k]] for a [str] key [k]. *)
Definition py_getitem (v : json) (k : str) : result json :=
  match v with
  | JObj members =>
      match lookup_member k members with
      | Some x => Ok x
      | None => Raise (Exn KeyError (u "'" ++ k ++ u "'"))
      end
  | JArr _ =>
      Raise (Exn TypeError (u "list indices must be integers or slices, not str"))
  | JStr _ =>
      Raise (Exn TypeError (u "string indices must be integers"))
  | _ =>
      Raise (Exn TypeError
               (u "'" ++ type_name v ++ u "' object is not subscriptable"))
  end.

(** [v[0]]. *)
Definition py_first (v : json) : result json :=
  match v with
  | JArr (x :: _) => Ok x
  | JArr [] => Raise (Exn IndexError (u "list index out of range"))
  | JStr (c :: _) => Ok (JStr [c])
  | JStr [] => Raise (Exn IndexError (u "string index out of range"))
  | JObj members =>
      Raise (Exn KeyError (u "0"))
  | _ =>
      Raise (Exn TypeError
               (u "'" ++ type_name v ++ u "' object is not subscriptable"))
  end.

(** [v.lower()]. *)
Definition py_lower (U : interpreter) (v : json) : result str :=
  match v with
  | JStr s => Ok (lower U s)
  | _ => Raise (no_attribute v (u "lower"))
  end.

(** [v.replace(old, new)]. *)
Definition py_replace (v : json) (old new : str) : result str :=
  match v with
  | JStr s => Ok (replace old new s)
  | _ => Raise (no_attribute v (u "replace"))
  end.

(** The part of [s] before the first [sep]: [s.split(sep)[0]] for a single
    code point [sep]. *)
Fixpoint before_first (sep : N) (s : str) : str :=
  match s with
  | [] => []
  | c :: s' => if (c =? sep)%N then [] else c :: before_first sep s'
  end.

(** [v.split('T')[0]]. *)
Definition py_split_T_first (v : json) : result str :=
  match v with
  | JStr s => Ok (before_first 84 s)
  | _ => Raise (no_attribute v (u "split"))
  end.

(** What [for x in v] runs through. *)
Definition py_iter (v : json) : result (list json) :=
  match v with
  | JArr items => Ok items
  | JObj members => Ok ((fun kv => JStr (fst kv)) <$> members)
  | JStr s => Ok ((fun c => JStr [c]) <$> s)
  | _ =>
      Raise (Exn TypeError
               (u "'" ++ type_name v ++ u "' object is not iterable"))
  end.

(** The text an f-string puts for [{v}]. A [str] is put as it is; inside a
    list or a dict Python puts the [repr] of the members, of which the
    quoting of a [str] is rendered here with single quotes and no escape. A
    number is put with the text it was written with, which is the text
    Python puts for it when it was written as Python writes it ([1.5], not
    [1.50] or [15e-1]). *)
Fixpoint py_repr (v : json) : str :=
  match v with
  | JNull => u "None"
  | JBool true => u "True"
  | JBool false => u "False"
  | JNum lexeme => lexeme
  | JStr s => u "'" ++ s ++ u "'"
  | JArr items =>
      u "[" ++
      (fix join (l : list json) : str :=
         match l with
         | [] => []
         | [x] => py_repr x
         | x :: l' => py_repr x ++ u ", " ++ join l'
         end) items ++ u "]"
  | JObj members =>
      u "{" ++
      (fix join (l : list (str * json)) : str :=
         match l with
         | [] => []
         | [(k, x)] => u "'" ++ k ++ u "': " ++ py_repr x
         | (k, x) :: l' => u "'" ++ k ++ u "': " ++ py_repr x ++ u ", " ++ join l'
         end) members ++ u "}"
  end.

Definition py_str (v : json) : str :=
  match v with
  | JStr s => s
  | _ => py_repr v
  end.

(** ['\n'.join(lines)]. *)
Fixpoint join_lines (lines : list str) : str :=
  match lines with
  | [] => []
  | [l] => l
  | l :: rest => l ++ [10%N] ++ join_lines rest
  end.

(** ** The scheduling provider *)

(** The requests the handlers send to Google Calendar and Google Tasks, with
    the arguments that vary. *)
Inductive call :=
| TasklistsList
| TasksList (tasklist : json)
| TasksDelete (tasklist task : json)
| EventsList
| EventsDelete (event_id : json)
| OtherCall (request : json).

(** The provider as one request sees it: whether [get_calendar_service] and
    [get_tasks_service] give a service or an error text, and what
    [.execute()] gives for each request. *)
Record provider := Provider {
  calendar_service_error : option str;
  tasks_service_error : option str;
  execute : call -> result json
}.

(** A computation that sends requests: the requests sent, in order, and the
    value or the exception it ends with. *)
Definition M (A : Type) : Type := list call * result A.

Definition ret {A} (a : A) : M A := ([], Ok a).

Definition raise {A} (e : exn) : M A := ([], Raise e).

Definition lift {A} (r : result A) : M A := ([], r).

Definition bind {A B} (m : M A) (f : A -> M B) : M B :=
  match m with
  | (log, Ok a) => let '(log', r) := f a in (log ++ log', r)
  | (log, Raise e) => (log, Raise e)
  end.

(** [try: m  except Exception as e: handler e]. *)
Definition try_except {A} (m : M A) (handler : exn -> M A) : M A :=
  match m with
  | (log, Raise e) => let '(log', r) := handler e in (log ++ log', r)
  | done => done
  end.

(** Sending a request. *)
Definition send (p : provider) (c : call) : M json := ([c], execute p c).

Declare Scope M_scope.
Delimit Scope M_scope with M.
Notation "x <- m ;; k" := (bind m (fun x => k))
  (at level 100, m at next level, right associativity) : M_scope.

(** The requests a computation sent and what it returned. *)
Definition calls_of {A} (m : M A) : list call := fst m.
Definition outcome {A} (m : M A) : result A := snd m.

(** A request that deletes an item. *)
Definition is_delete (c : call) : bool :=
  match c with
  | TasksDelete _ _ | EventsDelete _ => true
  | _ => false
  end.

(** The dict [{"error": text}]. *)
Definition error_envelope (text : str) : json :=
  JObj [(u "error", JStr text)].
(** ** [datetime] *)

(** A [datetime.datetime]: the fields of the wall clock and, for an aware
    value, the offset from UTC in microseconds. *)
Record datetime := Datetime {
  dt_year : Z;
  dt_month : Z;
  dt_day : Z;
  dt_hour : Z;
  dt_minute : Z;
  dt_second : Z;
  dt_microsecond : Z;
  dt_utcoffset : option Z
}.

Definition is_digit (c : N) : bool := ((48 <=? c) && (c <=? 57))%N.

(** The number a run of decimal digits denotes. *)
Fixpoint number_of (s : str) (acc : Z) : option Z :=
  match s with
  | [] => Some acc
  | c :: s' =>
      if is_digit c then number_of s' (10 * acc + Z.of_N (c - 48)) else None
  end.

(** Exactly [n] digits at the head of [s]: their number and what follows. *)
Definition digits (n : nat) (s : str) : option (Z * str) :=
  if bool_decide (length (take n s) = n)
  then v ← number_of (take n s) 0; Some (v, drop n s)
  else None.

(** An expected code point at the head of [s]. *)
Definition expect (c : N) (s : str) : option str :=
  match s with
  | d :: s' => if (d =? c)%N then Some s' else None
  | [] => None
  end.

(** [HH], [HH:MM], [HH:MM:SS], [HH:MM:SS.fff] or [HH:MM:SS.ffffff]: hours,
    minutes, seconds, microseconds. *)
Definition parse_clock (s : str) : option (Z * Z * Z * Z) :=
  '(hh, s) ← digits 2 s;
  match s with
  | [] => Some (hh, 0, 0, 0)
  | _ =>
      s ← expect 58 s;
      '(mm, s) ← digits 2 s;
      match s with
      | [] => Some (hh, mm, 0, 0)
      | _ =>
          s ← expect 58 s;
          '(ss, s) ← digits 2 s;
          match s with
          | [] => Some (hh, mm, ss, 0)
          | _ =>
              s ← expect 46 s;
              if bool_decide (length s = 3%nat)
              then f ← number_of s 0; Some (hh, mm, ss, f * 1000)
              else if bool_decide (length s = 6%nat)
              then f ← number_of s 0; Some (hh, mm, ss, f)
              else None
          end
      end
  end.

(** An offset after its sign: [HH:MM], [HH:MM:SS] or [HH:MM:SS.ffffff]. *)
Definition parse_offset (s : str) : option (Z * Z * Z * Z) :=
  if bool_decide (length s = 2%nat) then None else parse_clock s.

(** The text before the first sign and, when there is one, the sign and the
    text after it. *)
Fixpoint split_at_sign (s : str) : str * option (Z * str) :=
  match s with
  | [] => ([], None)
  | c :: s' =>
      if (c =? 43)%N then ([], Some (1, s'))
      else if (c =? 45)%N then ([], Some (-1, s'))
      else let '(clock, tz) := split_at_sign s' in (c :: clock, tz)
  end.

Definition is_leap (y : Z) : bool :=
  (y mod 4 =? 0) && (negb (y mod 100 =? 0) || (y mod 400 =? 0)).

Definition days_in_month (y m : Z) : Z :=
  if m =? 2 then (if is_leap y then 29 else 28)
  else if (m =? 4) || (m =? 6) || (m =? 9) || (m =? 11) then 30
  else 31.

Definition days_before_year (y : Z) : Z :=
  (y - 1) * 365 + (y - 1) / 4 - (y - 1) / 100 + (y - 1) / 400.

Fixpoint days_before_month_from (y : Z) (m : nat) : Z :=
  match m with
  | O => 0
  | S m' => days_before_month_from y m' + days_in_month y (Z.of_nat m)
  end.

(** The days of the year [y] that precede the month [m]. *)
Definition days_before_month (y m : Z) : Z :=
  days_before_month_from y (Z.to_nat (m - 1)).

(** The proleptic Gregorian ordinal of a date, 1 for 0001-01-01. *)
Definition ymd2ord (y m d : Z) : Z :=
  days_before_year y + days_before_month y m + d.

Definition invalid_isoformat (s : str) : exn :=
  Exn ValueError (u "Invalid isoformat string: '" ++ s ++ u "'").

(** The checks of the [datetime] constructor on the fields read. *)
Definition check_fields (y m d hh mm ss : Z) : result unit :=
  if negb ((1 <=? y) && (y <=? 9999))
  then Raise (Exn ValueError (u "year is out of range"))
  else if negb ((1 <=? m) && (m <=? 12))
  then Raise (Exn ValueError (u "month must be in 1..12"))
  else if negb ((1 <=? d) && (d <=? days_in_month y m))
  then Raise (Exn ValueError (u "day is out of range for month"))
  else if negb (hh <=? 23)
  then Raise (Exn ValueError (u "hour must be in 0..23"))
  else if negb (mm <=? 59)
  then Raise (Exn ValueError (u "minute must be in 0..59"))
  else if negb (ss <=? 59)
  then Raise (Exn ValueError (u "second must be in 0..59"))
  else Ok tt.

Definition microseconds_per_day : Z := 86400 * 1000000.

(** [datetime.fromisoformat(s)] on the formats [datetime.isoformat()]
    writes, which every Python since 3.7 reads:
    [YYYY-MM-DD], then optionally one separator and a clock
    [HH[:MM[:SS[.fff[fff]]]]], then optionally an offset
    [+HH:MM[:SS[.ffffff]]] or [-HH:MM[:SS[.ffffff]]]. Any other text is
    taken as rejected with [ValueError] (Python 3.11 and later read more
    spellings). *)
Definition fromisoformat (s : str) : result datetime :=
  match
    ('(y, r) ← digits 4 s;
     r ← expect 45 r;
     '(m, r) ← digits 2 r;
     r ← expect 45 r;
     '(d, r) ← digits 2 r;
     match r with
     | [] => Some (y, m, d, (0, 0, 0, 0), None)
     | _ :: r =>
         let '(clock, tz) := split_at_sign r in
         hmsf ← parse_clock clock;
         match tz with
         | None => Some (y, m, d, hmsf, None)
         | Some (sign, tz) =>
             '(th, tm, ts, tf) ← parse_offset tz;
             Some (y, m, d, hmsf,
                   Some (sign * (((th * 60 + tm) * 60 + ts) * 1000000 + tf)))
         end
     end)
  with
  | None => Raise (invalid_isoformat s)
  | Some (y, m, d, (hh, mm, ss, ff), tz) =>
      (_ <- check_fields y m d hh mm ss ;;
       match tz with
       | Some off =>
           if (- microseconds_per_day <? off) && (off <? microseconds_per_day)
           then Ok (Datetime y m d hh mm ss ff tz)
           else Raise (Exn ValueError
                  (u "offset must be a timedelta strictly between -timedelta(hours=24) and timedelta(hours=24)."))
       | None => Ok (Datetime y m d hh mm ss ff None)
       end)%result
  end.

(** [datetime.fromisoformat(v)] on a value. *)
Definition py_fromisoformat (v : json) : result datetime :=
  match v with
  | JStr s => fromisoformat s
  | _ => Raise (Exn TypeError (u "fromisoformat: argument must be str"))
  end.

(** The microseconds from 0001-01-01T00:00 to the wall clock of [d]. *)
Definition wall_microseconds (d : datetime) : Z :=
  (((ymd2ord (dt_year d) (dt_month d) (dt_day d) - 1) * 24 + dt_hour d) * 60
   + dt_minute d) * 60 * 1000000
  + dt_second d * 1000000 + dt_microsecond d.

(** [a - b], as the microseconds of the [timedelta]. Two aware values are
    compared as instants, two naive ones as wall clocks; Python refuses to
    subtract one of each. *)
Definition dt_sub (a b : datetime) : result Z :=
  match dt_utcoffset a, dt_utcoffset b with
  | None, None => Ok (wall_microseconds a - wall_microseconds b)
  | Some oa, Some ob =>
      Ok ((wall_microseconds a - oa) - (wall_microseconds b - ob))
  | _, _ =>
      Raise (Exn TypeError
               (u "can't subtract offset-naive and offset-aware datetimes"))
  end.

(** [abs(delta.total_seconds()) <= 3600] for a [timedelta] of [delta]
    microseconds. [total_seconds()] is the correctly rounded quotient by
    [10**6], and 3600 is a float, so the comparison is that of the exact
    values. *)
Definition within_one_hour (delta : Z) : bool :=
  Z.abs delta <=? 3600 * 1000000.

(** A field of [strftime], zero-padded to two digits. *)
Definition pad2 (n : Z) : str :=
  [(48 + Z.to_N (n / 10 mod 10))%N; (48 + Z.to_N (n mod 10))%N].

(** [d.strftime('%H:%M')]. *)
Definition strftime_HM (d : datetime) : str :=
  pad2 (dt_hour d) ++ u ":" ++ pad2 (dt_minute d).

(** [d.strftime('%m/%d/%Y')]; the year is put with the digits it has. *)
Definition strftime_mdY (d : datetime) : str :=
  pad2 (dt_month d) ++ u "/" ++ pad2 (dt_day d) ++ u "/"
  ++ str_of_N (Z.to_N (dt_year d)).

(** [d.strftime('%m/%d/%Y at %I:%M %p')] in the C locale. *)
Definition strftime_mdY_at_IMp (d : datetime) : str :=
  let h12 := if dt_hour d mod 12 =? 0 then 12 else dt_hour d mod 12 in
  strftime_mdY d ++ u " at " ++ pad2 h12 ++ u ":" ++ pad2 (dt_minute d)
  ++ u " " ++ (if dt_hour d <? 12 then u "AM" else u "PM").
(** ** Handlers of [app.py] *)

Definition nl : str := [10%N].

(** The non-ASCII runs of the literals of the source, as the interpreter
    reads them. *)
Definition mark_bullet : str := [8218; 196; 162]%N.
Definition mark_cross : str := [8218; 249; 229]%N.
Definition mark_check : str := [8218; 250; 214]%N.
Definition mark_clipboard : str := [63743; 252; 236; 227]%N.
Definition mark_calendar : str := [63743; 252; 236; 214]%N.
Definition mark_lens : str := [63743; 252; 238; 231]%N.

(** [len(l)] put in an f-string. *)
Definition str_of_len {A} (l : list A) : str := str_of_N (N.of_nat (length l)).

(** Running a loop body over a list, stopping at the first exception. *)
Fixpoint for_each {A B} (body : A -> result B) (l : list A) : result (list B) :=
  match l with
  | [] => Ok []
  | x :: l' =>
      (y <- body x ;;
       ys <- for_each body l' ;;
       Ok (y :: ys))%result
  end.

(** A loop that appends to a list the items its body selects. *)
Fixpoint select (keep : json -> result bool) (l : list json)
    : result (list json) :=
  match l with
  | [] => Ok []
  | x :: l' =>
      (b <- keep x ;;
       rest <- select keep l' ;;
       Ok (if b then x :: rest else rest))%result
  end.

(** The test of both [find_and_delete] handlers on two lowered texts:
    [search_description in title or title in search_description]. *)
Definition title_matches (search_description title : str) : bool :=
  contains search_description title || contains title search_description.

(** One line of the task list shown to the user
    (lines 1400-1407 and 1437-1444). *)
Definition format_task (task : json) : result str :=
  (due_date <- py_get task (u "due") JNull ;;
   if truthy due_date then
     due_text <- py_replace due_date (u "Z") (u "+00:00") ;;
     due_date_obj <- fromisoformat due_text ;;
     title <- py_get task (u "title") (JStr (u "Untitled Task")) ;;
     Ok (mark_bullet ++ u " " ++ py_str title ++ u " (Due: "
         ++ strftime_mdY due_date_obj ++ u ")")
   else
     title <- py_get task (u "title") (JStr (u "Untitled Task")) ;;
     Ok (mark_bullet ++ u " " ++ py_str title ++ u " (Due: No due date)"))%result.

(** One line of the event list shown to the user
    (lines 1543-1554 and 1585-1596). *)
Definition format_event (event : json) : result str :=
  (start_date <- py_get event (u "start") (JObj []) ;;
   date_time <- py_get start_date (u "dateTime") JNull ;;
   if truthy date_time then
     date_time <- py_getitem start_date (u "dateTime") ;;
     start_text <- py_replace date_time (u "Z") (u "+00:00") ;;
     start_time <- fromisoformat start_text ;;
     summary <- py_get event (u "summary") (JStr (u "Untitled Event")) ;;
     Ok (mark_bullet ++ u " " ++ py_str summary ++ u " ("
         ++ strftime_mdY_at_IMp start_time ++ u ")")
   else
     date <- py_get start_date (u "date") JNull ;;
     if truthy date then
       start_date_obj <- py_fromisoformat date ;;
       summary <- py_get event (u "summary") (JStr (u "Untitled Event")) ;;
       Ok (mark_bullet ++ u " " ++ py_str summary ++ u " (All day - "
           ++ strftime_mdY start_date_obj ++ u ")")
     else
       summary <- py_get event (u "summary") (JStr (u "Untitled Event")) ;;
       Ok (mark_bullet ++ u " " ++ py_str summary ++ u " (No date specified)"))%result.

(** The body of the loop of lines 1392-1395: whether a task is appended to
    [matching_tasks]. *)
Definition task_matches (U : interpreter) (search_description : str)
    (task : json) : result bool :=
  (title <- py_get task (u "title") (JStr []) ;;
   task_title <- py_lower U title ;;
   Ok (title_matches search_description task_title))%result.

(** [date_matches] of lines 1508-1535, for an event whose title matches. *)
Definition date_matches
    (instruction_date instruction_datetime_start instruction_time : json)
    (event_datetime event_date : json) : result bool :=
  (if truthy instruction_date then
     if truthy event_date then
       Ok (json_eqb event_date instruction_date)
     else if truthy event_datetime then
       event_date_part <- py_split_T_first event_datetime ;;
       Ok (json_eqb (JStr event_date_part) instruction_date)
     else Ok true
   else if truthy instruction_datetime_start then
     if truthy event_datetime then
       event_text <- py_replace event_datetime (u "Z") (u "+00:00") ;;
       event_dt <- fromisoformat event_text ;;
       instruction_text <-
         py_replace instruction_datetime_start (u "Z") (u "+00:00") ;;
       instruction_dt <- fromisoformat instruction_text ;;
       delta <- dt_sub event_dt instruction_dt ;;
       Ok (within_one_hour delta)
     else Ok true
   else if truthy instruction_time then
     if truthy event_datetime then
       event_text <- py_replace event_datetime (u "Z") (u "+00:00") ;;
       event_dt <- fromisoformat event_text ;;
       Ok (json_eqb (JStr (strftime_HM event_dt)) instruction_time)
     else Ok true
   else Ok true)%result.

(** The body of the loop of lines 1498-1538: whether an event is appended
    to [matching_events]. *)
Definition event_matches (U : interpreter)
    (search_description : str)
    (instruction_date instruction_datetime_start instruction_time : json)
    (event : json) : result bool :=
  (summary <- py_get event (u "summary") (JStr []) ;;
   event_title <- py_lower U summary ;;
   if title_matches search_description event_title then
     event_start <- py_get event (u "start") (JObj []) ;;
     event_datetime <- py_get event_start (u "dateTime") JNull ;;
     event_date <- py_get event_start (u "date") JNull ;;
     date_matches instruction_date instruction_datetime_start instruction_time
       event_datetime event_date
   else Ok false)%result.

(** [tasklists['items'][0]['id'] if tasklists['items'] else '@default']. *)
Definition default_tasklist_id (tasklists : json) : result json :=
  (items <- py_getitem tasklists (u "items") ;;
   if truthy items then
     items <- py_getitem tasklists (u "items") ;;
     first <- py_first items ;;
     py_getitem first (u "id")
   else Ok (JStr (u "@default")))%result.

Section Handlers.

Context (U : interpreter) (p : provider).

Local Open Scope M_scope.

(** [find_and_delete_task_from_instruction(instruction, user_id)]. *)
Definition find_and_delete_task_from_instruction
    (instruction : json) (user_id : str) : M json :=
  try_except
    (match tasks_service_error p with
     | Some error => ret (error_envelope error)
     | None =>
         tasklists <- send p TasklistsList ;;
         tasklist_id <- lift (default_tasklist_id tasklists) ;;
         tasks_result <- send p (TasksList tasklist_id) ;;
         tasks <- lift (py_get tasks_result (u "items") (JArr [])) ;;
         if negb (truthy tasks) then
           ret (JObj
                  [(u "success", JBool true);
                   (u "message", JStr (u "No tasks found to delete."));
                   (u "formatted_response",
                    JStr (mark_clipboard ++ u " **No tasks found**" ++ nl ++ nl
                          ++ u "There are no tasks available to delete."))])
         else
           title <- lift (py_get instruction (u "title") (JStr [])) ;;
           search_description <- lift (py_lower U title) ;;
           all_tasks <- lift (py_iter tasks) ;;
           matching_tasks <-
             lift (select (task_matches U search_description) all_tasks) ;;
           match matching_tasks with
           | [] =>
               task_list <- lift (for_each format_task all_tasks) ;;
               let formatted_tasks := join_lines task_list in
               ret (JObj
                      [(u "success", JBool true);
                       (u "message",
                        JStr (u "No tasks found matching '" ++ search_description
                              ++ u "'. Here are all your tasks:"));
                       (u "tasks", tasks);
                       (u "formatted_response",
                        JStr (mark_cross ++ u " **No matching tasks found**"
                              ++ nl ++ nl
                              ++ u "I couldn't find any tasks matching '"
                              ++ search_description
                              ++ u "'. Here are all your tasks:" ++ nl ++ nl
                              ++ formatted_tasks ++ nl ++ nl
                              ++ u "Please specify which task you'd like to delete."))])
           | [task_to_delete] =>
               task_title <-
                 lift (py_get task_to_delete (u "title")
                         (JStr (u "Untitled Task"))) ;;
               task_id <- lift (py_getitem task_to_delete (u "id")) ;;
               _ <- send p (TasksDelete tasklist_id task_id) ;;
               ret (JObj
                      [(u "success", JBool true);
                       (u "message",
                        JStr (u "Task '" ++ py_str task_title
                              ++ u "' deleted successfully."));
                       (u "formatted_response",
                        JStr (mark_check ++ u " **Task Deleted**" ++ nl ++ nl
                              ++ u "Successfully deleted: " ++ py_str task_title))])
           | _ =>
               task_list <- lift (for_each format_task matching_tasks) ;;
               let formatted_tasks := join_lines task_list in
               ret (JObj
                      [(u "success", JBool true);
                       (u "message",
                        JStr (u "Found " ++ str_of_len matching_tasks
                              ++ u " tasks matching '" ++ search_description
                              ++ u "'. Please specify which one to delete:"));
                       (u "tasks", JArr matching_tasks);
                       (u "formatted_response",
                        JStr (mark_lens ++ u " **Multiple matches found**"
                              ++ nl ++ nl
                              ++ u "Found " ++ str_of_len matching_tasks
                              ++ u " tasks matching '" ++ search_description
                              ++ u "':" ++ nl ++ nl
                              ++ formatted_tasks ++ nl ++ nl
                              ++ u "Please specify which task you'd like to delete by providing more details."))])
           end
     end)
    (fun e =>
       ret (error_envelope (u "Failed to find and delete task: " ++ exn_str e))).

(** [find_and_delete_calendar_event_from_instruction(instruction, user_id)].
    The window of the listing, from now to thirty days later, is in the
    request the provider answers. *)
Definition find_and_delete_calendar_event_from_instruction
    (instruction : json) (user_id : str) : M json :=
  try_except
    (match calendar_service_error p with
     | Some error => ret (error_envelope error)
     | None =>
         events_result <- send p EventsList ;;
         events <- lift (py_get events_result (u "items") (JArr [])) ;;
         if negb (truthy events) then
           ret (JObj
                  [(u "success", JBool true);
                   (u "message", JStr (u "No events found to delete."));
                   (u "formatted_response",
                    JStr (mark_calendar ++ u " **No events found**" ++ nl ++ nl
                          ++ u "There are no events available to delete."))])
         else
           title <- lift (py_get instruction (u "title") (JStr [])) ;;
           search_description <- lift (py_lower U title) ;;
           instruction_date <- lift (py_get instruction (u "date") JNull) ;;
           instruction_datetime_start <-
             lift (py_get instruction (u "datetime_start") JNull) ;;
           instruction_time <- lift (py_get instruction (u "time") JNull) ;;
           all_events <- lift (py_iter events) ;;
           matching_events <-
             lift (select
                     (event_matches U search_description instruction_date
                        instruction_datetime_start instruction_time)
                     all_events) ;;
           match matching_events with
           | [] =>
               event_list <- lift (for_each format_event all_events) ;;
               let formatted_events := join_lines event_list in
               ret (JObj
                      [(u "success", JBool true);
                       (u "message",
                        JStr (u "No events found matching '" ++ search_description
                              ++ u "'. Here are all your events:"));
                       (u "events", events);
                       (u "formatted_response",
                        JStr (mark_cross ++ u " **No matching events found**"
                              ++ nl ++ nl
                              ++ u "I couldn't find any events matching '"
                              ++ search_description
                              ++ u "'. Here are your upcoming events:" ++ nl ++ nl
                              ++ formatted_events ++ nl ++ nl
                              ++ u "Please specify which event you'd like to delete."))])
           | [event_to_delete] =>
               event_title <-
                 lift (py_get event_to_delete (u "summary")
                         (JStr (u "Untitled Event"))) ;;
               event_id <- lift (py_getitem event_to_delete (u "id")) ;;
               _ <- send p (EventsDelete event_id) ;;
               ret (JObj
                      [(u "success", JBool true);
                       (u "message",
                        JStr (u "Event '" ++ py_str event_title
                              ++ u "' deleted successfully."));
                       (u "formatted_response",
                        JStr (mark_check ++ u " **Event Deleted**" ++ nl ++ nl
                              ++ u "Successfully deleted: " ++ py_str event_title))])
           | _ =>
               event_list <- lift (for_each format_event matching_events) ;;
               let formatted_events := join_lines event_list in
               ret (JObj
                      [(u "success", JBool true);
                       (u "message",
                        JStr (u "Found " ++ str_of_len matching_events
                              ++ u " events matching '" ++ search_description
                              ++ u "'. Please specify which one to delete:"));
                       (u "events", JArr matching_events);
                       (u "formatted_response",
                        JStr (mark_lens ++ u " **Multiple matches found**"
                              ++ nl ++ nl
                              ++ u "Found " ++ str_of_len matching_events
                              ++ u " events matching '" ++ search_description
                              ++ u "':" ++ nl ++ nl
                              ++ formatted_events ++ nl ++ nl
                              ++ u "Please specify which event you'd like to delete by providing more details."))])
           end
     end)
    (fun e =>
       ret (error_envelope
              (u "Failed to find and delete calendar event: " ++ exn_str e))).

(** [delete_calendar_event_from_instruction(instruction, user_id)]. *)
Definition delete_calendar_event_from_instruction
    (instruction : json) (user_id : str) : M json :=
  try_except
    (match calendar_service_error p with
     | Some error => ret (error_envelope error)
     | None =>
         event_id <- lift (py_get instruction (u "event_id") JNull) ;;
         if negb (truthy event_id) then
           ret (error_envelope (u "Event ID is required for deletion"))
         else
           _ <- send p (EventsDelete event_id) ;;
           ret (JObj
                  [(u "success", JBool true);
                   (u "message", JStr (u "Event deleted successfully"));
                   (u "event_id", event_id)])
     end)
    (fun e =>
       match exn_cls e with
       | HttpError =>
           ret (error_envelope (u "Calendar API error: " ++ exn_str e))
       | _ =>
           ret (error_envelope
                  (u "Failed to delete calendar event: " ++ exn_str e))
       end).

(** [delete_task_from_instruction(instruction, user_id)]. *)
Definition delete_task_from_instruction
    (instruction : json) (user_id : str) : M json :=
  try_except
    (match tasks_service_error p with
     | Some error => ret (error_envelope error)
     | None =>
         task_id <- lift (py_get instruction (u "task_id") JNull) ;;
         if negb (truthy task_id) then
           ret (error_envelope (u "Task ID is required for deletion"))
         else
           tasklists <- send p TasklistsList ;;
           tasklist_id <- lift (default_tasklist_id tasklists) ;;
           _ <- send p (TasksDelete tasklist_id task_id) ;;
           ret (JObj
                  [(u "success", JBool true);
                   (u "message", JStr (u "Task deleted successfully"));
                   (u "task_id", task_id)])
     end)
    (fun e =>
       match exn_cls e with
       | HttpError => ret (error_envelope (u "Tasks API error: " ++ exn_str e))
       | _ => ret (error_envelope (u "Failed to delete task: " ++ exn_str e))
       end).

(** [update_calendar_event_from_instruction(instruction, user_id)]. *)
Definition update_calendar_event_from_instruction
    (instruction : json) (user_id : str) : M json :=
  ret (error_envelope
         (u "Event update requires event ID - not implemented yet")).

(** [update_task_from_instruction(instruction, user_id)]. *)
Definition update_task_from_instruction
    (instruction : json) (user_id : str) : M json :=
  ret (error_envelope
         (u "Task update requires task ID - not implemented yet")).

End Handlers.
(** ** [json.loads] *)

(** The white space of JSON. *)
Definition is_json_space (c : N) : bool :=
  ((c =? 32) || (c =? 9) || (c =? 10) || (c =? 13))%N.

Fixpoint skip_ws (s : str) : str :=
  match s with
  | c :: s' => if is_json_space c then skip_ws s' else s
  | [] => []
  end.

Definition hex_digit (c : N) : option N :=
  if ((48 <=? c) && (c <=? 57))%N then Some (c - 48)%N
  else if ((97 <=? c) && (c <=? 102))%N then Some (c - 87)%N
  else if ((65 <=? c) && (c <=? 70))%N then Some (c - 55)%N
  else None.

Definition hex4 (a b c d : N) : option N :=
  a ← hex_digit a; b ← hex_digit b; c ← hex_digit c; d ← hex_digit d;
  Some (((a * 16 + b) * 16 + c) * 16 + d)%N.

Definition simple_escape (c : N) : option N :=
  if (c =? 34)%N then Some 34%N
  else if (c =? 92)%N then Some 92%N
  else if (c =? 47)%N then Some 47%N
  else if (c =? 98)%N then Some 8%N
  else if (c =? 102)%N then Some 12%N
  else if (c =? 110)%N then Some 10%N
  else if (c =? 114)%N then Some 13%N
  else if (c =? 116)%N then Some 9%N
  else None.

Definition is_high_surrogate (c : N) : bool := ((55296 <=? c) && (c <=? 56319))%N.
Definition is_low_surrogate (c : N) : bool := ((56320 <=? c) && (c <=? 57343))%N.

(** The text of a string after its opening quote, up to the closing quote:
    the decoded text and what follows the closing quote. *)
Fixpoint scan_string (s : str) (acc : str) : option (str * str) :=
  match s with
  | [] => None
  | c :: r =>
      if (c =? 34)%N then Some (reverse acc, r)
      else if (c <? 32)%N then None
      else if (c =? 92)%N then
        match r with
        | [] => None
        | e :: r1 =>
            if (e =? 117)%N then
              match r1 with
              | a :: b :: c' :: d :: r2 =>
                  match hex4 a b c' d with
                  | None => None
                  | Some hi =>
                      match r2 with
                      | b1 :: b2 :: a2 :: b3 :: c2 :: d2 :: r3 =>
                          if is_high_surrogate hi && (b1 =? 92)%N && (b2 =? 117)%N
                          then
                            match hex4 a2 b3 c2 d2 with
                            | None => None
                            | Some lo =>
                                if is_low_surrogate lo
                                then scan_string r3
                                       ((65536 + (hi - 55296) * 1024 + (lo - 56320))%N
                                          :: acc)
                                else scan_string r2 (hi :: acc)
                            end
                          else scan_string r2 (hi :: acc)
                      | _ => scan_string r2 (hi :: acc)
                      end
                  end
              | _ => None
              end
            else
              match simple_escape e with
              | Some x => scan_string r1 (x :: acc)
              | None => None
              end
        end
      else scan_string r (c :: acc)
  end.

(** The run of digits at the head of [s] and what follows it. *)
Fixpoint span_digits (s : str) : str * str :=
  match s with
  | c :: s' =>
      if is_digit c then let '(ds, r) := span_digits s' in (c :: ds, r)
      else ([], s)
  | [] => ([], [])
  end.

(** The parts of a number at the head of a text, each with what follows
    it: an optional minus; an integer part, [0] alone or digits that do not
    start with [0]; a fraction, taken where a digit follows the point; an
    exponent, taken where a digit follows the [e] and its optional sign. *)
Definition take_sign (s : str) : str * str :=
  match s with
  | c :: r => if (c =? 45)%N then ([c], r) else ([], s)
  | [] => ([], s)
  end.

Definition take_int (s : str) : option (str * str) :=
  match s with
  | c :: r =>
      if is_digit c
      then Some (if (c =? 48)%N then ([c], r) else span_digits s)
      else None
  | [] => None
  end.

Definition take_fraction (s : str) : str * str :=
  match s with
  | dot :: d :: _ =>
      if (dot =? 46)%N && is_digit d
      then let '(ds, r) := span_digits (drop 1 s) in (dot :: ds, r)
      else ([], s)
  | _ => ([], s)
  end.

Definition take_exponent (s : str) : str * str :=
  match s with
  | e :: d :: rest =>
      if ((e =? 101) || (e =? 69))%N then
        if is_digit d
        then let '(ds, r) := span_digits (drop 1 s) in (e :: ds, r)
        else if ((d =? 43) || (d =? 45))%N then
          match rest with
          | d' :: _ =>
              if is_digit d'
              then let '(ds, r) := span_digits rest in (e :: d :: ds, r)
              else ([], s)
          | [] => ([], s)
          end
        else ([], s)
      else ([], s)
  | _ => ([], s)
  end.

(** A number at the head of [s]: its text and what follows it. *)
Definition scan_number (s : str) : option (str * str) :=
  let '(sign, s) := take_sign s in
  '(int_part, s) ← take_int s;
  let '(fraction, s) := take_fraction s in
  let '(exponent, s) := take_exponent s in
  Some (sign ++ int_part ++ fraction ++ exponent, s).

(** A word of JSON, or one of the three words Python adds to them. *)
Definition scan_word (s : str) : option (json * str) :=
  if startswith (u "null") s then Some (JNull, drop 4 s)
  else if startswith (u "true") s then Some (JBool true, drop 4 s)
  else if startswith (u "false") s then Some (JBool false, drop 5 s)
  else if startswith (u "NaN") s then Some (JNum (u "NaN"), drop 3 s)
  else if startswith (u "Infinity") s then Some (JNum (u "Infinity"), drop 8 s)
  else if startswith (u "-Infinity") s then Some (JNum (u "-Infinity"), drop 9 s)
  else None.

(** The recursive descent of the decoder. Each call is one step of [fuel];
    a document of [n] code points is decoded in at most [2 * n + 2] steps,
    two for each value it holds. *)
Fixpoint scan_value (fuel : nat) (s : str) : option (json * str) :=
  match fuel with
  | O => None
  | S fuel =>
      match s with
      | [] => None
      | c :: r =>
          if (c =? 34)%N then
            '(text, r) ← scan_string r []; Some (JStr text, r)
          else if (c =? 123)%N then
            let r := skip_ws r in
            match r with
            | d :: r' =>
                if (d =? 125)%N then Some (JObj [], r')
                else scan_members fuel r []
            | [] => None
            end
          else if (c =? 91)%N then
            let r := skip_ws r in
            match r with
            | d :: r' =>
                if (d =? 93)%N then Some (JArr [], r')
                else scan_items fuel r []
            | [] => None
            end
          else
            match scan_word s with
            | Some w => Some w
            | None => '(lexeme, r) ← scan_number s; Some (JNum lexeme, r)
            end
      end
  end
with scan_items (fuel : nat) (s : str) (acc : list json) : option (json * str) :=
  match fuel with
  | O => None
  | S fuel =>
      '(v, r) ← scan_value fuel s;
      match skip_ws r with
      | c :: r' =>
          if (c =? 93)%N then Some (JArr (reverse (v :: acc)), r')
          else if (c =? 44)%N then scan_items fuel (skip_ws r') (v :: acc)
          else None
      | [] => None
      end
  end
with scan_members (fuel : nat) (s : str) (acc : list (str * json))
    : option (json * str) :=
  match fuel with
  | O => None
  | S fuel =>
      match s with
      | q :: r =>
          if (q =? 34)%N then
            '(key, r) ← scan_string r [];
            match skip_ws r with
            | colon :: r =>
                if (colon =? 58)%N then
                  '(v, r) ← scan_value fuel (skip_ws r);
                  let acc := set_member key v acc in
                  match skip_ws r with
                  | c :: r' =>
                      if (c =? 125)%N then Some (JObj acc, r')
                      else if (c =? 44)%N then scan_members fuel (skip_ws r') acc
                      else None
                  | [] => None
                  end
                else None
            | [] => None
            end
          else None
      | [] => None
      end
  end.

(** [json.loads(s)] for a [str]: one value between optional white space, and
    nothing else. Of the [JSONDecodeError] raised otherwise, whose text names
    the reason and the place of the error, the class is what the callers
    look at. A text that the decoder refuses for its size, an integer of
    more digits than the interpreter converts or brackets nested deeper than
    its stack, is decoded here as any other: the texts decoded below are
    taken from a reply of 256 tokens at most. *)
Definition json_loads (s : str) : result json :=
  match scan_value (2 * length s + 2) (skip_ws s) with
  | Some (v, r) =>
      match skip_ws r with
      | [] => Ok v
      | _ => Raise (Exn JSONDecodeError (u "Extra data"))
      end
  | None => Raise (Exn JSONDecodeError (u "Expecting value"))
  end.

(** ** Instruction extractor *)

(** [\s*[}\]]] or [\s*}] at the head of [s]. *)
Fixpoint closes_after_space (closer : N -> bool) (s : str) : bool :=
  match s with
  | [] => false
  | c :: s' => if is_space c then closes_after_space closer s' else closer c
  end.

(** [re.sub(r',(\s*C)', r'\1', s)] for a class [C] of closing code points:
    each comma that white space and a closing code point follow is taken
    out, and what followed it is kept. A match holds one comma, at its
    start, and the scan resumes after the closing code point, so the commas
    taken out are those the pattern matches in [s] itself. *)
Fixpoint sub_trailing_commas (closer : N -> bool) (s : str) : str :=
  match s with
  | [] => []
  | c :: s' =>
      if (c =? 44)%N && closes_after_space closer s'
      then sub_trailing_commas closer s'
      else c :: sub_trailing_commas closer s'
  end.

Definition brace_or_bracket (c : N) : bool := ((c =? 125) || (c =? 93))%N.
Definition brace (c : N) : bool := (c =? 125)%N.

(** The first argument of the call of line 904, which Python reads as one
    literal between triple quotes: [, "'").replace(]. *)
Definition line_904_old : str :=
  [44; 32; 34; 39; 34; 41; 46]%N ++ u "replace(".

(** [clean_json_string(json_str)]. The two calls of line 903 replace the
    ASCII double quote by itself, and the call of line 904 replaces the text
    [line_904_old] by an ASCII single quote. *)
Definition clean_json_string (json_str : str) : str :=
  let json_str := sub_trailing_commas brace_or_bracket json_str in
  let json_str := sub_trailing_commas brace json_str in
  let json_str := replace [34%N] [34%N] (replace [34%N] [34%N] json_str) in
  let json_str := replace line_904_old (u "'") json_str in
  let json_str := strip json_str in
  json_str.

(** The longest prefix of [s] that ends with the code point [c]. *)
Fixpoint upto_last (c : N) (s : str) : option str :=
  match s with
  | [] => None
  | d :: s' =>
      match upto_last c s' with
      | Some r => Some (d :: r)
      | None => if (d =? c)%N then Some [d] else None
      end
  end.

(** A match of [instruction:\s*(\{.*\})] at the head of [s], with [.]
    matching every code point: the text of the group. *)
Definition instruction_here (s : str) : option str :=
  if startswith (u "instruction:") s then
    match lstrip (drop 12 s) with
    | c :: r => if (c =? 123)%N then (c ::.) <$> upto_last 125 r else None
    | [] => None
    end
  else None.

(** [re.search(r'instruction:\s*(\{.*\})', s, re.DOTALL)]: the group of the
    leftmost match. *)
Fixpoint search_instruction (s : str) : option str :=
  match instruction_here s with
  | Some g => Some g
  | None =>
      match s with
      | [] => None
      | _ :: s' => search_instruction s'
      end
  end.

(** The loop of lines 946-956 from the code point it is at, with the count of
    the braces open so far: the text up to the closing brace that brings the
    count back to zero, where there is one. *)
Fixpoint balanced_span (s : str) (brace_count : Z) : option str :=
  match s with
  | [] => None
  | c :: s' =>
      if (c =? 123)%N then (c ::.) <$> balanced_span s' (brace_count + 1)
      else if (c =? 125)%N then
        if brace_count - 1 =? 0 then Some [c]
        else (c ::.) <$> balanced_span s' (brace_count - 1)
      else (c ::.) <$> balanced_span s' brace_count
  end.

(** Lines 931-962: the parse of the cleaned text, with the recovery of the
    first complete object. [inl] is the instruction, [inr] the dict the
    function returns instead. *)
Definition parse_instruction (instruction_str : str) : json + json :=
  match json_loads instruction_str with
  | Ok instruction => inl instruction
  | Raise _ =>
      let start_pos := find 123 instruction_str in
      if negb (start_pos =? -1) then
        match balanced_span (drop (Z.to_nat start_pos) instruction_str) 0 with
        | Some valid_json =>
            match json_loads valid_json with
            | Ok instruction => inl instruction
            | Raise e2 =>
                inr (error_envelope
                       (u "Failed to parse instruction JSON: " ++ exn_str e2))
            end
        | None =>
            inr (error_envelope
                   (u "Failed to parse instruction JSON: Incomplete JSON object"))
        end
      else
        inr (error_envelope
               (u "Failed to parse instruction JSON: No JSON object found"))
  end.

(** ** Action dispatcher *)

Section Dispatcher.

Context (U : interpreter) (p : provider).

(** The four handlers of creation and of query, of which nothing below
    depends on more than their being handlers. *)
Context (create_calendar_event_from_instruction
         create_task_from_instruction
         query_calendar_events_from_instruction
         query_tasks_from_instruction : json -> str -> M json).

Local Open Scope M_scope.

Definition is_str (v : json) (s : string) : bool := json_eqb v (JStr (u s)).
Arguments is_str v s%_string.

(** Lines 964-1007: the chain of tests on [action] and [item_type]. A branch
    of the chain that returns nothing leaves the function at its end, which
    returns [None]. *)
Definition dispatch (instruction : json) (user_id : str) : M json :=
  action <- lift (py_get instruction (u "action") JNull) ;;
  item_type <- lift (py_get instruction (u "item_type") JNull) ;;
  if is_str action "greeting" then
    ret (JObj [(u "success", JBool true);
               (u "message", JStr (u "Greeting processed"))])
  else if is_str action "create" then
    if is_str item_type "event" then
      create_calendar_event_from_instruction instruction user_id
    else if is_str item_type "task" then
      create_task_from_instruction instruction user_id
    else ret JNull
  else if is_str action "update" then
    if is_str item_type "event" then
      update_calendar_event_from_instruction instruction user_id
    else if is_str item_type "task" then
      update_task_from_instruction instruction user_id
    else ret JNull
  else if is_str action "delete" then
    if is_str item_type "event" then
      delete_calendar_event_from_instruction p instruction user_id
    else if is_str item_type "task" then
      delete_task_from_instruction p instruction user_id
    else ret JNull
  else if is_str action "find_and_delete" then
    if is_str item_type "event" then
      find_and_delete_calendar_event_from_instruction U p instruction user_id
    else if is_str item_type "task" then
      find_and_delete_task_from_instruction U p instruction user_id
    else ret JNull
  else if is_str action "query" then
    if is_str item_type "event" then
      query_calendar_events_from_instruction instruction user_id
    else if is_str item_type "task" then
      query_tasks_from_instruction instruction user_id
    else ret JNull
  else if is_str action "clarification_needed" then
    ret (JObj [(u "success", JBool true);
               (u "message", JStr (u "Clarification needed"));
               (u "clarification", JBool true)])
  else
    ret (error_envelope (u "Unknown action: " ++ py_str action)).

(** [process_ai_instruction(ai_response, user_id)]; what it prints is left
    out. *)
Definition process_ai_instruction (ai_response : str) (user_id : str) : M json :=
  try_except
    (match search_instruction ai_response with
     | None => ret (error_envelope (u "No instruction found in AI response"))
     | Some instruction_str =>
         let instruction_str := clean_json_string instruction_str in
         match parse_instruction instruction_str with
         | inr failure => ret failure
         | inl instruction => dispatch instruction user_id
         end
     end)
    (fun e =>
       ret (error_envelope (u "Failed to process AI instruction: " ++ exn_str e))).

End Dispatcher.
(** ** Vocabulary of the properties *)

(** [needle] occurs in [hay]: the containment the specification speaks of. *)
Definition occurs_in (needle hay : str) : Prop :=
  exists before after : str, hay = before ++ needle ++ after.

(** The value of a key of a returned dict. *)
Definition field (k : string) (envelope : json) : option json :=
  match envelope with
  | JObj members => lookup_member (u k) members
  | _ => None
  end.
Arguments field k%_string envelope.

(** A success envelope: a dict whose ["success"] is [True]. *)
Definition is_success (envelope : json) : Prop :=
  field "success" envelope = Some (JBool true).

(** An error envelope: a dict with an ["error"] text. *)
Definition is_error (envelope : json) : Prop :=
  exists text : str, envelope = error_envelope text.

(** The two kinds of item and their [find_and_delete] handler. *)
Inductive item_kind := Task | Event.

Definition find_and_delete (U : interpreter) (k : item_kind) (p : provider)
    : json -> str -> M json :=
  match k with
  | Task => find_and_delete_task_from_instruction U p
  | Event => find_and_delete_calendar_event_from_instruction U p
  end.

(** The key under which a handler lists items, and the items it lists. *)
Definition items_key (k : item_kind) : string :=
  match k with
  | Task => "tasks"
  | Event => "events"
  end.

Definition listed (k : item_kind) (envelope : json) : list json :=
  match field (items_key k) envelope with
  | Some (JArr items) => items
  | _ => []
  end.

(** The ids of the items a run asked the provider to delete. *)
Definition deleted_ids (log : list call) : list json :=
  omap (fun c =>
          match c with
          | TasksDelete _ task => Some task
          | EventsDelete event_id => Some event_id
          | _ => None
          end) log.

(** The provider answers the listing of the handler with [candidates]. *)
Definition browsed (k : item_kind) (p : provider) (candidates : list json)
    : Prop :=
  match k with
  | Task =>
      tasks_service_error p = None /\
      exists tasklists tasklist_id tasks_result : json,
        execute p TasklistsList = Ok tasklists /\
        default_tasklist_id tasklists = Ok tasklist_id /\
        execute p (TasksList tasklist_id) = Ok tasks_result /\
        py_get tasks_result (u "items") (JArr []) = Ok (JArr candidates)
  | Event =>
      calendar_service_error p = None /\
      exists events_result : json,
        execute p EventsList = Ok events_result /\
        py_get events_result (u "items") (JArr []) = Ok (JArr candidates)
  end.

(** [search_description] of both handlers. *)
Definition search_description_of (U : interpreter) (instruction : json)
    : result str :=
  (title <- py_get instruction (u "title") (JStr []) ;;
   py_lower U title)%result.

(** What the matching loop of the handler leaves in [matching_tasks] or
    [matching_events]. *)
Definition selection (U : interpreter) (k : item_kind) (instruction : json)
    (candidates : list json) : result (list json) :=
  match k with
  | Task =>
      (search_description <- search_description_of U instruction ;;
       select (task_matches U search_description) candidates)%result
  | Event =>
      (search_description <- search_description_of U instruction ;;
       instruction_date <- py_get instruction (u "date") JNull ;;
       instruction_datetime_start <-
         py_get instruction (u "datetime_start") JNull ;;
       instruction_time <- py_get instruction (u "time") JNull ;;
       select
         (event_matches U search_description instruction_date
            instruction_datetime_start instruction_time)
         candidates)%result
  end.

Definition is_ok {A} (r : result A) : bool :=
  match r with
  | Ok _ => true
  | Raise _ => false
  end.

Definition absent_or_str (v : option json) : bool :=
  match v with
  | None | Some (JStr _) => true
  | Some _ => false
  end.

(** A field that is absent, or falsy, or a text that [read] accepts. *)
Definition absent_or_readable {A} (read : str -> result A) (v : option json)
    : bool :=
  match v with
  | None => true
  | Some (JStr s) => negb (truthy (JStr s)) || is_ok (read s)
  | Some other => negb (truthy other)
  end.

(** A task as Google Tasks returns it: a dict with an id, whose title is a
    text where it has one and whose due date is an RFC 3339 timestamp where
    it has one. *)
Definition well_formed_task (task : json) : bool :=
  match task with
  | JObj members =>
      absent_or_str (lookup_member (u "title") members)
      && bool_decide (is_Some (lookup_member (u "id") members))
      && absent_or_readable
           (fun s => fromisoformat (replace (u "Z") (u "+00:00") s))
           (lookup_member (u "due") members)
  | _ => false
  end.

(** An event as Google Calendar returns it: a dict with an id, whose summary
    is a text where it has one and whose start, where it has one, is a dict
    of a timestamp or of a date. *)
Definition well_formed_event (event : json) : bool :=
  match event with
  | JObj members =>
      absent_or_str (lookup_member (u "summary") members)
      && bool_decide (is_Some (lookup_member (u "id") members))
      && match lookup_member (u "start") members with
         | None => true
         | Some (JObj start) =>
             absent_or_readable
               (fun s => fromisoformat (replace (u "Z") (u "+00:00") s))
               (lookup_member (u "dateTime") start)
             && absent_or_readable fromisoformat
                  (lookup_member (u "date") start)
         | Some _ => false
         end
  | _ => false
  end.

Definition well_formed (k : item_kind) : json -> bool :=
  match k with
  | Task => well_formed_task
  | Event => well_formed_event
  end.

(** The id of a candidate. *)
Definition id_of (candidate : json) : option json := field "id" candidate.

(** The title of a candidate as the handler of its kind reads it, the empty
    text standing for a missing one. *)
Definition title_of (k : item_kind) (candidate : json) : result json :=
  match k with
  | Task => py_get candidate (u "title") (JStr [])
  | Event => py_get candidate (u "summary") (JStr [])
  end.

(** A value that counts as given: the tests [if instruction_date:] and the
    like take a missing, null or empty value as not given. *)
Definition given (v : json) : option json :=
  if truthy v then Some v else None.

(** The hint an instruction carries under a key. *)
Definition hint (k : string) (instruction : json) : option json :=
  match field k instruction with
  | Some v => given v
  | None => None
  end.
Arguments hint k%_string instruction.

(** The start of a candidate as the specification has it: a date for an
    all-day event, a timestamp for a timed event; for a task the timestamp of
    its due date. *)
Definition all_day_date (k : item_kind) (candidate : json) : option json :=
  match k with
  | Event =>
      match field "start" candidate with
      | Some start => hint "date" start
      | None => None
      end
  | Task => None
  end.

Definition start_timestamp (k : item_kind) (candidate : json) : option json :=
  match k with
  | Event =>
      match field "start" candidate with
      | Some start => hint "dateTime" start
      | None => None
      end
  | Task => hint "due" candidate
  end.

(** Two timestamps that denote instants at most 3600 seconds apart. *)
Definition within_3600_seconds (a b : str) : Prop :=
  exists (da db : datetime) (delta : Z),
    fromisoformat (replace (u "Z") (u "+00:00") a) = Ok da /\
    fromisoformat (replace (u "Z") (u "+00:00") b) = Ok db /\
    dt_sub da db = Ok delta /\
    -3600 * 1000000 <= delta <= 3600 * 1000000.

(** A timestamp whose hour and minute are the text [hm]. *)
Definition at_hour_minute (a : str) (hm : json) : Prop :=
  exists da : datetime,
    fromisoformat (replace (u "Z") (u "+00:00") a) = Ok da /\
    JStr (strftime_HM da) = hm.

(** The secondary temporal filter in the words of the specification: with a
    date hint, the all-day date of the candidate or the date portion of its
    start timestamp equals the hint; with a start hint and no date, the start
    instant of the candidate is within 3600 seconds of it; with a time hint
    alone, the hour and minute of the candidate equal it; with no hint, every
    candidate passes. *)
Definition passes_temporal_filter (k : item_kind)
    (instruction candidate : json) : Prop :=
  match hint "date" instruction, hint "datetime_start" instruction,
        hint "time" instruction with
  | Some date, _, _ =>
      all_day_date k candidate = Some date \/
      exists s : str,
        start_timestamp k candidate = Some (JStr s) /\
        JStr (before_first 84 s) = date
  | None, Some start, _ =>
      exists s h : str,
        start_timestamp k candidate = Some (JStr s) /\ start = JStr h /\
        within_3600_seconds s h
  | None, None, Some time =>
      exists s : str,
        start_timestamp k candidate = Some (JStr s) /\ at_hour_minute s time
  | None, None, None => True
  end.

(** An instruction without a description: a dict whose title is missing or
    the empty text. *)
Definition no_description (instruction : json) : Prop :=
  exists members : list (str * json),
    instruction = JObj members /\
    (lookup_member (u "title") members = None \/
     lookup_member (u "title") members = Some (JStr [])).

(** The description an instruction gives to find an item by: its title, the
    empty text standing for a missing one. *)
Definition description_of (instruction : json) : result json :=
  py_get instruction (u "title") (JStr []).

(** The test of lines 1394 and 1500 on a candidate, for the description
    [d]: both texts are lowered, and a candidate whose title is no text
    passes no test. *)
Definition title_test (U : interpreter) (k : item_kind) (d : str)
    (candidate : json) : bool :=
  match title_of k candidate with
  | Ok (JStr t) => title_matches (lower U d) (lower U t)
  | _ => false
  end.

(** A candidate matches on title, in the words of the specification: the
    lowered description occurs in its lowered title, or its lowered title in
    the lowered description. *)
Definition matches_on_title (U : interpreter) (k : item_kind) (d : str)
    (candidate : json) : Prop :=
  exists t : str,
    title_of k candidate = Ok (JStr t) /\
    (occurs_in (lower U d) (lower U t) \/ occurs_in (lower U t) (lower U d)).

(** A candidate matches an instruction, in the words of the specification:
    it matches on title and passes the secondary temporal filter. *)
Definition matches_instruction (U : interpreter) (k : item_kind)
    (instruction candidate : json) : Prop :=
  (exists d : str,
      description_of instruction = Ok (JStr d) /\
      matches_on_title U k d candidate) /\
  passes_temporal_filter k instruction candidate.

(** An instruction that carries no date, no start and no time. *)
Definition no_temporal_hint (instruction : json) : Prop :=
  hint "date" instruction = None /\
  hint "datetime_start" instruction = None /\
  hint "time" instruction = None.

(** The braces open at the end of a text. *)
Fixpoint depth (s : str) : Z :=
  match s with
  | [] => 0
  | c :: s' =>
      (if (c =? 123)%N then 1 else if (c =? 125)%N then -1 else 0) + depth s'
  end.

(** [span] is the first complete object of [s]: it starts at the first
    opening brace of [s] and ends where the braces are first balanced. *)
Definition first_complete_object (s span : str) : Prop :=
  exists before after : str,
    s = before ++ span ++ after /\
    (123%N ∉ before) /\
    (exists rest, span = 123%N :: rest) /\
    depth span = 0 /\
    (forall q r : str, span = q ++ r -> q ≠ [] -> r ≠ [] -> 0 < depth q).

(** [span] is where the loop of the recovery stops on [t] when it starts with
    [k] braces open: the shortest prefix of [t] that closes them all. *)
Definition closes_at (k : Z) (t span : str) : Prop :=
  (exists after : str, t = span ++ after) /\
  k + depth span = 0 /\
  (forall q r : str, span = q ++ r -> r ≠ [] -> 0 < k + depth q).

(** The text the recovery of lines 943-956 hands to [json.loads], where it
    reaches one. *)
Definition recovered_span (s : str) : option str :=
  if find 123 s =? -1 then None
  else balanced_span (drop (Z.to_nat (find 123 s)) s) 0.

(** What a run of the decoder with the fuel [f] reads, it reads consuming at
    least one code point, and every run with twice as many steps as code
    points consumed reads the same. *)
Definition fuel_enough {A} (scan : nat -> str -> A -> option (json * str))
    (f : nat) : Prop :=
  forall (s : str) (a : A) (v : json) (r : str),
    scan f s a = Some (v, r) ->
    (length r < length s)%nat /\
    forall f' : nat,
      (2 * (length s - length r) <= f')%nat -> scan f' s a = Some (v, r).

(** ** Sample data *)

(** An interpreter whose tables hold nothing above ASCII and whose [%Y] has
    the digits of the year. *)
Definition sample_interpreter : interpreter :=
  {| lower_of := fun c => [c];
     cased :=
       fun c => (((65 <=? c) && (c <=? 90)) || ((97 <=? c) && (c <=? 122)))%N;
     case_ignorable := fun c => bool_decide (c ∈ [39; 46; 58; 94; 96]%N);
     decimal_of := fun _ => None;
     upper_of := fun c => [c];
     repr_of := fun s => u "'" ++ s ++ u "'";
     int_error :=
       fun s => u "invalid literal for int() with base 10: '" ++ s ++ u "'";
     int_max_str_digits := 4300;
     strftime_Y := fun y => str_of_N (Z.to_N y) |}.

(** A provider with one task list and the given tasks and events, which
    accepts every deletion. *)
Definition sample_provider (tasks events : list json) : provider :=
  Provider None None
    (fun c =>
       match c with
       | TasklistsList =>
           Ok (JObj [(u "items", JArr [JObj [(u "id", JStr (u "list-1"))]])])
       | TasksList _ => Ok (JObj [(u "items", JArr tasks)])
       | EventsList => Ok (JObj [(u "items", JArr events)])
       | TasksDelete _ _ | EventsDelete _ => Ok (JStr [])
       | OtherCall _ => Ok JNull
       end).

Definition sample_task (id title : string) (due : option string) : json :=
  JObj ([(u "id", JStr (u id)); (u "title", JStr (u title))]
        ++ match due with
           | Some d => [(u "due", JStr (u d))]
           | None => []
           end).
Arguments sample_task (id title)%_string due.

Definition timed_event (id summary date_time : string) : json :=
  JObj [(u "id", JStr (u id)); (u "summary", JStr (u summary));
        (u "start", JObj [(u "dateTime", JStr (u date_time))])].
Arguments timed_event (id summary date_time)%_string.

Definition all_day_event (id summary date : string) : json :=
  JObj [(u "id", JStr (u id)); (u "summary", JStr (u summary));
        (u "start", JObj [(u "date", JStr (u date))])].
Arguments all_day_event (id summary date)%_string.

(** An instruction of [find_and_delete] with the given fields. *)
Definition find_and_delete_instruction (item_type : string)
    (fields : list (string * json)) : json :=
  JObj ([(u "action", JStr (u "find_and_delete"));
         (u "item_type", JStr (u item_type))]
        ++ ((fun kv => (u (fst kv), snd kv)) <$> fields)).
Arguments find_and_delete_instruction item_type%_string fields.

Definition dentist_tasks : list json :=
  [sample_task "t1" "Dentist appointment" None;
   sample_task "t2" "Dentist follow-up" (Some "2025-07-01T00:00:00.000Z"%string)].

Definition dentist_events : list json :=
  [timed_event "e1" "Dentist appointment" "2025-06-27T17:00:00-05:00";
   all_day_event "e2" "Dentist follow-up" "2025-07-01"].

Definition sample_user : str := u "alice".

(** A task due on 5 May and the request to delete it with a date of 1 June. *)
Definition rent_task : json :=
  sample_task "t9" "Pay rent" (Some "2025-05-05T00:00:00.000Z"%string).

Definition rent_instruction : json :=
  find_and_delete_instruction "task"
    [("title"%string, JStr (u "pay rent"));
     ("date"%string, JStr (u "2025-06-01"))].

(** A second task with the same title, due on 1 June, and the two tasks
    as the provider lists them. *)
Definition june_rent_task : json :=
  sample_task "t10" "Pay rent" (Some "2025-06-01T00:00:00.000Z"%string).

Definition rent_tasks : list json := [rent_task; june_rent_task].

(** The two tasks of the dentist and the task of the rent. *)
Definition dentist_and_rent_tasks : list json := dentist_tasks ++ [rent_task].

(** An instruction of [find_and_delete] that gives a description and
    nothing else. *)
Definition described_instruction (item_type : string) (description : str)
    : json :=
  find_and_delete_instruction item_type [("title"%string, JStr description)].
Arguments described_instruction item_type%_string description.

(** An interpreter that lowers the capital letters of Latin-1 as every
    Unicode database does, the text [CAFE] with an acute accent on its last
    letter, and a task whose title starts with the same word in mixed
    case. *)
Definition latin1_interpreter : interpreter :=
  {| lower_of :=
       fun c => if ((192 <=? c) && (c <=? 222) && negb (c =? 215))%N
                then [(c + 32)%N] else [c];
     cased := cased sample_interpreter;
     case_ignorable := case_ignorable sample_interpreter;
     decimal_of := decimal_of sample_interpreter;
     upper_of := upper_of sample_interpreter;
     repr_of := repr_of sample_interpreter;
     int_error := int_error sample_interpreter;
     int_max_str_digits := int_max_str_digits sample_interpreter;
     strftime_Y := strftime_Y sample_interpreter |}.

Definition cafe_description : str := u "CAF" ++ [201%N].

Definition cafe_task : json :=
  JObj [(u "id", JStr (u "t20"));
        (u "title", JStr (u "Caf" ++ [233%N] ++ u " au lait"))].

(** An all-day event of 27 June and an instruction that names it with a
    start on 15 July. *)
Definition conference_event : json :=
  all_day_event "e7" "Conference" "2025-06-27".

Definition conference_instruction : json :=
  find_and_delete_instruction "event"
    [("title"%string, JStr (u "conference"));
     ("datetime_start"%string, JStr (u "2025-07-15T09:00:00"))].

(** One timed event of 27 June, an instruction that names it with a start
    half an hour later, and an instruction without a description that gives
    the date of 1 July. *)
Definition catchup_event : json :=
  timed_event "e5" "Eddie <> Nilesh Catchup" "2025-06-27T17:00:00-05:00".

Definition catchup_instruction : json :=
  find_and_delete_instruction "event"
    [("title"%string, JStr (u "eddie <> nilesh catchup"));
     ("datetime_start"%string, JStr (u "2025-06-27T17:30:00-05:00"))].

Definition untitled_july_instruction : json :=
  find_and_delete_instruction "event"
    [("title"%string, JStr []);
     ("date"%string, JStr (u "2025-07-01"))].

Definition untitled_task_instruction : json :=
  find_and_delete_instruction "task" [("title"%string, JStr [])].

(** A handler that stands for one of the four the dispatcher takes as
    parameters: it sends nothing and reports that it is a stand-in. *)
Definition stand_in_handler (instruction : json) (user_id : str) : M json :=
  ret (error_envelope (u "stand-in handler")).

(** [process_ai_instruction] with the stand-in handlers. *)
Definition sample_process (p : provider) : str -> str -> M json :=
  process_ai_instruction sample_interpreter p stand_in_handler stand_in_handler
    stand_in_handler stand_in_handler.

Definition sample_dispatch (p : provider) : json -> str -> M json :=
  dispatch sample_interpreter p stand_in_handler stand_in_handler
    stand_in_handler stand_in_handler.

(** The curly double quotes U+201C and U+201D. *)
Definition left_quote : N := 8220.
Definition right_quote : N := 8221.

(** A text between ASCII double quotes. *)
Definition quoted (s : string) : str := [34%N] ++ u s ++ [34%N].
Arguments quoted s%_string.

(** A reply of the model whose instruction asks to create a note. *)
Definition note_reply : str :=
  u "instruction: {" ++ quoted "action" ++ u ": " ++ quoted "create" ++ u ", "
  ++ quoted "item_type" ++ u ": " ++ quoted "note" ++ u "}" ++ [10%N]
  ++ u "userReply: " ++ quoted "I'll add that note.".

(** An instruction that asks for a clarification of the date and the time. *)
Definition missing_date_time : json :=
  JArr [JStr (u "date"); JStr (u "time")].

Definition clarification_instruction : json :=
  JObj [(u "action", JStr (u "clarification_needed"));
        (u "item_type", JStr (u "task"));
        (u "title", JStr (u "Call John"));
        (u "missing_fields", missing_date_time)].

(** A strict object whose title ends with a comma and a closing brace. *)
Definition comma_title : str :=
  u "{" ++ quoted "title" ++ u ": " ++ quoted "a,}" ++ u "}".

(** An object followed by text that is not JSON. *)
Definition greeting_and_more : str :=
  u "{" ++ quoted "action" ++ u ": " ++ quoted "greeting" ++ u "} and {more".

(** The object of a greeting, written with ASCII quotes and with curly
    ones. *)
Definition strict_greeting : str :=
  u "{" ++ [34%N] ++ u "action" ++ [34%N] ++ u ": "
  ++ [34%N] ++ u "greeting" ++ [34%N] ++ u "}".

Definition curly_greeting : str :=
  u "{" ++ [left_quote] ++ u "action" ++ [right_quote] ++ u ": "
  ++ [left_quote] ++ u "greeting" ++ [right_quote] ++ u "}".

(** ** Further vocabulary *)

(** The entries a sequence of calls appends for one user, in the order of
    the calls. *)
Definition entries_for (user_id : str) (ops : list append) : list entry :=
  omap (fun a =>
          if decide (ap_user a = user_id)
          then Some (Entry (ap_message a) (default true (ap_is_user a))
                       (ap_now a))
          else None) ops.

(** A match of [instruction:\s*(\{.*\})] in [s]: the text [instruction:]
    after [before], white space, and the group [g], an opening brace, any
    text and a closing brace, with [after] left of [s]. *)
Definition matches_at (s before g after : str) : Prop :=
  exists ws body : str,
    s = before ++ u "instruction:" ++ ws ++ g ++ after /\
    Forall (fun c => is_space c = true) ws /\
    g = 123%N :: body ++ [125%N].

(** The [TypeError] of a subtraction of a naive [datetime] and an aware
    one. *)
Definition mixed_subtraction : exn :=
  Exn TypeError (u "can't subtract offset-naive and offset-aware datetimes").

(** An instruction that names the event of 27 June with a start that has no
    offset, as the prompt writes timestamps, and gives no date. *)
Definition naive_start_instruction : json :=
  find_and_delete_instruction "event"
    [("title"%string, JStr (u "eddie <> nilesh catchup"));
     ("datetime_start"%string, JStr (u "2025-06-27T17:00:00"))].

(** A query instruction with the given fields. *)
Definition query_instruction (item_type : string)
    (fields : list (string * json)) : json :=
  JObj ([(u "action", JStr (u "query")); (u "item_type", JStr (u item_type))]
        ++ ((fun kv => (u (fst kv), snd kv)) <$> fields)).
Arguments query_instruction item_type%_string fields.

(** A provider with one task list that answers the listings of a query with
    the given tasks and events, and an insertion with the body it is sent. *)
Definition answering_provider (tasks events : list json) : provider :=
  Provider None None
    (fun c =>
       match c with
       | TasklistsList =>
           Ok (JObj [(u "items", JArr [JObj [(u "id", JStr (u "list-1"))]])])
       | OtherCall request =>
           match field "method" request with
           | Some (JStr method) =>
               if str_eqb method (u "events.list")
               then Ok (JObj [(u "items", JArr events)])
               else if str_eqb method (u "tasks.list")
               then Ok (JObj [(u "items", JArr tasks)])
               else Ok (default JNull (field "body" request))
           | _ => Ok JNull
           end
       | _ => Ok JNull
       end).

(** The due date of the task an instruction asks to create: its start where
    it gives one, else its date. *)
Definition due_of (instruction : json) : option json :=
  match hint "datetime_start" instruction with
  | Some start => Some start
  | None => hint "date" instruction
  end.

(** An instruction that asks to create a task and leaves its title null, as
    the prompt tells the model to do for a title that is not specified. *)
Definition untitled_create_instruction : json :=
  JObj [(u "action", JStr (u "create")); (u "item_type", JStr (u "task"));
        (u "title", JNull);
        (u "datetime_start", JNull);
        (u "date", JStr (u "2025-06-27"));
        (u "description", JNull)].

(** ** Handlers of queries and of the creation of a task *)

(** [len(v)]. *)
Definition py_len (v : json) : result nat :=
  match v with
  | JStr s => Ok (length s)
  | JArr items => Ok (length items)
  | JObj members => Ok (length members)
  | _ =>
      Raise (Exn TypeError
               (u "object of type '" ++ type_name v ++ u "' has no len()"))
  end.

(** [len(v)] as a value and as an f-string puts it. *)
Definition json_of_nat (n : nat) : json := JNum (str_of_N (N.of_nat n)).

(** The requests of the handlers below, each with its keyword arguments:
    [service.events().list(calendarId='primary', timeMin=.., timeMax=..,
    singleEvents=True, orderBy='startTime')],
    [service.tasks().list(tasklist=.., showCompleted=False, dueMin=..,
    dueMax=..)] and [service.tasks().insert(tasklist=.., body=..)]. *)
Definition events_list_request (time_min time_max : json) : call :=
  OtherCall
    (JObj [(u "method", JStr (u "events.list"));
           (u "calendarId", JStr (u "primary"));
           (u "timeMin", time_min);
           (u "timeMax", time_max);
           (u "singleEvents", JBool true);
           (u "orderBy", JStr (u "startTime"))]).

Definition tasks_list_request (tasklist due_min due_max : json) : call :=
  OtherCall
    (JObj [(u "method", JStr (u "tasks.list"));
           (u "tasklist", tasklist);
           (u "showCompleted", JBool false);
           (u "dueMin", due_min);
           (u "dueMax", due_max)]).

Definition tasks_insert_request (tasklist body : json) : call :=
  OtherCall
    (JObj [(u "method", JStr (u "tasks.insert"));
           (u "tasklist", tasklist);
           (u "body", body)]).

(** Lines 1177-1180 and 1243-1246: the bounds of a query, which a date given
    replaces by the first and the last second of that day in UTC. *)
Definition query_bounds (lower_bound upper_bound date : json) : json * json :=
  if truthy date
  then (JStr (py_str date ++ u "T00:00:00Z"),
        JStr (py_str date ++ u "T23:59:59Z"))
  else (lower_bound, upper_bound).

Section QueryHandlers.

Context (p : provider).

Local Open Scope M_scope.

(** [query_calendar_events_from_instruction(instruction, user_id)]; the
    loop of lines 1196-1209 is the loop of [format_event]. *)
Definition query_calendar_events_from_instruction
    (instruction : json) (user_id : str) : M json :=
  try_except
    (match calendar_service_error p with
     | Some error => ret (error_envelope error)
     | None =>
         time_min <- lift (py_get instruction (u "datetime_start") JNull) ;;
         time_max <- lift (py_get instruction (u "datetime_end") JNull) ;;
         date <- lift (py_get instruction (u "date") JNull) ;;
         let '(time_min, time_max) := query_bounds time_min time_max date in
         events_result <- send p (events_list_request time_min time_max) ;;
         events <- lift (py_get events_result (u "items") (JArr [])) ;;
         formatted_response <-
           (if truthy events then
              all_events <- lift (py_iter events) ;;
              event_list <- lift (for_each format_event all_events) ;;
              let formatted_events := join_lines event_list in
              ret (mark_calendar ++ u " **Your Events:**" ++ nl ++ nl
                   ++ formatted_events)
            else
              ret (mark_calendar ++ u " **Your Events:**" ++ nl ++ nl
                   ++ u "No events found for the specified time period.")) ;;
         count <- lift (py_len events) ;;
         ret (JObj
                [(u "success", JBool true);
                 (u "message",
                  JStr (u "Found " ++ py_str (json_of_nat count) ++ u " events"));
                 (u "events", events);
                 (u "count", json_of_nat count);
                 (u "formatted_response", JStr formatted_response)])
     end)
    (fun e =>
       ret (error_envelope
              (u "Failed to query calendar events: " ++ exn_str e))).

(** [query_tasks_from_instruction(instruction, user_id)]; the loop of
    lines 1261-1270 is the loop of [format_task]. *)
Definition query_tasks_from_instruction
    (instruction : json) (user_id : str) : M json :=
  try_except
    (match tasks_service_error p with
     | Some error => ret (error_envelope error)
     | None =>
         tasklists <- send p TasklistsList ;;
         tasklist_id <- lift (default_tasklist_id tasklists) ;;
         due_min <- lift (py_get instruction (u "datetime_start") JNull) ;;
         due_max <- lift (py_get instruction (u "datetime_end") JNull) ;;
         date <- lift (py_get instruction (u "date") JNull) ;;
         let '(due_min, due_max) := query_bounds due_min due_max date in
         tasks_result <- send p (tasks_list_request tasklist_id due_min due_max) ;;
         tasks <- lift (py_get tasks_result (u "items") (JArr [])) ;;
         formatted_response <-
           (if truthy tasks then
              all_tasks <- lift (py_iter tasks) ;;
              task_list <- lift (for_each format_task all_tasks) ;;
              let formatted_tasks := join_lines task_list in
              ret (mark_clipboard ++ u " **Your Tasks:**" ++ nl ++ nl
                   ++ formatted_tasks)
            else
              ret (mark_clipboard ++ u " **Your Tasks:**" ++ nl ++ nl
                   ++ u "No tasks found for the specified time period.")) ;;
         count <- lift (py_len tasks) ;;
         ret (JObj
                [(u "success", JBool true);
                 (u "message",
                  JStr (u "Found " ++ py_str (json_of_nat count) ++ u " tasks"));
                 (u "tasks", tasks);
                 (u "count", json_of_nat count);
                 (u "formatted_response", JStr formatted_response)])
     end)
    (fun e =>
       ret (error_envelope (u "Failed to query tasks: " ++ exn_str e))).

(** [create_task_from_instruction(instruction, user_id)]. *)
Definition create_task_from_instruction
    (instruction : json) (user_id : str) : M json :=
  try_except
    (match tasks_service_error p with
     | Some error => ret (error_envelope error)
     | None =>
         tasklists <- send p TasklistsList ;;
         tasklist_id <- lift (default_tasklist_id tasklists) ;;
         title <- lift (py_get instruction (u "title")
                          (JStr (u "Untitled Task"))) ;;
         notes <- lift (py_get instruction (u "description") JNull) ;;
         let task_data := [(u "title", title); (u "notes", notes)] in
         datetime_start <- lift (py_get instruction (u "datetime_start") JNull) ;;
         task_data <-
           (if truthy datetime_start then
              due <- lift (py_getitem instruction (u "datetime_start")) ;;
              ret (set_member (u "due") due task_data)
            else
              date <- lift (py_get instruction (u "date") JNull) ;;
              if truthy date then
                due <- lift (py_getitem instruction (u "date")) ;;
                ret (set_member (u "due") due task_data)
              else ret task_data) ;;
         task <- send p (tasks_insert_request tasklist_id (JObj task_data)) ;;
         title <- lift (py_getitem (JObj task_data) (u "title")) ;;
         ret (JObj
                [(u "success", JBool true);
                 (u "message",
                  JStr (u "Task '" ++ py_str title
                        ++ u "' created successfully"));
                 (u "task", task)])
     end)
    (fun e => ret (error_envelope (u "Failed to create task: " ++ exn_str e))).

End QueryHandlers.

(** ** The reply of the model *)

(** One message of a chat completion: [{"role": .., "content": ..}]. *)
Record chat_message := ChatMessage {
  role : str;
  content : str
}.

(** The call [openai_client.chat.completions.create(model=.., messages=..,
    max_tokens=.., temperature=.., top_p=..)]; the two floats are kept as
    the texts that denote them. *)
Record chat_request := ChatRequest {
  model : str;
  messages : list chat_message;
  max_tokens : Z;
  temperature : str;
  top_p : str
}.

(** What [process_text_with_ai_internal] reads outside its arguments and the
    conversation store: the value of [os.getenv('DEEPSEEK_API_KEY')], what
    [get_system_prompt_with_context()] returns or raises at the time of the
    call, and what [chat.completions.create] returns or raises for a
    request, a response being read as the [message.content] of each of its
    [choices]. *)
Record assistant := Assistant {
  DEEPSEEK_API_KEY : option str;
  get_system_prompt_with_context : result str;
  create : chat_request -> result (list (option str))
}.

Definition DEEPSEEK_MODEL : str := u "deepseek-chat".

(** [bool(v)] for a value that is a [str] or [None]. *)
Definition given_text (v : option str) : bool :=
  match v with
  | Some (_ :: _) => true
  | _ => false
  end.

(** [openai_client], which line 49 builds when the key is set. *)
Definition openai_client (a : assistant)
    : option (chat_request -> result (list (option str))) :=
  if given_text (DEEPSEEK_API_KEY a) then Some (create a) else None.

(** One line of the conversation put before the current message
    (lines 256-258). *)
Definition context_line (msg : entry) : str :=
  (if is_user msg then u "User" else u "Assistant")
  ++ u ": " ++ message msg ++ nl.

(** Lines 251-258: the text of the previous conversation, empty for a call
    without a user id and for a user without history. *)
Definition conversation_context (h : history) (user_id : option str) : str :=
  if given_text user_id then
    let history := get_conversation_history h (default [] user_id) (Some 8) in
    match history with
    | [] => []
    | _ :: _ =>
        nl ++ nl ++ u "Previous conversation:" ++ nl
        ++ concat (context_line <$> history)
    end
  else [].

(** The text returned for an exception of the [try] of lines 246-288. *)
Definition failed_reply (e : exn) : str :=
  u "Error: Failed to get response from AI model: " ++ exn_str e.

Definition no_key_reply : str :=
  u "Error: DeepSeek API key not configured. Please set DEEPSEEK_API_KEY in your environment variables.".

Definition no_client_reply : str := u "Error: OpenAI client not initialized.".

Definition empty_reply : str :=
  u "I understand your message but don't have a specific response to provide.".

Definition no_choice_reply : str :=
  u "Received an unexpected response format from the AI model.".

(** [process_text_with_ai_internal(user_text, user_id=None)] on a store [h]:
    the requests sent to the model and the text returned. *)
Definition process_text_with_ai_internal
    (a : assistant) (h : history) (user_text : str) (user_id : option str)
    : list chat_request * str :=
  if negb (given_text (DEEPSEEK_API_KEY a)) then ([], no_key_reply)
  else
    match openai_client a with
    | None => ([], no_client_reply)
    | Some completions_create =>
        match get_system_prompt_with_context a with
        | Raise e => ([], failed_reply e)
        | Ok context_prompt =>
            let conversation_context := conversation_context h user_id in
            let messages :=
              [ChatMessage (u "system") context_prompt] ++
              match conversation_context with
              | _ :: _ =>
                  [ChatMessage (u "user")
                     (conversation_context ++ nl ++ u "Current message: "
                      ++ user_text)]
              | [] => [ChatMessage (u "user") user_text]
              end in
            let request :=
              ChatRequest DEEPSEEK_MODEL messages 256 (u "0.7") (u "0.9") in
            ([request],
             match completions_create request with
             | Raise e => failed_reply e
             | Ok choices =>
                 match choices with
                 | first :: _ =>
                     match first with
                     | Some (c :: generated_text) => c :: generated_text
                     | _ => empty_reply
                     end
                 | [] => no_choice_reply
                 end
             end)
        end
    end.

(** ** The endpoints of the conversation *)

(** The answer of an endpoint: the dict given to [jsonify] and the status. *)
Definition response : Type := json * Z.

(** What a call of an endpoint leaves and gives: the store after it, the
    requests sent to the model and to the provider, and the answer or the
    exception that leaves the view. *)
Record served := Served {
  store_after : history;
  chat_requests : list chat_request;
  provider_calls : list call;
  answer : result response
}.

Definition user_id_required : response :=
  (JObj [(u "error", JStr (u "user_id is required"))], 400).

Section Endpoints.

Context (U : interpreter) (a : assistant) (p : provider).

Context (create_calendar_event_from_instruction
         create_task_from_instruction
         query_calendar_events_from_instruction
         query_tasks_from_instruction : json -> str -> M json).

Local Abbreviation process_ai_instruction' :=
  (process_ai_instruction U p create_calendar_event_from_instruction
     create_task_from_instruction query_calendar_events_from_instruction
     query_tasks_from_instruction).

(** [initialize_ai()] for a body whose [user_id] is [user_id], a [str] or
    [None]; [now] is the clock reading of the answer. *)
Definition initialize_ai (h : history) (now : str) (user_id : option str)
    : served :=
  if negb (given_text user_id) then Served h [] [] (Ok user_id_required)
  else
    let '(requests, ai_response) :=
      process_text_with_ai_internal a h (u "SESSION_START") user_id in
    Served h requests []
      (Ok (JObj [(u "response", JStr ai_response);
                 (u "user_id", JStr (default [] user_id));
                 (u "timestamp", JStr now)], 200)).

(** [process_text_with_ai()] for a body whose [text] is the [str]
    [user_text] and whose [user_id] is [user_id], a [str] or [None]. The
    clock is read when the message of the user is stored, when the reply is
    stored, and for the answer. What the view prints is left out, but for
    the call [api_result.get('success')] that the printing starts with. *)
Definition process_text_with_ai
    (h : history) (now_user now_reply now : str)
    (user_text : str) (user_id : option str) : served :=
  if negb (given_text user_id) then Served h [] [] (Ok user_id_required)
  else
    let uid := default [] user_id in
    let h := add_to_conversation_history h now_user uid user_text (Some true) in
    let '(requests, ai_response) :=
      process_text_with_ai_internal a h user_text user_id in
    let h := add_to_conversation_history h now_reply uid ai_response
               (Some false) in
    let '(calls, api_result) := process_ai_instruction' ai_response uid in
    Served h requests calls
      (api_result <- api_result ;;
       _ <- py_get api_result (u "success") JNull ;;
       Ok (JObj [(u "response", JStr ai_response);
                 (u "api_result", api_result);
                 (u "timestamp", JStr now)], 200))%result.

End Endpoints.

(** ** The creation of an event *)

(** [str(n)] for an integer. *)
Definition str_of_Z (n : Z) : str :=
  if n <? 0 then u "-" ++ str_of_N (Z.to_N (- n)) else str_of_N (Z.to_N n).

(** [sep.join(parts)]. *)
Fixpoint join_with (sep : str) (parts : list str) : str :=
  match parts with
  | [] => []
  | [part] => part
  | part :: rest => part ++ sep ++ join_with sep rest
  end.

Section Interpreter.

Context (U : interpreter).

(** The value of a code point that [\d] matches and [int] reads as a
    digit. *)
Definition digit_value (c : N) : option Z :=
  if (c <? 128)%N
  then (if is_digit c then Some (Z.of_N (c - 48)) else None)
  else decimal_of U c.

(** [s.upper()]. *)
Definition upper_char (c : N) : str :=
  if (c <? 128)%N
  then (if ((97 <=? c) && (c <=? 122))%N then [(c - 32)%N] else [c])
  else upper_of U c.

Definition upper (s : str) : str := flat_map upper_char s.

(** [v.upper()]. *)
Definition py_upper (v : json) : result str :=
  match v with
  | JStr s => Ok (upper s)
  | _ => Raise (no_attribute v (u "upper"))
  end.

(** What a code point is to [int]: ASCII white space and the white space
    above ASCII, a sign, a digit, an underscore, or anything else. *)
Inductive int_char :=
| IntSpace
| IntSign (negative : bool)
| IntDigit (d : Z)
| IntUnderscore
| IntOther.

Definition int_char_of (c : N) : int_char :=
  if (c <? 127)%N then
    if (((9 <=? c) && (c <=? 13)) || (c =? 32))%N then IntSpace
    else if (c =? 43)%N then IntSign false
    else if (c =? 45)%N then IntSign true
    else if (c =? 95)%N then IntUnderscore
    else if is_digit c then IntDigit (Z.of_N (c - 48))
    else IntOther
  else if is_space c then IntSpace
  else match decimal_of U c with
       | Some d => IntDigit d
       | None => IntOther
       end.

Fixpoint skip_int_space (l : list int_char) : list int_char :=
  match l with
  | IntSpace :: l' => skip_int_space l'
  | _ => l
  end.

(** The run of digits and of single underscores at the head of [l]: the
    number read, how many digits it has, and what follows; nothing when an
    underscore follows another or ends the run. *)
Fixpoint int_digits (l : list int_char) (acc : Z) (count : nat)
    (after_underscore : bool) : option (Z * nat * list int_char) :=
  match l with
  | IntDigit d :: l' => int_digits l' (10 * acc + d) (S count) false
  | IntUnderscore :: l' =>
      if after_underscore then None else int_digits l' acc count true
  | _ => if after_underscore then None else Some (acc, count, l)
  end.

(** [int(s)] for a [str]: white space, an optional sign, digits with single
    underscores between them, white space. *)
Definition int_of_str (s : str) : result Z :=
  let invalid := Raise (Exn ValueError (int_error U s)) in
  let l := skip_int_space (int_char_of <$> s) in
  let '(negative, l) :=
    match l with
    | IntSign negative :: l' => (negative, l')
    | _ => (false, l)
    end in
  match l with
  | IntDigit _ :: _ =>
      match int_digits l 0 0 false with
      | Some (v, count, rest) =>
          match skip_int_space rest with
          | [] =>
              if bool_decide (640 < count)%nat
                 && bool_decide (0 < int_max_str_digits U)%nat
                 && bool_decide (int_max_str_digits U < count)%nat
              then invalid
              else Ok (if negative then - v else v)
          | _ :: _ => invalid
          end
      | None => invalid
      end
  | _ => invalid
  end.

(** The month of [%m] and the [-] after it, at the head of [s]:
    [1[0-2]], [0[1-9]] or [[1-9]], tried in this order. *)
Definition strptime_month (s : str) : option (Z * str) :=
  let one_to_nine (c : N) := ((49 <=? c) && (c <=? 57))%N in
  match s with
  | a :: b :: c :: r =>
      if (a =? 49)%N && ((48 <=? b) && (b <=? 50))%N && (c =? 45)%N
      then Some (10 + Z.of_N (b - 48), r)
      else if (a =? 48)%N && one_to_nine b && (c =? 45)%N
      then Some (Z.of_N (b - 48), r)
      else if one_to_nine a && (b =? 45)%N
      then Some (Z.of_N (a - 48), c :: r)
      else None
  | [a; b] =>
      if one_to_nine a && (b =? 45)%N then Some (Z.of_N (a - 48), []) else None
  | _ => None
  end.

(** The day of [%d] at the head of [s]: [3[0-1]], [[1-2]\d], [0[1-9]],
    [[1-9]] or a space and [[1-9]], tried in this order. *)
Definition strptime_day (s : str) : option (Z * str) :=
  let one_to_nine (c : N) := ((49 <=? c) && (c <=? 57))%N in
  let two (a b : N) : option Z :=
    if (a =? 51)%N && ((b =? 48) || (b =? 49))%N
    then Some (30 + Z.of_N (b - 48))
    else if ((a =? 49) || (a =? 50))%N
    then (d ← digit_value b; Some (10 * Z.of_N (a - 48) + d))
    else if (a =? 48)%N && one_to_nine b then Some (Z.of_N (b - 48))
    else None in
  let one (a : N) (r : str) : option (Z * str) :=
    if one_to_nine a then Some (Z.of_N (a - 48), r)
    else match r with
         | b :: r' =>
             if (a =? 32)%N && one_to_nine b
             then Some (Z.of_N (b - 48), r') else None
         | [] => None
         end in
  match s with
  | a :: b :: r =>
      match two a b with
      | Some d => Some (d, r)
      | None => one a (b :: r)
      end
  | [a] => one a []
  | [] => None
  end.

(** [datetime.strptime(v, '%Y-%m-%d')]: the year, the month and the day,
    read by the pattern of the format and checked as the constructor of a
    date checks them. *)
Definition strptime_Ymd (v : json) : result (Z * Z * Z) :=
  match v with
  | JStr s =>
      match
        (match s with
         | y1 :: y2 :: y3 :: y4 :: dash :: r =>
             y1 ← digit_value y1; y2 ← digit_value y2;
             y3 ← digit_value y3; y4 ← digit_value y4;
             if (dash =? 45)%N then
               '(m, r) ← strptime_month r;
               '(d, r) ← strptime_day r;
               Some (((y1 * 10 + y2) * 10 + y3) * 10 + y4, m, d, r)
             else None
         | _ => None
         end)
      with
      | None =>
          Raise (Exn ValueError
                   (u "time data " ++ repr_of U s
                    ++ u " does not match format '%Y-%m-%d'"))
      | Some (y, m, d, c :: r) =>
          Raise (Exn ValueError (u "unconverted data remains: " ++ c :: r))
      | Some (y, m, d, []) =>
          if negb ((1 <=? y) && (y <=? 9999))
          then Raise (Exn ValueError
                        (u "year " ++ str_of_Z y ++ u " is out of range"))
          else if negb ((1 <=? m) && (m <=? 12))
          then Raise (Exn ValueError (u "month must be in 1..12"))
          else if negb ((1 <=? d) && (d <=? days_in_month y m))
          then Raise (Exn ValueError (u "day is out of range for month"))
          else Ok (y, m, d)
      end
  | _ =>
      Raise (Exn TypeError
               (u "strptime() argument 1 must be str, not " ++ type_name v))
  end.

End Interpreter.

(** [d + timedelta(days=1)] on the date of [d]. *)
Definition add_one_day (y m d : Z) : result (Z * Z * Z) :=
  let '(y', m', d') :=
    if d + 1 <=? days_in_month y m then (y, m, d + 1)
    else if m + 1 <=? 12 then (y, m + 1, 1)
    else (y + 1, 1, 1) in
  if y' <=? 9999 then Ok (y', m', d')
  else Raise (Exn OtherException (u "date value out of range")).

(** [d.strftime('%Y-%m-%d')]. *)
Definition strftime_Ymd (U : interpreter) (y m d : Z) : str :=
  strftime_Y U y ++ u "-" ++ pad2 m ++ u "-" ++ pad2 d.

(** The request [service.events().insert(calendarId='primary', body=..,
    sendUpdates='all')]. *)
Definition events_insert_request (body : json) : call :=
  OtherCall
    (JObj [(u "method", JStr (u "events.insert"));
           (u "calendarId", JStr (u "primary"));
           (u "body", body);
           (u "sendUpdates", JStr (u "all"))]).

Definition chicago : json := JStr (u "America/Chicago").

(** The keys of [day_map]. *)
Definition day_codes : list str :=
  [u "MO"; u "TU"; u "WE"; u "TH"; u "FR"; u "SA"; u "SU"].

(** [day_map[day]] where [day in day_map]. *)
Definition known_day (day : json) : result (option str) :=
  match day with
  | JStr s => Ok (if existsb (str_eqb s) day_codes then Some s else None)
  | JArr _ => Raise (Exn TypeError (u "unhashable type: 'list'"))
  | JObj _ => Raise (Exn TypeError (u "unhashable type: 'dict'"))
  | _ => Ok None
  end.

(** ['T' in v]. *)
Definition py_contains_T (v : json) : result bool :=
  match v with
  | JStr s => Ok (contains [84%N] s)
  | JArr items => Ok (existsb (fun x => json_eqb x (JStr [84%N])) items)
  | JObj members => Ok (existsb (fun kv => str_eqb (fst kv) [84%N]) members)
  | _ =>
      Raise (Exn TypeError
               (u "argument of type '" ++ type_name v ++ u "' is not iterable"))
  end.

Section CreateEvent.

Context (U : interpreter) (p : provider).

Local Open Scope result_scope.

(** Lines 1026-1035: the start of the event. *)
Definition with_start (instruction : json) (event_data : list (str * json))
    : result (list (str * json)) :=
  datetime_start <- py_get instruction (u "datetime_start") JNull ;;
  if truthy datetime_start then
    datetime_start <- py_getitem instruction (u "datetime_start") ;;
    Ok (set_member (u "start")
          (JObj [(u "dateTime", datetime_start); (u "timeZone", chicago)])
          event_data)
  else
    date <- py_get instruction (u "date") JNull ;;
    if truthy date then
      date <- py_getitem instruction (u "date") ;;
      Ok (set_member (u "start") (JObj [(u "date", date)]) event_data)
    else Ok event_data.

(** Lines 1037-1050: the end of the event. *)
Definition with_end (instruction : json) (event_data : list (str * json))
    : result (list (str * json)) :=
  datetime_end <- py_get instruction (u "datetime_end") JNull ;;
  if truthy datetime_end then
    datetime_end <- py_getitem instruction (u "datetime_end") ;;
    Ok (set_member (u "end")
          (JObj [(u "dateTime", datetime_end); (u "timeZone", chicago)])
          event_data)
  else
    date <- py_get instruction (u "date") JNull ;;
    if truthy date then
      datetime_start <- py_get instruction (u "datetime_start") JNull ;;
      if negb (truthy datetime_start) then
        date <- py_getitem instruction (u "date") ;;
        start_date <- strptime_Ymd U date ;;
        let '(y, m, d) := start_date in
        end_date <- add_one_day y m d ;;
        let '(y, m, d) := end_date in
        Ok (set_member (u "end")
              (JObj [(u "date", JStr (strftime_Ymd U y m d))]) event_data)
      else Ok event_data
    else Ok event_data.

(** Lines 1059-1086: the parts of the rule of recurrence. *)
Definition rrule_parts_of (recurrence_obj : json) : result (list str) :=
  freq <- py_get recurrence_obj (u "freq") JNull ;;
  freq_part <-
    (if truthy freq then
       freq <- py_getitem recurrence_obj (u "freq") ;;
       freq <- py_upper U freq ;;
       Ok [u "FREQ=" ++ freq]
     else Ok []) ;;
  interval <- py_get recurrence_obj (u "interval") JNull ;;
  interval_part <-
    (if truthy interval then
       interval <- py_getitem recurrence_obj (u "interval") ;;
       Ok [u "INTERVAL=" ++ py_str interval]
     else Ok []) ;;
  until <- py_get recurrence_obj (u "until") JNull ;;
  until_part <-
    (if truthy until then
       until_date <- py_getitem recurrence_obj (u "until") ;;
       has_T <- py_contains_T until_date ;;
       until_date <-
         (if has_T then
            date_part <- py_split_T_first until_date ;;
            Ok (replace (u "-") [] date_part)
          else py_replace until_date (u "-") []) ;;
       Ok [u "UNTIL=" ++ until_date]
     else Ok []) ;;
  byweekday <- py_get recurrence_obj (u "byweekday") JNull ;;
  byday_part <-
    (if truthy byweekday then
       days <- py_getitem recurrence_obj (u "byweekday") ;;
       days <- py_iter days ;;
       known <- for_each known_day days ;;
       match omap id known with
       | [] => Ok []
       | day_list => Ok [u "BYDAY=" ++ join_with (u ",") day_list]
       end
     else Ok []) ;;
  Ok (freq_part ++ interval_part ++ until_part ++ byday_part).

(** Lines 1052-1094: the recurrence of the event. *)
Definition with_recurrence (instruction : json)
    (event_data : list (str * json)) : result (list (str * json)) :=
  recurrence <- py_get instruction (u "recurrence") JNull ;;
  if truthy recurrence then
    recurrence_obj <- py_getitem instruction (u "recurrence") ;;
    rrule_parts <- rrule_parts_of recurrence_obj ;;
    let rrule :=
      match rrule_parts with
      | [] => u "RRULE:FREQ=DAILY"
      | _ => u "RRULE:" ++ join_with (u ";") rrule_parts
      end in
    Ok (set_member (u "recurrence") (JArr [JStr rrule]) event_data)
  else Ok event_data.

(** Lines 1103-1106: one override of the reminders. *)
Definition reminder_override (reminder : json) : result json :=
  text <- py_replace reminder (u "PT") [] ;;
  minutes <- int_of_str U (replace (u "M") [] text) ;;
  Ok (JObj [(u "method", JStr (u "popup"));
            (u "minutes", JNum (str_of_Z minutes))]).

(** Lines 1096-1106: the reminders of the event. *)
Definition with_reminders (instruction : json)
    (event_data : list (str * json)) : result (list (str * json)) :=
  reminders <- py_get instruction (u "reminders") JNull ;;
  if truthy reminders then
    reminders <- py_getitem instruction (u "reminders") ;;
    reminders <- py_iter reminders ;;
    overrides <- for_each reminder_override reminders ;;
    Ok (set_member (u "reminders")
          (JObj [(u "useDefault", JBool false); (u "overrides", JArr overrides)])
          event_data)
  else Ok event_data.

(** Lines 1019-1106: the event sent to the provider. *)
Definition event_data_of (instruction : json) : result (list (str * json)) :=
  summary <- py_get instruction (u "title") (JStr (u "Untitled Event")) ;;
  description <- py_get instruction (u "description") JNull ;;
  location <- py_get instruction (u "location") JNull ;;
  let event_data :=
    [(u "summary", summary); (u "description", description);
     (u "location", location)] in
  event_data <- with_start instruction event_data ;;
  event_data <- with_end instruction event_data ;;
  event_data <- with_recurrence instruction event_data ;;
  with_reminders instruction event_data.

Local Open Scope M_scope.

(** [create_calendar_event_from_instruction(instruction, user_id)]; what it
    prints is left out. *)
Definition create_calendar_event_from_instruction
    (instruction : json) (user_id : str) : M json :=
  try_except
    (match calendar_service_error p with
     | Some error => ret (error_envelope error)
     | None =>
         event_data <- lift (event_data_of instruction) ;;
         event <- send p (events_insert_request (JObj event_data)) ;;
         summary <- lift (py_getitem (JObj event_data) (u "summary")) ;;
         ret (JObj
                [(u "success", JBool true);
                 (u "message",
                  JStr (u "Event '" ++ py_str summary
                        ++ u "' created successfully"));
                 (u "event", event)])
     end)
    (fun e =>
       ret (error_envelope
              (u "Failed to create calendar event: " ++ exn_str e))).

End CreateEvent.

(** ** Vocabulary of the creation of an event *)

(** The four keys of a recurrence that the creation of an event reads. *)
Definition recurrence_keys : list str :=
  [u "freq"; u "interval"; u "until"; u "byweekday"].

(** The override of a reminder of [minutes] minutes. *)
Definition popup_override (minutes : Z) : json :=
  JObj [(u "method", JStr (u "popup")); (u "minutes", JNum (str_of_Z minutes))].

(** ** The engine and its requests *)

(** [process_ai_instruction] with the handlers of [app.py] in the place of
    its four parameters. *)
Definition engine (U : interpreter) (p : provider) : str -> str -> M json :=
  process_ai_instruction U p
    (create_calendar_event_from_instruction U p)
    (create_task_from_instruction p)
    (query_calendar_events_from_instruction p)
    (query_tasks_from_instruction p).

(** The instruction a reply carries, where it carries one that parses. *)
Definition instruction_of (ai_response : str) : option json :=
  match search_instruction ai_response with
  | Some instruction_str =>
      match parse_instruction (clean_json_string instruction_str) with
      | inl instruction => Some instruction
      | inr _ => None
      end
  | None => None
  end.

(** The reply carries an instruction with the given action. *)
Definition action_is (ai_response : str) (action : string) : Prop :=
  exists instruction : json,
    instruction_of ai_response = Some instruction /\
    field "action" instruction = Some (JStr (u action)).
Arguments action_is ai_response action%_string.

(** The method of a request that is written with its keyword arguments. *)
Definition method_of (c : call) : option str :=
  match c with
  | OtherCall request =>
      match field "method" request with
      | Some (JStr method) => Some method
      | _ => None
      end
  | _ => None
  end.

(** A request that inserts an item, and a request that lists items or task
    lists. *)
Definition is_insert (c : call) : bool :=
  match method_of c with
  | Some method =>
      str_eqb method (u "events.insert") || str_eqb method (u "tasks.insert")
  | None => false
  end.

Definition is_listing (c : call) : bool :=
  match c with
  | TasklistsList | TasksList _ | EventsList => true
  | TasksDelete _ _ | EventsDelete _ => false
  | OtherCall _ =>
      match method_of c with
      | Some method =>
          str_eqb method (u "events.list") || str_eqb method (u "tasks.list")
      | None => false
      end
  end.

(** ** Further sample data *)

(** An assistant with a key and a prompt that answers every request with
    the given text. *)
Definition replying_assistant (reply : str) : assistant :=
  Assistant (Some (u "sk-test")) (Ok (u "You are CalendarGPT."))
    (fun _ => Ok [Some reply]).

(** An assistant without a key. *)
Definition unconfigured_assistant : assistant :=
  Assistant None (Ok (u "You are CalendarGPT.")) (fun _ => Ok []).

(** [process_text_with_ai] with the stand-in handlers. *)
Definition sample_turn (a : assistant) (p : provider)
    : history -> str -> str -> str -> str -> option str -> served :=
  process_text_with_ai sample_interpreter a p stand_in_handler
    stand_in_handler stand_in_handler stand_in_handler.

(** An instruction that asks to create an item with the given fields. *)
Definition create_instruction (item_type : string)
    (fields : list (string * json)) : json :=
  JObj ([(u "action", JStr (u "create")); (u "item_type", JStr (u item_type))]
        ++ ((fun kv => (u (fst kv), snd kv)) <$> fields)).
Arguments create_instruction item_type%_string fields.

(** The fields of an all-day event on the last day of 2025, of a meeting
    with a start and no end, and of a meeting with two reminders. *)
Definition new_years_eve : list (string * json) :=
  [("title"%string, JStr (u "Party")); ("date"%string, JStr (u "2025-12-31"))].

Definition meeting : list (string * json) :=
  [("title"%string, JStr (u "Team Meeting"));
   ("datetime_start"%string, JStr (u "2025-05-05T09:00:00"));
   ("datetime_end"%string, JNull);
   ("date"%string, JStr (u "2025-05-05"))].

(** A recurrence the handler reads no key of, and two reminders in
    minutes. *)
Definition counted_recurrence : json :=
  JObj [(u "frequency", JStr (u "weekly")); (u "count", JNum (u "5"))].

Definition two_reminders : json :=
  JArr [JStr (u "PT15M"); JStr (u "PT60M")].


(** A provider that answers the listing of the task lists as Google Tasks
    does, the lists under the key [items] after the kind and the tag of the
    answer, and that accepts every other request. *)
Definition two_lists_provider : provider :=
  Provider None None
    (fun c =>
       match c with
       | TasklistsList =>
           Ok (JObj [(u "kind", JStr (u "tasks#taskLists"));
                     (u "etag", JStr (u "b7"));
                     (u "items",
                      JArr [JObj [(u "kind", JStr (u "tasks#taskList"));
                                  (u "id", JStr (u "list-A"));
                                  (u "title", JStr (u "My Tasks"))];
                            JObj [(u "kind", JStr (u "tasks#taskList"));
                                  (u "id", JStr (u "list-B"));
                                  (u "title", JStr (u "Work"))]])])
       | _ => Ok JNull
       end).
(* ===================================================================== *)
(** * Part II: properties                                                  *)
(* ===================================================================== *)

Lemma slice_from_neg {A} (l : list A) (k : nat) :
  (0 < k)%nat -> slice_from l (- Z.of_nat k) = last_entries k l.
Proof.
  intros Hk. unfold slice_from, last_entries.
  destruct (Z.ltb_spec (- Z.of_nat k) 0) as [_|H]; [|lia].
  f_equal. lia.
Qed.

Lemma last_entries_length {A} (k : nat) (l : list A) :
  length (last_entries k l) = (length l `min` k)%nat.
Proof. unfold last_entries. rewrite length_drop. lia. Qed.

Lemma stored_do_append (h : history) (a : append) :
  stored (do_append h a) (ap_user a)
  = last_entries 20
      (stored h (ap_user a)
         ++ [Entry (ap_message a) (default true (ap_is_user a)) (ap_now a)]).
Proof.
  unfold do_append, add_to_conversation_history, stored.
  set (e := Entry _ _ _).
  set (h1 := match h !! ap_user a with None => _ | Some _ => h end).
  assert (Hh1 : default [] (h1 !! ap_user a) = default [] (h !! ap_user a)).
  { subst h1. destruct (h !! ap_user a) eqn:E.
    - by rewrite E.
    - by rewrite lookup_insert_eq. }
  rewrite Hh1. set (l := default [] (h !! ap_user a) ++ [e]).
  destruct (Z.ltb_spec 20 (Z.of_nat (length l))) as [Hlt|Hge].
  - rewrite lookup_insert_eq. simpl.
    change (-20) with (- Z.of_nat 20). by rewrite slice_from_neg by lia.
  - rewrite lookup_insert_eq. simpl. unfold last_entries.
    replace (length l - 20)%nat with 0%nat by lia. done.
Qed.

Lemma do_append_other (h : history) (a : append) (other : str) :
  other ≠ ap_user a -> do_append h a !! other = h !! other.
Proof.
  intros Hne. unfold do_append, add_to_conversation_history.
  set (h1 := match h !! ap_user a with None => _ | Some _ => h end).
  assert (Hh1 : h1 !! other = h !! other).
  { subst h1. destruct (h !! ap_user a); [done|]. by rewrite lookup_insert_ne. }
  destruct (_ <? _); rewrite ?lookup_insert_ne by done; exact Hh1.
Qed.

Lemma do_append_bound (h : history) (a : append) (user_id : str) :
  (length (stored h user_id) <= 20)%nat ->
  (length (stored (do_append h a) user_id) <= 20)%nat.
Proof.
  intros Hb. destruct (decide (user_id = ap_user a)) as [->|Hne].
  - rewrite stored_do_append, last_entries_length. lia.
  - unfold stored. by rewrite do_append_other.
Qed.

Lemma foldl_do_append_bound (ops : list append) (h : history) (user_id : str) :
  (length (stored h user_id) <= 20)%nat ->
  (length (stored (foldl do_append h ops) user_id) <= 20)%nat.
Proof.
  revert h. induction ops as [|a ops IH]; intros h Hb; simpl; [done|].
  apply IH. by apply do_append_bound.
Qed.

(** C5. Whatever sequence of appends is made on the store of start-up, and
    for whatever user id, the stored history has at most 20 entries; one
    append leaves for its user the last 20 entries of the old history
    followed by the new entry, so that what is dropped is a prefix (the
    oldest entries) and what is kept are the stored entries themselves, in
    their order; the histories of the other users are not touched. *)
Theorem history_at_most_20 :
  (forall (ops : list append) (user_id : str),
      (length (stored (after_appends ops) user_id) <= 20)%nat) /\
  (forall (h : history) (a : append),
      let new_entry :=
        Entry (ap_message a) (default true (ap_is_user a)) (ap_now a) in
      let before := stored h (ap_user a) ++ [new_entry] in
      let after := stored (do_append h a) (ap_user a) in
      after = last_entries 20 before /\
      (exists evicted : list entry,
          before = evicted ++ after /\
          length evicted = (length before - 20)%nat) /\
      (forall other : str,
          other ≠ ap_user a -> do_append h a !! other = h !! other)).
Proof.
  split.
  - intros ops user_id. apply foldl_do_append_bound.
    unfold stored, conversation_history. rewrite lookup_empty. simpl. lia.
  - intros h a new_entry before after.
    assert (Hafter : after = last_entries 20 before)
      by apply stored_do_append.
    split; [exact Hafter|]. split.
    + exists (take (length before - 20) before). rewrite Hafter.
      unfold last_entries. rewrite take_drop. split; [done|].
      rewrite length_take. lia.
    + intros other. apply do_append_other.
Qed.

(** C6, against the claim as stated: with nine messages stored, a read
    without a count returns all nine, not the last [min 8 9], and a read with
    the count 0 returns all nine, not the last [min 0 9]. *)
Lemma default_read_returns_more_than_8 :
  let h := after_appends nine_appends in
  length (stored h (u "alice")) = 9%nat /\
  get_conversation_history h (u "alice") None
  <> last_entries (8 `min` length (stored h (u "alice")))
       (stored h (u "alice")) /\
  get_conversation_history h (u "alice") (Some 0)
  <> last_entries (0 `min` length (stored h (u "alice")))
       (stored h (u "alice")).
Proof.
  intros h. split; [by vm_compute|].
  split; intros H; apply (f_equal length) in H; vm_compute in H; discriminate.
Qed.

(** C6, as the code has it. For a count [k >= 1] the read returns the last
    [min k length] stored entries, which are a suffix of the stored history
    (so in the order they were appended); an unknown user id gives the empty
    list; a call without a count reads with [k = 10]. *)
Theorem read_returns_last_k (h : history) (user_id : str) (k : Z) :
  1 <= k ->
  let l := stored h user_id in
  let r := get_conversation_history h user_id (Some k) in
  r = last_entries (Z.to_nat k `min` length l) l /\
  (exists older : list entry, l = older ++ r) /\
  (h !! user_id = None -> r = []) /\
  get_conversation_history h user_id None
  = get_conversation_history h user_id (Some 10).
Proof.
  intros Hk l r.
  assert (Hr : r = last_entries (Z.to_nat k) l).
  { subst r l. unfold get_conversation_history, stored. simpl.
    destruct (h !! user_id) as [l|]; simpl; [|done].
    replace k with (Z.of_nat (Z.to_nat k)) at 1 by lia.
    apply slice_from_neg. lia. }
  repeat split.
  - rewrite Hr. unfold last_entries. f_equal. lia.
  - exists (take (length l - Z.to_nat k) l). rewrite Hr.
    unfold last_entries. by rewrite take_drop.
  - intros Hn. subst r. unfold get_conversation_history. by rewrite Hn.
Qed.

Lemma read_returns_last_k_witness :
  let h := after_appends nine_appends in
  let l := stored h (u "alice") in
  let r := get_conversation_history h (u "alice") (Some 8) in
  1 <= 8 /\
  r = last_entries (Z.to_nat 8 `min` length l) l /\
  (exists older : list entry, l = older ++ r) /\
  (h !! u "alice" = None -> r = []) /\
  get_conversation_history h (u "alice") None
  = get_conversation_history h (u "alice") (Some 10).
Proof.
  intros h l r. assert (H : 1 <= 8) by lia.
  split; [exact H|].
  exact (read_returns_last_k (after_appends nine_appends) (u "alice") 8 H).
Defined.

(** ** Texts *)

Lemma str_eqb_eq (a b : str) : str_eqb a b = true <-> a = b.
Proof.
  revert b. induction a as [|x a IH]; intros [|y b]; simpl; try easy.
  rewrite andb_true_iff, N.eqb_eq, IH. split.
  - intros [-> ->]. done.
  - intros [= -> ->]. done.
Qed.

Lemma str_eqb_refl (a : str) : str_eqb a a = true.
Proof. by apply str_eqb_eq. Qed.

Lemma startswith_spec (p s : str) :
  startswith p s = true <-> exists after : str, s = p ++ after.
Proof.
  revert s. induction p as [|a p IH]; intros s; simpl.
  - split; [intros _; by exists s | done].
  - destruct s as [|b s].
    + split; [done | intros [after [=]]].
    + rewrite andb_true_iff, N.eqb_eq, IH. split.
      * intros [-> [after ->]]. by exists after.
      * intros [after [= -> ->]]. split; [done | by exists after].
Qed.

Lemma startswith_nil (s : str) : startswith [] s = true.
Proof. by destruct s. Qed.

Lemma contains_spec (needle hay : str) :
  contains needle hay = true <-> occurs_in needle hay.
Proof.
  unfold occurs_in. induction hay as [|c hay IH].
  - simpl. rewrite orb_false_r, startswith_spec. split.
    + intros [after H]. by exists [], after.
    + intros [before [after H]]. symmetry in H.
      apply app_eq_nil in H as [-> H]. apply app_eq_nil in H as [-> ->].
      by exists [].
  - cbn [contains]. rewrite orb_true_iff, startswith_spec, IH. split.
    + intros [[after H] | [before [after H]]].
      * by exists [], after.
      * exists (c :: before), after. by rewrite H.
    + intros [[|b before] [after H]].
      * left. by exists after.
      * right. injection H as -> H. by exists before, after.
Qed.

Lemma contains_nil (hay : str) : contains [] hay = true.
Proof. apply contains_spec. by exists [], hay. Qed.

Lemma title_matches_spec (a b : str) :
  title_matches a b = true <-> occurs_in a b \/ occurs_in b a.
Proof.
  unfold title_matches. by rewrite orb_true_iff, !contains_spec.
Qed.

(** ** The title test *)

Lemma task_matches_title (U : interpreter) (search_description : str)
    (task : json) (t : str) :
  title_of Task task = Ok (JStr t) ->
  task_matches U search_description task
  = Ok (title_matches search_description (lower U t)).
Proof. unfold title_of, task_matches. intros ->. done. Qed.

Lemma event_matches_title (U : interpreter)
    (search_description : str) (date datetime_start time event : json)
    (t : str) :
  title_of Event event = Ok (JStr t) ->
  title_matches search_description (lower U t) = false ->
  event_matches U search_description date datetime_start time event = Ok false.
Proof. unfold title_of, event_matches. intros -> H. simpl. by rewrite H. Qed.

(** ** Loops *)

Arguments u : simpl never.
Arguments replace : simpl never.
Arguments lower : simpl never.
Arguments fromisoformat : simpl never.
Arguments title_matches : simpl never.
Arguments str_of_N : simpl never.
Arguments strftime_mdY : simpl never.
Arguments strftime_mdY_at_IMp : simpl never.
Arguments strftime_HM : simpl never.

Lemma select_Forall (P : json -> Prop) (keep : json -> result bool)
    (l kept : list json) :
  select keep l = Ok kept -> Forall P l -> Forall P kept.
Proof.
  revert kept. induction l as [|x l IH]; intros kept; simpl.
  - intros [= <-] _. constructor.
  - destruct (keep x) as [b|]; simpl; [|done].
    destruct (select keep l) as [rest|]; simpl; [|done].
    intros [= <-] [Hx Hl]%Forall_cons. destruct b; auto.
Qed.

Lemma select_kept (keep : json -> result bool) (l kept : list json) (x : json) :
  select keep l = Ok kept -> x ∈ kept -> x ∈ l /\ keep x = Ok true.
Proof.
  revert kept. induction l as [|y l IH]; intros kept; simpl.
  - intros [= <-] H. by apply elem_of_nil in H.
  - destruct (keep y) as [b|] eqn:Hy; simpl; [|done].
    destruct (select keep l) as [rest|]; simpl; [|done].
    intros [= <-] Hin. destruct b.
    + apply elem_of_cons in Hin as [->|Hin].
      * split; [left|done].
      * destruct (IH rest eq_refl Hin). split; [by right|done].
    + destruct (IH rest eq_refl Hin). split; [by right|done].
Qed.

Lemma for_each_ok {A B} (body : A -> result B) (l : list A) :
  Forall (fun x => is_ok (body x) = true) l ->
  exists ys : list B, for_each body l = Ok ys.
Proof.
  induction 1 as [|x l Hx _ [ys IH]]; simpl; [by eexists|].
  destruct (body x); [|done]. rewrite IH. simpl. by eexists.
Qed.

(** ** Well-formed candidates *)

Lemma falsy_or_readable {A} (read : str -> result A) (v : json) :
  absent_or_readable read (Some v) = true ->
  truthy v = true ->
  exists (s : str) (a : A), v = JStr s /\ read s = Ok a.
Proof.
  unfold absent_or_readable. intros H T.
  destruct v as [| | |s| |]; rewrite ?T in H; try done.
  simpl in H. destruct (read s) as [a|] eqn:E; [|done]. eauto.
Qed.

Lemma well_formed_task_format (task : json) :
  well_formed_task task = true -> is_ok (format_task task) = true.
Proof.
  destruct task as [| | | | |members]; try done. simpl.
  rewrite !andb_true_iff. intros [[Htitle _] Hdue].
  unfold format_task. cbn [py_get rbind].
  destruct (lookup_member (u "due") members) as [v|]; [|done].
  cbn [from_option id]. destruct (truthy v) eqn:T; [|done].
  destruct (falsy_or_readable _ _ Hdue T) as (s & d & -> & Hd).
  cbn [py_replace rbind]. by rewrite Hd.
Qed.

Lemma well_formed_task_id (task : json) :
  well_formed_task task = true ->
  exists id : json, py_getitem task (u "id") = Ok id /\ id_of task = Some id.
Proof.
  destruct task as [| | | | |members]; try done. simpl.
  rewrite !andb_true_iff. intros [[_ Hid] _].
  apply bool_decide_eq_true in Hid as [id Hid].
  exists id. unfold id_of, field. by rewrite Hid.
Qed.

Lemma well_formed_task_title (task : json) (dflt : json) :
  well_formed_task task = true ->
  exists v : json, py_get task (u "title") dflt = Ok v.
Proof. destruct task; try done. simpl. eauto. Qed.

Lemma well_formed_event_format (event : json) :
  well_formed_event event = true -> is_ok (format_event event) = true.
Proof.
  destruct event as [| | | | |members]; try done. simpl.
  rewrite !andb_true_iff. intros [_ Hstart].
  unfold format_event. cbn [py_get rbind].
  destruct (lookup_member (u "start") members) as [[| | | | |start]|];
    try done; cbn [from_option id py_get rbind].
  apply andb_true_iff in Hstart as [Hdt Hd].
  destruct (lookup_member (u "dateTime") start) as [dt|] eqn:Edt;
    cbn [from_option id].
  - destruct (truthy dt) eqn:Tdt.
    + cbn [py_getitem]. rewrite Edt. cbn [rbind].
      destruct (falsy_or_readable _ _ Hdt Tdt) as (s & d & -> & Hs).
      cbn [py_replace rbind]. by rewrite Hs.
    + destruct (lookup_member (u "date") start) as [d|]; cbn [from_option id]; [|done].
      destruct (truthy d) eqn:Td; [|done].
      destruct (falsy_or_readable _ _ Hd Td) as (s & d' & -> & Hs).
      cbn [py_fromisoformat rbind]. by rewrite Hs.
  - cbn [truthy].
    destruct (lookup_member (u "date") start) as [d|]; cbn [from_option id]; [|done].
    destruct (truthy d) eqn:Td; [|done].
    destruct (falsy_or_readable _ _ Hd Td) as (s & d' & -> & Hs).
    cbn [py_fromisoformat rbind]. by rewrite Hs.
Qed.

Lemma well_formed_event_id (event : json) :
  well_formed_event event = true ->
  exists id : json, py_getitem event (u "id") = Ok id /\ id_of event = Some id.
Proof.
  destruct event as [| | | | |members]; try done. simpl.
  rewrite !andb_true_iff. intros [[_ Hid] _].
  apply bool_decide_eq_true in Hid as [id Hid].
  exists id. unfold id_of, field. by rewrite Hid.
Qed.

Lemma well_formed_event_summary (event : json) (dflt : json) :
  well_formed_event event = true ->
  exists v : json, py_get event (u "summary") dflt = Ok v.
Proof. destruct event; try done. simpl. eauto. Qed.

Lemma forallb_Forall_ok {A B} (wf : A -> bool) (body : A -> result B)
    (l : list A) :
  (forall x, wf x = true -> is_ok (body x) = true) ->
  Forall (fun x => wf x = true) l ->
  exists ys : list B, for_each body l = Ok ys.
Proof.
  intros H Hl. apply for_each_ok. eapply Forall_impl; [exact Hl|]. exact H.
Qed.

(** ** The three-way branch *)

Ltac run_step :=
  cbv beta iota zeta
    delta [bind lift send ret try_except rbind py_iter truthy negb].

Lemma find_and_delete_task_branches (U : interpreter)
    (p : provider) (instruction : json) (user_id : str)
    (candidates matching : list json) :
  browsed Task p candidates ->
  selection U Task instruction candidates = Ok matching ->
  Forall (fun c => well_formed_task c = true) candidates ->
  let r := find_and_delete_task_from_instruction U p instruction user_id in
  match matching with
  | [] =>
      deleted_ids (calls_of r) = [] /\
      existsb is_delete (calls_of r) = false /\
      exists envelope : json,
        outcome r = Ok envelope /\ is_success envelope /\
        listed Task envelope = candidates
  | [c] =>
      existsb is_delete (calls_of r) = true /\
      exists id : json, id_of c = Some id /\ deleted_ids (calls_of r) = [id]
  | _ =>
      deleted_ids (calls_of r) = [] /\
      existsb is_delete (calls_of r) = false /\
      exists envelope : json,
        outcome r = Ok envelope /\ is_success envelope /\
        field "tasks" envelope = Some (JArr matching)
  end.
Proof.
  intros (Hsvc & tasklists & tasklist_id & tasks_result & H1 & H2 & H3 & H4)
    Hsel Hwf r.
  unfold selection, search_description_of in Hsel.
  destruct (py_get instruction (u "title") (JStr [])) as [title|] eqn:Htitle;
    [|done].
  cbn [rbind] in Hsel.
  destruct (py_lower U title) as [sd|] eqn:Hsd; [|done].
  cbn [rbind] in Hsel.
  assert (Hwfm := select_Forall _ _ _ _ Hsel Hwf).
  subst r. unfold find_and_delete_task_from_instruction.
  rewrite Hsvc. run_step. rewrite H1. run_step. rewrite H2. run_step.
  rewrite H3. run_step. rewrite H4.
  destruct candidates as [|c0 cs].
  { injection Hsel as <-. run_step. split; [done|]. split; [done|].
    eexists. split; [done|]. split; done. }
  run_step. rewrite Htitle. run_step. rewrite Hsd. run_step.
  rewrite Hsel. run_step.
  destruct matching as [|m1 [|m2 ms]].
  - destruct (forallb_Forall_ok _ format_task _ well_formed_task_format Hwf)
      as [lines ->].
    run_step. split; [done|]. split; [done|].
    eexists. split; [done|]. split; done.
  - apply Forall_cons in Hwfm as [Hm1 _].
    destruct (well_formed_task_title m1 (JStr (u "Untitled Task")) Hm1)
      as [t ->].
    destruct (well_formed_task_id m1 Hm1) as (id & -> & Hid).
    run_step.
    destruct (execute p (TasksDelete tasklist_id id)); run_step.
    + split; [done|]. exists id. done.
    + split; [done|]. exists id. done.
  - destruct (forallb_Forall_ok _ format_task _ well_formed_task_format Hwfm)
      as [lines ->].
    run_step. split; [done|]. split; [done|].
    eexists. split; [done|]. split; done.
Qed.

Lemma find_and_delete_event_branches (U : interpreter)
    (p : provider) (instruction : json) (user_id : str)
    (candidates matching : list json) :
  browsed Event p candidates ->
  selection U Event instruction candidates = Ok matching ->
  Forall (fun c => well_formed_event c = true) candidates ->
  let r :=
    find_and_delete_calendar_event_from_instruction U p instruction user_id in
  match matching with
  | [] =>
      deleted_ids (calls_of r) = [] /\
      existsb is_delete (calls_of r) = false /\
      exists envelope : json,
        outcome r = Ok envelope /\ is_success envelope /\
        listed Event envelope = candidates
  | [c] =>
      existsb is_delete (calls_of r) = true /\
      exists id : json, id_of c = Some id /\ deleted_ids (calls_of r) = [id]
  | _ =>
      deleted_ids (calls_of r) = [] /\
      existsb is_delete (calls_of r) = false /\
      exists envelope : json,
        outcome r = Ok envelope /\ is_success envelope /\
        field "events" envelope = Some (JArr matching)
  end.
Proof.
  intros (Hsvc & events_result & H1 & H2) Hsel Hwf r.
  unfold selection, search_description_of in Hsel.
  destruct (py_get instruction (u "title") (JStr [])) as [title|] eqn:Htitle;
    [|done].
  cbn [rbind] in Hsel.
  destruct (py_lower U title) as [sd|] eqn:Hsd; [|done].
  cbn [rbind] in Hsel.
  destruct (py_get instruction (u "date") JNull) as [date|] eqn:Hdate;
    [|done].
  cbn [rbind] in Hsel.
  destruct (py_get instruction (u "datetime_start") JNull)
    as [datetime_start|] eqn:Hstart; [|done].
  cbn [rbind] in Hsel.
  destruct (py_get instruction (u "time") JNull) as [time|] eqn:Htime;
    [|done].
  cbn [rbind] in Hsel.
  assert (Hwfm := select_Forall _ _ _ _ Hsel Hwf).
  subst r. unfold find_and_delete_calendar_event_from_instruction.
  rewrite Hsvc. run_step. rewrite H1. run_step. rewrite H2.
  destruct candidates as [|c0 cs].
  { injection Hsel as <-. run_step. split; [done|]. split; [done|].
    eexists. split; [done|]. split; done. }
  run_step. rewrite Htitle. run_step. rewrite Hsd. run_step.
  rewrite Hdate. run_step. rewrite Hstart. run_step. rewrite Htime. run_step.
  rewrite Hsel. run_step.
  destruct matching as [|m1 [|m2 ms]].
  - destruct (forallb_Forall_ok _ format_event _ well_formed_event_format Hwf)
      as [lines ->].
    run_step. split; [done|]. split; [done|].
    eexists. split; [done|]. split; done.
  - apply Forall_cons in Hwfm as [Hm1 _].
    destruct (well_formed_event_summary m1 (JStr (u "Untitled Event")) Hm1)
      as [t ->].
    destruct (well_formed_event_id m1 Hm1) as (id & -> & Hid).
    run_step.
    destruct (execute p (EventsDelete id)); run_step.
    + split; [done|]. exists id. done.
    + split; [done|]. exists id. done.
  - destruct (forallb_Forall_ok _ format_event _ well_formed_event_format Hwfm)
      as [lines ->].
    run_step. split; [done|]. split; [done|].
    eexists. split; [done|]. split; done.
Qed.

Lemma find_and_delete_branches (U : interpreter)
    (k : item_kind) (p : provider) (instruction : json) (user_id : str)
    (candidates matching : list json) :
  browsed k p candidates ->
  selection U k instruction candidates = Ok matching ->
  forallb (well_formed k) candidates = true ->
  let r := find_and_delete U k p instruction user_id in
  match matching with
  | [] =>
      deleted_ids (calls_of r) = [] /\
      existsb is_delete (calls_of r) = false /\
      exists envelope : json,
        outcome r = Ok envelope /\ is_success envelope /\
        listed k envelope = candidates
  | [c] =>
      existsb is_delete (calls_of r) = true /\
      exists id : json, id_of c = Some id /\ deleted_ids (calls_of r) = [id]
  | _ =>
      deleted_ids (calls_of r) = [] /\
      existsb is_delete (calls_of r) = false /\
      exists envelope : json,
        outcome r = Ok envelope /\ is_success envelope /\
        listed k envelope = matching
  end.
Proof.
  intros Hb Hsel Hwf r. subst r.
  assert (Hwf' : Forall (fun c => well_formed k c = true) candidates).
  { apply Forall_forall. intros c Hc%list_elem_of_In.
    by apply (proj1 (forallb_forall _ _) Hwf). }
  destruct k.
  - pose proof (find_and_delete_task_branches U _ _ user_id _ _ Hb Hsel Hwf')
      as H.
    destruct matching as [|m1 [|m2 ms]]; [exact H|exact H|].
    destruct H as (H1 & H2 & envelope & H3 & H4 & H5).
    repeat split; [done..|]. exists envelope. repeat split; [done..|].
    unfold listed. cbn [items_key]. by rewrite H5.
  - pose proof (find_and_delete_event_branches U _ _ user_id _ _ Hb Hsel Hwf')
      as H.
    destruct matching as [|m1 [|m2 ms]]; [exact H|exact H|].
    destruct H as (H1 & H2 & envelope & H3 & H4 & H5).
    repeat split; [done..|]. exists envelope. repeat split; [done..|].
    unfold listed. cbn [items_key]. by rewrite H5.
Qed.

(** ** The fields of an event *)

Lemma json_eqb_str_r (s : str) (v : json) :
  json_eqb v (JStr s) = true <-> v = JStr s.
Proof.
  destruct v; simpl; try (split; [done|intros [=]]).
  rewrite str_eqb_eq. split; [by intros ->|by intros [= ->]].
Qed.

Lemma select_all (keep : json -> result bool) (l : list json) :
  (forall x, x ∈ l -> keep x = Ok true) -> select keep l = Ok l.
Proof.
  induction l as [|y l IH]; intros H; simpl; [done|].
  rewrite (H y) by left. simpl. rewrite IH; [done|].
  intros x Hx. apply H. by right.
Qed.

Lemma hint_given (k : string) (members : list (str * json)) :
  hint k (JObj members) = given (default JNull (lookup_member (u k) members)).
Proof. unfold hint, field. by destruct (lookup_member _ _). Qed.

Lemma absent_or_readable_default {A} (read : str -> result A) (v : option json) :
  absent_or_readable read v = true ->
  absent_or_readable read (Some (default JNull v)) = true.
Proof. by destruct v. Qed.

Lemma well_formed_event_fields (U : interpreter) (event : json) :
  well_formed_event event = true ->
  exists event_datetime event_date : json,
    (forall (sd : str) (date start time : json) (t : str),
        title_of Event event = Ok (JStr t) ->
        title_matches sd (lower U t) = true ->
        event_matches U sd date start time event
        = date_matches date start time event_datetime event_date) /\
    all_day_date Event event = given event_date /\
    start_timestamp Event event = given event_datetime /\
    absent_or_readable
      (fun s => fromisoformat (replace (u "Z") (u "+00:00") s))
      (Some event_datetime) = true /\
    absent_or_readable fromisoformat (Some event_date) = true.
Proof.
  destruct event as [| | | | |members]; try done. cbn [well_formed_event].
  rewrite !andb_true_iff. intros [_ Hstart].
  unfold all_day_date, start_timestamp, field, title_of, event_matches.
  cbn [py_get].
  destruct (lookup_member (u "start") members) as [[| | | | |start]|];
    try done.
  - apply andb_true_iff in Hstart as [Hdt Hd].
    exists (default JNull (lookup_member (u "dateTime") start)),
      (default JNull (lookup_member (u "date") start)).
    split; [|split; [|split; [|split]]].
    + intros sd date st time t [= ->] Ht. cbn [rbind py_lower]. rewrite Ht.
      reflexivity.
    + apply hint_given.
    + apply hint_given.
    + by apply absent_or_readable_default.
    + by apply absent_or_readable_default.
  - exists JNull, JNull. split; [|done].
    intros sd date st time t [= ->] Ht. cbn [rbind py_lower]. rewrite Ht.
    reflexivity.
Qed.

Lemma selection_event_unfold (U : interpreter) (members : list (str * json)) (sd
    : str)
    (candidates : list json) :
  search_description_of U (JObj members) = Ok sd ->
  selection U Event (JObj members) candidates
  = select
      (event_matches U sd
         (default JNull (lookup_member (u "date") members))
         (default JNull (lookup_member (u "datetime_start") members))
         (default JNull (lookup_member (u "time") members)))
      candidates.
Proof. unfold selection. intros ->. reflexivity. Qed.

Lemma search_description_dict (U : interpreter) (instruction : json) (sd : str)
    :
  search_description_of U instruction = Ok sd ->
  exists members : list (str * json), instruction = JObj members.
Proof. destruct instruction; try done. eauto. Qed.

(** ** Instructions without a description *)

Lemma no_description_search (U : interpreter) (instruction : json) :
  no_description instruction -> search_description_of U instruction = Ok [].
Proof.
  intros (members & -> & [H|H]); unfold search_description_of; cbn [py_get];
    by rewrite H.
Qed.

Lemma title_matches_nil (t : str) : title_matches [] t = true.
Proof. unfold title_matches. by rewrite contains_nil. Qed.

Lemma well_formed_title (k : item_kind) (c : json) :
  well_formed k c = true -> exists t : str, title_of k c = Ok (JStr t).
Proof.
  destruct k, c as [| | | | |members]; try done; cbn [well_formed title_of py_get].
  - cbn [well_formed_task]. rewrite !andb_true_iff. intros [[H _] _].
    destruct (lookup_member (u "title") members) as [[]|]; try done;
      cbn [from_option id]; eauto.
  - cbn [well_formed_event]. rewrite !andb_true_iff. intros [[H _] _].
    destruct (lookup_member (u "summary") members) as [[]|]; try done;
      cbn [from_option id]; eauto.
Qed.

Lemma date_matches_no_hint (date start time event_datetime event_date : json) :
  truthy date = false -> truthy start = false -> truthy time = false ->
  date_matches date start time event_datetime event_date = Ok true.
Proof. unfold date_matches. by intros -> -> ->. Qed.

Lemma hint_none (k : string) (members : list (str * json)) :
  hint k (JObj members) = None ->
  truthy (default JNull (lookup_member (u k) members)) = false.
Proof.
  rewrite hint_given. unfold given.
  by destruct (truthy (default JNull (lookup_member (u k) members))).
Qed.

(** C10, against the claim as stated: the instruction has an empty title
    and gives the date of 1 July; the only event browsed is of 27 June. The
    event passes the title test and is not deleted. *)
Lemma sole_event_kept_from_deletion :
  let r :=
    find_and_delete sample_interpreter Event (sample_provider []
      [catchup_event])
      untitled_july_instruction sample_user in
  no_description untitled_july_instruction /\
  browsed Event (sample_provider [] [catchup_event]) [catchup_event] /\
  (exists t : str,
      title_of Event catchup_event = Ok (JStr t) /\
      title_matches [] (lower sample_interpreter t) = true) /\
  deleted_ids (calls_of r) = [] /\
  existsb is_delete (calls_of r) = false.
Proof.
  split.
  { eexists. split; [reflexivity|]. right. by vm_compute. }
  split.
  { split; [reflexivity|]. eexists. split; [reflexivity|]. by vm_compute. }
  split.
  { eexists. split; [reflexivity|]. by vm_compute. }
  split; by vm_compute.
Qed.

(** C10, as the code has it. For an instruction whose title is missing or
    empty, the description searched is the empty text, and every well-formed
    candidate browsed passes the title test. The task handler then keeps
    every task; the event handler keeps every event when the instruction
    carries no date or time, and otherwise those its temporal filter passes.
    When one candidate is browsed and the handler keeps it, the handler asks
    the provider to delete it. *)
Theorem empty_description_matches_every_title (U : interpreter)
    (k : item_kind) (p : provider) (instruction : json) (user_id : str)
    (candidates : list json) :
  no_description instruction ->
  browsed k p candidates ->
  forallb (well_formed k) candidates = true ->
  search_description_of U instruction = Ok [] /\
  (forall c : json,
      c ∈ candidates ->
      exists t : str,
        title_of k c = Ok (JStr t) /\ title_matches [] (lower U t) = true) /\
  (k = Task -> selection U k instruction candidates = Ok candidates) /\
  (hint "date" instruction = None ->
   hint "datetime_start" instruction = None ->
   hint "time" instruction = None ->
   selection U k instruction candidates = Ok candidates) /\
  (forall c : json,
      candidates = [c] ->
      selection U k instruction [c] = Ok [c] ->
      exists id : json,
        id_of c = Some id /\
        deleted_ids (calls_of (find_and_delete U k p instruction user_id)) =
          [id]).
Proof.
  intros Hno Hb Hwf.
  pose proof (no_description_search U _ Hno) as Hsd.
  assert (Hwf' : forall c, c ∈ candidates -> well_formed k c = true).
  { intros c Hc%list_elem_of_In. by apply (proj1 (forallb_forall _ _) Hwf). }
  assert (Htask : k = Task -> selection U k instruction candidates = Ok
    candidates).
  { intros ->. unfold selection. rewrite Hsd. cbn [rbind].
    apply select_all. intros c Hc.
    destruct (well_formed_title Task c (Hwf' c Hc)) as [t Ht].
    rewrite (task_matches_title U _ _ _ Ht). by rewrite title_matches_nil. }
  split; [done|]. split; [|split; [done|split]].
  - intros c Hc. destruct (well_formed_title k c (Hwf' c Hc)) as [t Ht].
    exists t. split; [done|apply title_matches_nil].
  - intros Hd Hs Ht. destruct k; [by apply Htask|].
    destruct (search_description_dict U _ _ Hsd) as [members ->].
    rewrite (selection_event_unfold U _ _ _ Hsd).
    apply select_all. intros c Hc.
    destruct (well_formed_title Event c (Hwf' c Hc)) as [t Htitle].
    destruct (well_formed_event_fields U c (Hwf' c Hc)) as (edt & ed & Hev & _).
    erewrite Hev; [|exact Htitle|apply title_matches_nil].
    apply date_matches_no_hint; by apply hint_none.
  - intros c -> Hsel.
    pose proof (find_and_delete_branches U k p instruction user_id _ _
                  Hb Hsel Hwf) as [_ H].
    exact H.
Qed.

Lemma empty_description_matches_every_title_witness :
  let p := sample_provider [rent_task] [] in
  no_description untitled_task_instruction /\
  browsed Task p [rent_task] /\
  forallb (well_formed Task) [rent_task] = true /\
  selection sample_interpreter Task untitled_task_instruction [rent_task]
  = Ok [rent_task] /\
  exists id : json,
    id_of rent_task = Some id /\
    deleted_ids
      (calls_of
         (find_and_delete sample_interpreter Task p untitled_task_instruction
           sample_user))
    = [id].
Proof.
  intros p.
  assert (Hno : no_description untitled_task_instruction).
  { eexists. split; [reflexivity|]. right. vm_compute. reflexivity. }
  assert (Hb : browsed Task p [rent_task]).
  { split; [reflexivity|].
    exists (JObj [(u "items", JArr [JObj [(u "id", JStr (u "list-1"))]])]),
      (JStr (u "list-1")), (JObj [(u "items", JArr [rent_task])]).
    repeat split; vm_compute; reflexivity. }
  assert (Hwf : forallb (well_formed Task) [rent_task] = true)
    by (vm_compute; reflexivity).
  destruct (empty_description_matches_every_title sample_interpreter Task p
              untitled_task_instruction sample_user [rent_task] Hno Hb Hwf)
    as (_ & _ & Hsel & _ & Hdel).
  split; [exact Hno|]. split; [exact Hb|]. split; [exact Hwf|].
  split; [exact (Hsel eq_refl)|].
  exact (Hdel rent_task eq_refl (Hsel eq_refl)).
Defined.

(** ** The matching loops as filters *)

Lemma select_filter (keep : json -> result bool) (test : json -> bool)
    (l : list json) :
  Forall (fun x => keep x = Ok (test x)) l ->
  select keep l = Ok (List.filter test l).
Proof.
  induction 1 as [|x l Hx _ IH]; [done|]. cbn [select List.filter].
  rewrite Hx, IH. cbn [rbind]. by destruct (test x).
Qed.

Lemma title_test_spec (U : interpreter) (k : item_kind) (d : str) (c : json) :
  title_test U k d c = true <-> matches_on_title U k d c.
Proof.
  unfold title_test, matches_on_title. split.
  - destruct (title_of k c) as [[| | |t| |]|]; try done.
    intros H%title_matches_spec. by exists t.
  - intros (t & -> & H). by apply title_matches_spec.
Qed.

Lemma search_description_described (U : interpreter) (instruction : json)
    (d : str) :
  description_of instruction = Ok (JStr d) ->
  search_description_of U instruction = Ok (lower U d).
Proof. unfold description_of, search_description_of. by intros ->. Qed.

Lemma selection_task_filter (U : interpreter) (instruction : json) (d : str)
    (tasks : list json) :
  description_of instruction = Ok (JStr d) ->
  Forall (fun c => exists t : str, title_of Task c = Ok (JStr t)) tasks ->
  selection U Task instruction tasks
  = Ok (List.filter (title_test U Task d) tasks).
Proof.
  intros Hd Ht. unfold selection.
  rewrite (search_description_described U _ _ Hd). cbn [rbind].
  apply select_filter. eapply Forall_impl; [exact Ht|]. intros c [t Hc].
  rewrite (task_matches_title U _ _ _ Hc). unfold title_test. by rewrite Hc.
Qed.

Lemma selection_event_filter (U : interpreter) (instruction : json) (d : str)
    (events : list json) :
  description_of instruction = Ok (JStr d) ->
  no_temporal_hint instruction ->
  forallb well_formed_event events = true ->
  selection U Event instruction events
  = Ok (List.filter (title_test U Event d) events).
Proof.
  intros Hd (Hdate & Hstart & Htime) Hwf.
  pose proof (search_description_described U _ _ Hd) as Hsd.
  destruct (search_description_dict U _ _ Hsd) as [members ->].
  rewrite (selection_event_unfold U _ _ _ Hsd).
  apply select_filter, Forall_forall. intros c Hc%list_elem_of_In.
  pose proof (proj1 (forallb_forall _ _) Hwf c Hc) as Hwfc.
  destruct (well_formed_title Event c Hwfc) as [t Ht].
  unfold title_test. rewrite Ht.
  destruct (title_matches (lower U d) (lower U t)) eqn:Hm.
  - destruct (well_formed_event_fields U c Hwfc) as (edt & ed & Hev & _).
    erewrite Hev; [|exact Ht|exact Hm].
    apply date_matches_no_hint; by apply hint_none.
  - by eapply event_matches_title.
Qed.

Lemma selection_event_sound (U : interpreter) (instruction : json) (d : str)
    (events matching : list json) :
  description_of instruction = Ok (JStr d) ->
  selection U Event instruction events = Ok matching ->
  Forall (fun c => title_test U Event d c = true) matching.
Proof.
  intros Hd Hsel.
  pose proof (search_description_described U _ _ Hd) as Hsd.
  destruct (search_description_dict U _ _ Hsd) as [members ->].
  rewrite (selection_event_unfold U _ _ _ Hsd) in Hsel.
  apply Forall_forall. intros c Hc.
  destruct (select_kept _ _ _ _ Hsel Hc) as [_ Hkeep].
  revert Hkeep. unfold event_matches, title_test, title_of.
  destruct (py_get c (u "summary") (JStr [])) as [[| | |t| |]|]; try done.
  cbn [py_lower rbind].
  by destruct (title_matches (lower U d) (lower U t)).
Qed.

Lemma selection_is_filter (U : interpreter) (k : item_kind)
    (instruction : json) (d : str) (candidates : list json) :
  description_of instruction = Ok (JStr d) ->
  no_temporal_hint instruction ->
  forallb (well_formed k) candidates = true ->
  selection U k instruction candidates
  = Ok (List.filter (title_test U k d) candidates).
Proof.
  intros Hd Hno Hwf. destruct k; [|by apply selection_event_filter].
  apply selection_task_filter; [done|].
  apply Forall_forall. intros c Hc%list_elem_of_In.
  apply (well_formed_title Task). by apply (proj1 (forallb_forall _ _) Hwf).
Qed.

(** C2. A candidate passes the title test of the handlers for a description
    [d] exactly when the lowered [d] occurs in its lowered title or its
    lowered title in the lowered [d]. The loop of the task handler keeps the
    tasks that pass the test, and only them, in the order of the listing;
    so does the loop of the event handler for an instruction without date or
    time, and with one it keeps no event that fails the test. With the
    tasks, or the events, titled "Dentist appointment" and "Dentist
    follow-up" and the description "dentist", both match: the handler lists
    the two, reports success and asks the provider for no deletion, as it
    does whenever two candidates or more match on title and the instruction
    has no date or time: it then lists the matches and only them. The
    same two are kept, and the task of the rent is dropped, for the
    description "DENTIST"; a description that contains the title of one task
    selects that task, which is deleted; and where the interpreter lowers
    the accented capital of "CAFE" with an acute accent, that description
    selects the task whose title starts with the word in mixed case. *)
Theorem title_match_is_two_way_containment (U : interpreter) :
  (forall (k : item_kind) (d : str) (c : json),
      title_test U k d c = true <-> matches_on_title U k d c) /\
  (forall (instruction : json) (d : str) (tasks : list json),
      description_of instruction = Ok (JStr d) ->
      Forall (fun c => exists t : str, title_of Task c = Ok (JStr t)) tasks ->
      selection U Task instruction tasks
      = Ok (List.filter (title_test U Task d) tasks)) /\
  (forall (instruction : json) (d : str) (events : list json),
      description_of instruction = Ok (JStr d) ->
      no_temporal_hint instruction ->
      forallb well_formed_event events = true ->
      selection U Event instruction events
      = Ok (List.filter (title_test U Event d) events)) /\
  (forall (instruction : json) (d : str) (events matching : list json),
      description_of instruction = Ok (JStr d) ->
      selection U Event instruction events = Ok matching ->
      Forall (fun c => title_test U Event d c = true) matching) /\
  (forall (k : item_kind) (p : provider) (instruction : json)
          (user_id d : str) (candidates : list json),
      browsed k p candidates ->
      forallb (well_formed k) candidates = true ->
      description_of instruction = Ok (JStr d) ->
      no_temporal_hint instruction ->
      let matching := List.filter (title_test U k d) candidates in
      let r := find_and_delete U k p instruction user_id in
      (2 <= length matching)%nat ->
      deleted_ids (calls_of r) = [] /\
      exists envelope : json,
        outcome r = Ok envelope /\ is_success envelope /\
        listed k envelope = matching) /\
  (let instruction := described_instruction "task" (u "dentist") in
   let r :=
     find_and_delete U Task (sample_provider dentist_tasks []) instruction
       sample_user in
   selection U Task instruction dentist_tasks = Ok dentist_tasks /\
   deleted_ids (calls_of r) = [] /\
   existsb is_delete (calls_of r) = false /\
   exists envelope : json,
     outcome r = Ok envelope /\ is_success envelope /\
     listed Task envelope = dentist_tasks) /\
  (let instruction := described_instruction "event" (u "dentist") in
   let r :=
     find_and_delete U Event (sample_provider [] dentist_events) instruction
       sample_user in
   selection U Event instruction dentist_events = Ok dentist_events /\
   deleted_ids (calls_of r) = [] /\
   existsb is_delete (calls_of r) = false /\
   exists envelope : json,
     outcome r = Ok envelope /\ is_success envelope /\
     listed Event envelope = dentist_events) /\
  (let instruction := described_instruction "task" (u "DENTIST") in
   let r :=
     find_and_delete U Task (sample_provider dentist_and_rent_tasks [])
       instruction sample_user in
   selection U Task instruction dentist_and_rent_tasks = Ok dentist_tasks /\
   deleted_ids (calls_of r) = [] /\
   exists envelope : json,
     outcome r = Ok envelope /\ is_success envelope /\
     listed Task envelope = dentist_tasks) /\
  (let instruction :=
     described_instruction "task" (u "my Dentist follow-up visit") in
   let r :=
     find_and_delete U Task (sample_provider dentist_and_rent_tasks [])
       instruction sample_user in
   selection U Task instruction dentist_and_rent_tasks
   = Ok [sample_task "t2" "Dentist follow-up"
           (Some "2025-07-01T00:00:00.000Z"%string)] /\
   deleted_ids (calls_of r) = [JStr (u "t2")]) /\
  (let instruction := described_instruction "task" cafe_description in
   let r :=
     find_and_delete latin1_interpreter Task
       (sample_provider [cafe_task; rent_task] []) instruction sample_user in
   selection latin1_interpreter Task instruction [cafe_task; rent_task]
   = Ok [cafe_task] /\
   deleted_ids (calls_of r) = [JStr (u "t20")]).
Proof.
  split; [apply title_test_spec|].
  split; [apply selection_task_filter|].
  split; [apply selection_event_filter|].
  split; [apply selection_event_sound|].
  split.
  { intros k p instruction user_id d candidates Hb Hwf Hd Hno matching r Hlen.
    pose proof (selection_is_filter U k instruction d candidates Hd Hno Hwf)
      as Hsel.
    pose proof (find_and_delete_branches U k p instruction user_id _ _
                  Hb Hsel Hwf) as H.
    fold r matching in H. clearbody r matching.
    destruct matching as [|m1 [|m2 ms]]; [cbn in Hlen; lia..|].
    by destruct H as (H1 & _ & H3). }
  split.
  { intros instruction r. split; [by vm_compute|]. split; [by vm_compute|].
    split; [by vm_compute|].
    eexists. split; [by vm_compute|]. split; by vm_compute. }
  split.
  { intros instruction r. split; [by vm_compute|]. split; [by vm_compute|].
    split; [by vm_compute|].
    eexists. split; [by vm_compute|]. split; by vm_compute. }
  split.
  { intros instruction r. split; [by vm_compute|]. split; [by vm_compute|].
    eexists. split; [by vm_compute|]. split; by vm_compute. }
  split.
  { intros instruction r. split; by vm_compute. }
  intros instruction r. split; by vm_compute.
Qed.

(** ** The temporal filter and the branch on the number of matches *)

Lemma rent_task_fails_the_filter :
  ~ passes_temporal_filter Task rent_instruction rent_task.
Proof.
  unfold passes_temporal_filter.
  replace (hint "date" rent_instruction) with (Some (JStr (u "2025-06-01")))
    by (by vm_compute).
  intros [H|(s & H1 & H2)].
  - vm_compute in H. discriminate.
  - vm_compute in H1. injection H1 as <-. vm_compute in H2. discriminate.
Qed.

Lemma pay_rent_matches_on_title (U : interpreter) (id : string)
    (due : option string) :
  matches_on_title U Task (u "pay rent") (sample_task id "Pay rent" due).
Proof.
  exists (u "Pay rent"). split; [done|]. left. exists [], []. by vm_compute.
Qed.

(** C1, on the code. The task handler deletes on the title alone. With one
    task titled "Pay rent" and due on 5 May, and an instruction that
    describes it and gives the date of 1 June, no candidate matches the
    instruction, the task failing the temporal filter, and the handler asks
    the provider to delete it. With a second task of the same title due on
    1 June, that task is the one candidate that matches the instruction, and
    the handler asks for no deletion and lists the two. *)
Theorem delete_follows_title_matches_alone (U : interpreter) :
  (let r :=
     find_and_delete U Task (sample_provider [rent_task] []) rent_instruction
       sample_user in
   Forall (fun c => ~ matches_instruction U Task rent_instruction c)
     [rent_task] /\
   existsb is_delete (calls_of r) = true /\
   deleted_ids (calls_of r) = [JStr (u "t9")]) /\
  (let r :=
     find_and_delete U Task (sample_provider rent_tasks []) rent_instruction
       sample_user in
   matches_instruction U Task rent_instruction june_rent_task /\
   ~ matches_instruction U Task rent_instruction rent_task /\
   existsb is_delete (calls_of r) = false /\
   exists envelope : json,
     outcome r = Ok envelope /\ is_success envelope /\
     listed Task envelope = rent_tasks).
Proof.
  split.
  - intros r. split; [|split; by vm_compute].
    apply Forall_cons_2; [|apply Forall_nil_2].
    intros [_ H]. by apply rent_task_fails_the_filter.
  - intros r. split; [|split; [|split]].
    + split.
      * exists (u "pay rent"). split; [done|apply pay_rent_matches_on_title].
      * unfold passes_temporal_filter.
        replace (hint "date" rent_instruction)
          with (Some (JStr (u "2025-06-01"))) by (by vm_compute).
        right. exists (u "2025-06-01T00:00:00.000Z"). split; by vm_compute.
    + intros [_ H]. by apply rent_task_fails_the_filter.
    + by vm_compute.
    + eexists. split; [by vm_compute|]. split; by vm_compute.
Qed.

(** C3, on the code. The task handler applies no temporal filter: the task
    titled "Pay rent" and due on 5 May matches on title, fails the filter
    for the date of 1 June that the instruction gives, is kept by the loop
    and is deleted. The event handler keeps an event that has not what a
    hint is compared with: the all-day event of 27 June is kept, and
    deleted, under an instruction that gives a start on 15 July. *)
Theorem temporal_filter_is_skipped (U : interpreter) :
  (let r :=
     find_and_delete U Task (sample_provider [rent_task] []) rent_instruction
       sample_user in
   matches_on_title U Task (u "pay rent") rent_task /\
   hint "date" rent_instruction = Some (JStr (u "2025-06-01")) /\
   ~ passes_temporal_filter Task rent_instruction rent_task /\
   selection U Task rent_instruction [rent_task] = Ok [rent_task] /\
   deleted_ids (calls_of r) = [JStr (u "t9")]) /\
  (let r :=
     find_and_delete U Event (sample_provider [] [conference_event])
       conference_instruction sample_user in
   matches_on_title U Event (u "conference") conference_event /\
   hint "date" conference_instruction = None /\
   hint "datetime_start" conference_instruction
   = Some (JStr (u "2025-07-15T09:00:00")) /\
   ~ passes_temporal_filter Event conference_instruction conference_event /\
   selection U Event conference_instruction [conference_event]
   = Ok [conference_event] /\
   deleted_ids (calls_of r) = [JStr (u "e7")]).
Proof.
  split.
  - intros r. split; [apply pay_rent_matches_on_title|].
    split; [by vm_compute|]. split; [apply rent_task_fails_the_filter|].
    split; by vm_compute.
  - intros r. split.
    { exists (u "Conference"). split; [done|]. left. exists [], [].
      by vm_compute. }
    split; [by vm_compute|]. split; [by vm_compute|].
    split; [|split; by vm_compute].
    unfold passes_temporal_filter.
    replace (hint "date" conference_instruction) with (@None json)
      by (by vm_compute).
    replace (hint "datetime_start" conference_instruction)
      with (Some (JStr (u "2025-07-15T09:00:00"))) by (by vm_compute).
    intros (s & h & H & _). vm_compute in H. discriminate.
Qed.

(** ** Dispatch *)

Lemma lookup_member_snd (k : str) (members : list (str * json)) (v : json) :
  lookup_member k members = Some v -> v ∈ (snd <$> members).
Proof.
  induction members as [|[k' v'] members IH]; simpl; [done|].
  destruct (str_eqb k k').
  - intros [= ->]. left.
  - intros H. right. by apply IH.
Qed.

Section DispatchFacts.

Context (U : interpreter) (p : provider).
Context (create_event create_task query_events query_tasks
         : json -> str -> M json).

Local Abbreviation dispatch' :=
  (dispatch U p create_event create_task query_events query_tasks).

Lemma dispatch_unrouted_item_type
    (members : list (str * json)) (user_id : str) (action : string) :
  In action ["create"; "update"; "delete"; "find_and_delete"; "query"]%string ->
  lookup_member (u "action") members = Some (JStr (u action)) ->
  is_str (default JNull (lookup_member (u "item_type") members)) "event" = false ->
  is_str (default JNull (lookup_member (u "item_type") members)) "task" = false ->
  dispatch' (JObj members) user_id = ([], Ok JNull).
Proof.
  intros Hin Haction Hevent Htask. unfold dispatch.
  cbn [py_get lift bind]. rewrite Haction. cbn [from_option id].
  rewrite Hevent, Htask.
  simpl in Hin.
  destruct Hin as [<-|[<-|[<-|[<-|[<-|[]]]]]]; reflexivity.
Qed.

Lemma dispatch_unknown_action
    (members : list (str * json)) (user_id : str) (action : json) :
  lookup_member (u "action") members = Some action ->
  Forall (fun known : string => is_str action known = false)
    ["greeting"; "create"; "update"; "delete"; "find_and_delete"; "query";
     "clarification_needed"]%string ->
  dispatch' (JObj members) user_id
  = ([], Ok (error_envelope (u "Unknown action: " ++ py_str action))).
Proof.
  intros Haction Hknown. unfold dispatch.
  cbn [py_get lift bind]. rewrite Haction. cbn [from_option id].
  repeat (apply Forall_cons in Hknown as [-> Hknown]).
  reflexivity.
Qed.

Lemma dispatch_clarification (instruction : json) (user_id : str) :
  field "action" instruction = Some (JStr (u "clarification_needed")) ->
  dispatch' instruction user_id
  = ([], Ok (JObj [(u "success", JBool true);
                   (u "message", JStr (u "Clarification needed"));
                   (u "clarification", JBool true)])).
Proof.
  destruct instruction as [| | | | |members]; try done. unfold field.
  intros Haction. unfold dispatch.
  cbn [py_get lift bind]. rewrite Haction. reflexivity.
Qed.

End DispatchFacts.

(** C4, on the code. The reply [note_reply] carries a well-formed instruction
    whose action is "create" and whose item type is "note": whatever the
    provider and the four other handlers, [process_ai_instruction] sends no
    request and returns [None], which is no envelope and has no error field.
    The same holds of every instruction whose action is one of create,
    update, delete, find_and_delete and query and whose item type is neither
    "event" nor "task". An action outside the seven the dispatcher knows does
    get the envelope of the claim, with no request sent. *)
Theorem unrouted_item_type_returns_none (U : interpreter)
    (p : provider)
    (create_event create_task query_events query_tasks : json -> str -> M json)
    (user_id : str) :
  process_ai_instruction U p create_event create_task query_events query_tasks
    note_reply user_id = ([], Ok JNull) /\
  field "error" JNull = None /\
  (forall (members : list (str * json)) (action : string),
      In action ["create"; "update"; "delete"; "find_and_delete"; "query"]%string ->
      lookup_member (u "action") members = Some (JStr (u action)) ->
      is_str (default JNull (lookup_member (u "item_type") members)) "event"
      = false ->
      is_str (default JNull (lookup_member (u "item_type") members)) "task"
      = false ->
      dispatch U p create_event create_task query_events query_tasks
        (JObj members) user_id = ([], Ok JNull)) /\
  (forall (members : list (str * json)) (action : json),
      lookup_member (u "action") members = Some action ->
      Forall (fun known : string => is_str action known = false)
        ["greeting"; "create"; "update"; "delete"; "find_and_delete"; "query";
         "clarification_needed"]%string ->
      dispatch U p create_event create_task query_events query_tasks
        (JObj members) user_id
      = ([], Ok (error_envelope (u "Unknown action: " ++ py_str action)))).
Proof.
  split; [by vm_compute|]. split; [done|]. split.
  - intros members action. apply dispatch_unrouted_item_type.
  - intros members action. apply dispatch_unknown_action.
Qed.

(** C9, against the claim as stated: the instruction lists the fields
    "date" and "time" as missing, and no field of the envelope returned holds
    that list. *)
Lemma clarification_drops_missing_fields :
  let r :=
    sample_dispatch (sample_provider [] []) clarification_instruction
      sample_user in
  field "missing_fields" clarification_instruction = Some missing_date_time /\
  exists envelope : json,
    outcome r = Ok envelope /\
    forall k : string, field k envelope <> Some missing_date_time.
Proof.
  split; [by vm_compute|]. eexists. split; [by vm_compute|].
  intros k H. unfold field in H. apply lookup_member_snd in H.
  vm_compute in H.
  repeat (apply elem_of_cons in H as [H|H]; [discriminate|]).
  by apply elem_of_nil in H.
Qed.

(** C9, as the code has it. For every instruction whose action is
    "clarification_needed" the dispatcher sends no request and returns the
    same envelope: success, the message "Clarification needed" and the flag
    ["clarification"] set, which is the signal to pause. The envelope has no
    other field, so that what the instruction lists as missing is not in
    it. *)
Theorem clarification_returns_fixed_envelope (U : interpreter)
    (p : provider)
    (create_event create_task query_events query_tasks : json -> str -> M json)
    (instruction : json) (user_id : str) :
  field "action" instruction = Some (JStr (u "clarification_needed")) ->
  let r :=
    dispatch U p create_event create_task query_events query_tasks instruction
      user_id in
  calls_of r = [] /\
  outcome r
  = Ok (JObj [(u "success", JBool true);
              (u "message", JStr (u "Clarification needed"));
              (u "clarification", JBool true)]) /\
  (forall envelope : json,
      outcome r = Ok envelope ->
      is_success envelope /\
      field "clarification" envelope = Some (JBool true) /\
      field "missing_fields" envelope = None).
Proof.
  intros Haction r. subst r. rewrite dispatch_clarification by done.
  split; [done|]. split; [done|].
  intros envelope [= <-]. by vm_compute.
Qed.

Lemma clarification_returns_fixed_envelope_witness :
  let r := sample_dispatch (sample_provider [] []) clarification_instruction
             sample_user in
  field "action" clarification_instruction
  = Some (JStr (u "clarification_needed")) /\
  calls_of r = [] /\
  outcome r
  = Ok (JObj [(u "success", JBool true);
              (u "message", JStr (u "Clarification needed"));
              (u "clarification", JBool true)]) /\
  (forall envelope : json,
      outcome r = Ok envelope ->
      is_success envelope /\
      field "clarification" envelope = Some (JBool true) /\
      field "missing_fields" envelope = None).
Proof.
  intros r.
  assert (Haction : field "action" clarification_instruction
                    = Some (JStr (u "clarification_needed")))
    by (vm_compute; reflexivity).
  split; [exact Haction|].
  exact (clarification_returns_fixed_envelope sample_interpreter
    (sample_provider [] [])
           stand_in_handler stand_in_handler stand_in_handler stand_in_handler
           clarification_instruction sample_user Haction).
Defined.

(** ** The steps of the decoder *)

Lemma skip_ws_length (s : str) : (length (skip_ws s) <= length s)%nat.
Proof.
  induction s as [|c s IH]; simpl; [lia|].
  destruct (is_json_space c); simpl; lia.
Qed.

Lemma scan_string_shorter (s acc t r : str) :
  scan_string s acc = Some (t, r) -> (length r < length s)%nat.
Proof.
  remember (length s) as n eqn:Hn.
  assert (Hle : (length s <= n)%nat) by lia. rewrite Hn. clear Hn.
  revert s acc Hle. induction n as [|n IH]; intros s acc Hle.
  - destruct s; simpl in *; [done|lia].
  - destruct s as [|c s1]; [done|]. cbn [scan_string].
    simpl in Hle.
    repeat case_match; try done; subst; cbn [length] in *;
      try (intros [= <- <-]; cbn [length]; lia);
      intros Hrec; apply IH in Hrec; cbn [length] in *; lia.
Qed.

Lemma span_digits_length (s ds r : str) :
  span_digits s = (ds, r) -> (length r <= length s)%nat.
Proof.
  revert ds r. induction s as [|c s IH]; intros ds r; simpl.
  - intros [= <- <-]. simpl. lia.
  - destruct (is_digit c).
    + destruct (span_digits s) as [ds' r'] eqn:E. intros [= <- <-].
      specialize (IH _ _ eq_refl). lia.
    + intros [= <- <-]. simpl. lia.
Qed.

Lemma take_sign_length (s sign r : str) :
  take_sign s = (sign, r) -> (length r <= length s)%nat.
Proof.
  destruct s as [|c s]; simpl; [intros [= <- <-]; simpl; lia|].
  destruct (c =? 45)%N; intros [= <- <-]; simpl; lia.
Qed.

Lemma take_int_shorter (s digits r : str) :
  take_int s = Some (digits, r) -> (length r < length s)%nat.
Proof.
  destruct s as [|c s]; [done|]. cbn [take_int span_digits].
  destruct (is_digit c); [|done]. destruct (c =? 48)%N.
  - intros [= <- <-]. simpl. lia.
  - destruct (span_digits s) as [ds r'] eqn:E. intros [= <- <-].
    apply span_digits_length in E. simpl. lia.
Qed.

Lemma take_fraction_length (s fraction r : str) :
  take_fraction s = (fraction, r) -> (length r <= length s)%nat.
Proof.
  unfold take_fraction. destruct s as [|dot [|d s]];
    try (intros [= <- <-]; simpl; lia).
  destruct ((dot =? 46)%N && is_digit d); [|intros [= <- <-]; simpl; lia].
  destruct (span_digits _) as [ds r'] eqn:E. intros [= <- <-].
  apply span_digits_length in E. simpl in *. lia.
Qed.

Lemma take_exponent_length (s exponent r : str) :
  take_exponent s = (exponent, r) -> (length r <= length s)%nat.
Proof.
  unfold take_exponent. destruct s as [|e [|d rest]];
    try (intros [= <- <-]; simpl; lia).
  destruct ((e =? 101) || (e =? 69))%N; [|intros [= <- <-]; simpl; lia].
  destruct (is_digit d).
  - destruct (span_digits _) as [ds r'] eqn:E. intros [= <- <-].
    apply span_digits_length in E. simpl in *. lia.
  - destruct ((d =? 43) || (d =? 45))%N; [|intros [= <- <-]; simpl; lia].
    destruct rest as [|d' rest]; [intros [= <- <-]; simpl; lia|].
    destruct (is_digit d'); [|intros [= <- <-]; simpl; lia].
    destruct (span_digits _) as [ds r'] eqn:E. intros [= <- <-].
    apply span_digits_length in E. simpl in *. lia.
Qed.

Lemma scan_number_shorter (s lexeme r : str) :
  scan_number s = Some (lexeme, r) -> (length r < length s)%nat.
Proof.
  unfold scan_number.
  destruct (take_sign s) as [sign s1] eqn:E1.
  destruct (take_int s1) as [[digits s2]|] eqn:E2; [|done]. cbn.
  destruct (take_fraction s2) as [fraction s3] eqn:E3.
  destruct (take_exponent s3) as [exponent s4] eqn:E4.
  intros [= <- <-].
  apply take_sign_length in E1. apply take_int_shorter in E2.
  apply take_fraction_length in E3. apply take_exponent_length in E4. lia.
Qed.

Lemma scan_word_shorter (s : str) (v : json) (r : str) :
  scan_word s = Some (v, r) -> (length r < length s)%nat.
Proof.
  unfold scan_word.
  repeat case_match; try done; intros [= <- <-];
    match goal with
    | H : startswith _ _ = true |- _ =>
        apply startswith_spec in H as [after ->]
    end; rewrite length_drop, length_app; vm_compute length; simpl; lia.
Qed.

Lemma scan_fuel_enough (f : nat) :
  fuel_enough (fun f s (_ : unit) => scan_value f s) f /\
  fuel_enough scan_items f /\
  fuel_enough scan_members f.
Proof.
  induction f as [|f (IHv & IHi & IHm)]; [by repeat split|].
  assert (Hv : fuel_enough (fun f s (_ : unit) => scan_value f s) (S f)).
  { intros s [] v r. cbn beta. cbn [scan_value].
    destruct s as [|c s0]; [done|].
    destruct (c =? 34)%N eqn:E34.
    { destruct (scan_string s0 []) as [[text r1]|] eqn:Es; [|done].
      cbn. intros [= <- <-]. apply scan_string_shorter in Es as Hlen.
      split; [simpl; lia|]. intros [|f'] Hf'; [simpl in Hf'; lia|].
      cbn [scan_value]. rewrite E34, Es. done. }
    destruct (c =? 123)%N eqn:E123.
    { destruct (skip_ws s0) as [|d r'] eqn:Esk; [done|].
      pose proof (skip_ws_length s0) as Hsk. rewrite Esk in Hsk.
      destruct (d =? 125)%N eqn:E125.
      - intros [= <- <-]. simpl in *. split; [lia|].
        intros [|f'] Hf'; [lia|]. cbn [scan_value].
        rewrite E34, E123, Esk, E125. done.
      - intros H. destruct (IHm _ _ _ _ H) as [Hlen Hall].
        simpl in *. split; [lia|].
        intros [|f'] Hf'; [lia|]. cbn [scan_value].
        rewrite E34, E123, Esk, E125. apply Hall. simpl. lia. }
    destruct (c =? 91)%N eqn:E91.
    { destruct (skip_ws s0) as [|d r'] eqn:Esk; [done|].
      pose proof (skip_ws_length s0) as Hsk. rewrite Esk in Hsk.
      destruct (d =? 93)%N eqn:E93.
      - intros [= <- <-]. simpl in *. split; [lia|].
        intros [|f'] Hf'; [lia|]. cbn [scan_value].
        rewrite E34, E123, E91, Esk, E93. done.
      - intros H. destruct (IHi _ _ _ _ H) as [Hlen Hall].
        simpl in *. split; [lia|].
        intros [|f'] Hf'; [lia|]. cbn [scan_value].
        rewrite E34, E123, E91, Esk, E93. apply Hall. simpl. lia. }
    destruct (scan_word (c :: s0)) as [[w rw]|] eqn:Ew.
    { intros [= <- <-]. apply scan_word_shorter in Ew as Hlen.
      split; [done|]. intros [|f'] Hf'; [simpl in *; lia|].
      cbn [scan_value]. rewrite E34, E123, E91, Ew. done. }
    destruct (scan_number (c :: s0)) as [[lexeme rn]|] eqn:En; [|done].
    cbn. intros [= <- <-]. apply scan_number_shorter in En as Hlen.
    split; [done|]. intros [|f'] Hf'; [simpl in *; lia|].
    cbn [scan_value]. rewrite E34, E123, E91, Ew, En. done. }
  split; [exact Hv|]. split.
  - intros s acc v r. cbn [scan_items].
    destruct (scan_value f s) as [[v1 r1]|] eqn:Ev; [|done]. cbn.
    destruct (IHv s tt _ _ Ev) as [Hlen1 Hall1].
    pose proof (skip_ws_length r1) as Hsk.
    destruct (skip_ws r1) as [|c r'] eqn:Esk; [done|].
    destruct (c =? 93)%N eqn:E93.
    + intros [= <- <-]. simpl in *. split; [lia|].
      intros [|f'] Hf'; [lia|]. cbn [scan_items].
      rewrite (Hall1 f') by lia. cbn. rewrite Esk, E93. done.
    + destruct (c =? 44)%N eqn:E44; [|done].
      intros H. destruct (IHi _ _ _ _ H) as [Hlen Hall].
      pose proof (skip_ws_length r') as Hsk'.
      simpl in *. split; [lia|].
      intros [|f'] Hf'; [lia|]. cbn [scan_items].
      rewrite (Hall1 f') by lia. cbn. rewrite Esk, E93, E44.
      apply Hall. lia.
  - intros s acc v r. cbn [scan_members].
    destruct s as [|q s0]; [done|].
    destruct (q =? 34)%N eqn:E34; [|done].
    destruct (scan_string s0 []) as [[key r1]|] eqn:Es; [|done]. cbn.
    apply scan_string_shorter in Es as Hlen0.
    pose proof (skip_ws_length r1) as Hsk1.
    destruct (skip_ws r1) as [|colon r2] eqn:Esk1; [done|].
    destruct (colon =? 58)%N eqn:E58; [|done].
    destruct (scan_value f (skip_ws r2)) as [[v1 r3]|] eqn:Ev; [|done]. cbn.
    destruct (IHv _ tt _ _ Ev) as [Hlen1 Hall1].
    pose proof (skip_ws_length r2) as Hsk2.
    pose proof (skip_ws_length r3) as Hsk3.
    destruct (skip_ws r3) as [|c r4] eqn:Esk3; [done|].
    destruct (c =? 125)%N eqn:E125.
    + intros [= <- <-]. simpl in *. split; [lia|].
      intros [|f'] Hf'; [lia|]. cbn [scan_members].
      rewrite E34, Es. cbn. rewrite Esk1, E58.
      rewrite (Hall1 f') by lia. cbn. rewrite Esk3, E125. done.
    + destruct (c =? 44)%N eqn:E44; [|done].
      intros H. destruct (IHm _ _ _ _ H) as [Hlen Hall].
      pose proof (skip_ws_length r4) as Hsk4.
      simpl in *. split; [lia|].
      intros [|f'] Hf'; [lia|]. cbn [scan_members].
      rewrite E34, Es. cbn. rewrite Esk1, E58.
      rewrite (Hall1 f') by lia. cbn. rewrite Esk3, E125, E44.
      apply Hall. lia.
Qed.

(** The fuel [json_loads] gives the decoder is enough: a text that the
    decoder reads with some fuel, it reads with that one, so that
    [json_loads] reports an error only for a text that no run reads. *)
Lemma json_loads_fuel_suffices (f : nat) (s : str) (v : json) (r : str) :
  scan_value f (skip_ws s) = Some (v, r) ->
  scan_value (2 * length s + 2) (skip_ws s) = Some (v, r).
Proof.
  intros H. destruct (scan_fuel_enough f) as [Hv _].
  destruct (Hv _ tt _ _ H) as [_ Hall]. apply Hall.
  pose proof (skip_ws_length s). lia.
Qed.

(** ** The repair pass *)

(** C7, on the code. The object of a greeting written with curly quotes
    differs from its strict rendering by the quotes alone. The repair pass
    returns it as it is, curly quotes included; its parse fails and so does
    the recovery, and [process_ai_instruction] returns an error envelope,
    where the strict rendering is parsed and dispatched as a greeting. A
    strict object whose title is the text [a,}] is moreover changed by the
    repair pass, which takes the comma of the title for a trailing one: the
    object parsed after the repair has another title. *)
Theorem repair_keeps_curly_quotes (U : interpreter)
    (p : provider)
    (create_event create_task query_events query_tasks : json -> str -> M json)
    (user_id : str) :
  clean_json_string curly_greeting = curly_greeting /\
  clean_json_string strict_greeting = strict_greeting /\
  json_loads strict_greeting = Ok (JObj [(u "action", JStr (u "greeting"))]) /\
  (exists e : exn, json_loads (clean_json_string curly_greeting) = Raise e) /\
  (exists envelope : json,
      parse_instruction (clean_json_string curly_greeting) = inr envelope /\
      is_error envelope) /\
  (exists envelope : json,
      process_ai_instruction U p create_event create_task query_events
        query_tasks (u "instruction: " ++ curly_greeting) user_id
      = ([], Ok envelope) /\
      is_error envelope) /\
  process_ai_instruction U p create_event create_task query_events
    query_tasks (u "instruction: " ++ strict_greeting) user_id
  = ([], Ok (JObj [(u "success", JBool true);
                   (u "message", JStr (u "Greeting processed"))])) /\
  json_loads comma_title = Ok (JObj [(u "title", JStr (u "a,}"))]) /\
  json_loads (clean_json_string comma_title)
  = Ok (JObj [(u "title", JStr (u "a}"))]).
Proof.
  split; [by vm_compute|]. split; [by vm_compute|]. split; [by vm_compute|].
  split; [eexists; by vm_compute|].
  split; [eexists; split; [by vm_compute|eexists; reflexivity]|].
  split; [eexists; split; [by vm_compute|eexists; reflexivity]|].
  split; [by vm_compute|]. split; by vm_compute.
Qed.

(** ** The recovery of the first complete object *)

Lemma find_from_none (c : N) (s : str) (i : Z) :
  0 <= i -> (find_from c s i = -1 <-> c ∉ s).
Proof.
  revert i. induction s as [|d s IH]; intros i Hi; simpl.
  - split; [intros _; apply not_elem_of_nil|done].
  - destruct (N.eqb_spec d c) as [->|Hne].
    + split; [lia|]. intros H. exfalso. apply H. left.
    + rewrite IH by lia. rewrite not_elem_of_cons. split; [by intros H; split|].
      by intros [_ H].
Qed.

Lemma find_from_some (c : N) (s : str) (i : Z) :
  0 <= i ->
  find_from c s i <> -1 ->
  exists before rest : str,
    s = before ++ c :: rest /\ (c ∉ before) /\
    find_from c s i = i + Z.of_nat (length before).
Proof.
  revert i. induction s as [|d s IH]; intros i Hi; simpl; [done|].
  destruct (N.eqb_spec d c) as [->|Hne].
  - intros _. exists [], s. simpl. split; [done|].
    split; [apply not_elem_of_nil|lia].
  - intros H. assert (Hi' : 0 <= i + 1) by lia.
    destruct (IH (i + 1) Hi' H) as (before & rest & -> & Hb & Hf).
    exists (d :: before), rest. simpl. split; [done|].
    split; [rewrite not_elem_of_cons; by split|]. lia.
Qed.

Lemma find_none (c : N) (s : str) : find c s = -1 <-> c ∉ s.
Proof. unfold find. by apply find_from_none. Qed.

Lemma find_some (c : N) (s : str) :
  find c s <> -1 ->
  exists before rest : str,
    s = before ++ c :: rest /\ (c ∉ before) /\
    Z.to_nat (find c s) = length before.
Proof.
  unfold find. intros Hf.
  destruct (find_from_some c s 0) as (before & rest & -> & Hb & ->);
    [lia|done|].
  exists before, rest. repeat split; [done|lia].
Qed.

Lemma depth_app (a b : str) : depth (a ++ b) = depth a + depth b.
Proof. induction a as [|c a IH]; simpl; [done|]. rewrite IH. lia. Qed.

Lemma closes_at_cons (k : Z) (c : N) (t span : str) :
  let step := if (c =? 123)%N then 1 else if (c =? 125)%N then -1 else 0 in
  0 < k ->
  closes_at (k + step) t span -> closes_at k (c :: t) (c :: span).
Proof.
  intros step Hk ([after ->] & Hz & Hmin). split; [by exists after|].
  split; [simpl; fold step; lia|].
  intros [|c' q] r Hq Hr; simpl; [lia|].
  injection Hq as <- Hq. fold step. specialize (Hmin q r Hq Hr). lia.
Qed.

Lemma closes_at_uncons (k : Z) (c : N) (t span : str) :
  let step := if (c =? 123)%N then 1 else if (c =? 125)%N then -1 else 0 in
  0 < k ->
  closes_at k (c :: t) span ->
  exists span' : str,
    span = c :: span' /\
    (k + step = 0 -> span' = []) /\
    (k + step <> 0 -> closes_at (k + step) t span').
Proof.
  intros step Hk ([after Ht] & Hz & Hmin).
  destruct span as [|c' span']; [simpl in Hz; lia|].
  injection Ht as <- ->. exists span'. split; [done|]. split.
  - intros Hstep. destruct span' as [|d span'']; [done|].
    assert (Hne : d :: span'' ≠ []) by done.
    specialize (Hmin [c] (d :: span'') eq_refl Hne).
    simpl in Hmin. fold step in Hmin. lia.
  - intros Hstep. split; [by exists after|].
    split; [simpl in Hz; fold step in Hz; lia|].
    intros q r Hq Hr. specialize (Hmin (c :: q) r).
    simpl in Hmin. fold step in Hmin. rewrite Hq in Hmin.
    specialize (Hmin eq_refl Hr). lia.
Qed.

Lemma balanced_span_sound (t : str) (k : Z) (span : str) :
  0 < k -> balanced_span t k = Some span -> closes_at k t span.
Proof.
  revert k span. induction t as [|c t IH]; intros k span Hk; simpl; [done|].
  destruct (N.eqb_spec c 123) as [->|H123].
  - destruct (balanced_span t (k + 1)) as [span'|] eqn:E; [|done].
    intros [= <-]. apply (closes_at_cons k 123); [lia|].
    simpl. apply IH; [lia|done].
  - destruct (N.eqb_spec c 125) as [->|H125].
    + destruct (Z.eqb_spec (k - 1) 0) as [Hz|Hnz].
      * intros [= <-]. split; [by exists t|]. split; [simpl; lia|].
        intros [|d q] r Hq Hr; simpl; [lia|].
        injection Hq as <- Hq. symmetry in Hq.
        apply app_eq_nil in Hq as [_ ->]. done.
      * destruct (balanced_span t (k - 1)) as [span'|] eqn:E; [|done].
        intros [= <-]. apply (closes_at_cons k 125); [lia|].
        simpl. replace (k + -1) with (k - 1) by lia. apply IH; [lia|done].
    + destruct (balanced_span t k) as [span'|] eqn:E; [|done].
      intros [= <-].
      pose proof (closes_at_cons k c t span') as H. simpl in H.
      destruct (N.eqb_spec c 123); [done|].
      destruct (N.eqb_spec c 125); [done|].
      rewrite Z.add_0_r in H. apply H; [lia|]. apply IH; [lia|done].
Qed.

Lemma balanced_span_complete (t : str) (k : Z) (span : str) :
  0 < k -> closes_at k t span -> balanced_span t k = Some span.
Proof.
  revert k span. induction t as [|c t IH]; intros k span Hk Hc.
  - destruct Hc as ([after Ht] & Hz & _). symmetry in Ht.
    apply app_eq_nil in Ht as [-> _]. simpl in Hz. lia.
  - destruct (closes_at_uncons k c t span Hk Hc) as (span' & -> & Hz & Hnz).
    simpl. destruct (N.eqb_spec c 123) as [->|H123].
    + simpl in Hnz. rewrite (IH (k + 1) span'); [done|lia|].
      apply Hnz. lia.
    + destruct (N.eqb_spec c 125) as [->|H125].
      * simpl in Hz, Hnz. destruct (Z.eqb_spec (k - 1) 0) as [Hk0|Hk0].
        -- rewrite Hz; [done|lia].
        -- replace (k - 1) with (k + -1) by lia.
           rewrite (IH (k + -1) span'); [done|lia|]. apply Hnz. lia.
      * rewrite Z.add_0_r in Hnz. rewrite (IH k span'); [done|lia|].
        apply Hnz. lia.
Qed.

Lemma first_occurrence_unique (c : N) (b1 r1 b2 r2 : str) :
  b1 ++ c :: r1 = b2 ++ c :: r2 -> c ∉ b1 -> c ∉ b2 -> b1 = b2 /\ r1 = r2.
Proof.
  revert b2. induction b1 as [|x b1 IH]; intros [|y b2]; simpl.
  - by intros [= ->].
  - intros [= <- _] _ H. exfalso. apply H. left.
  - intros [= -> _] H. exfalso. apply H. left.
  - intros [= -> H] H1 H2. apply not_elem_of_cons in H1 as [_ H1].
    apply not_elem_of_cons in H2 as [_ H2].
    destruct (IH b2 H H1 H2) as [-> ->]. done.
Qed.

Lemma recovered_span_spec (s span : str) :
  recovered_span s = Some span <-> first_complete_object s span.
Proof.
  unfold recovered_span, first_complete_object. split.
  - destruct (Z.eqb_spec (find 123 s) (-1)) as [|Hf]; [done|].
    destruct (find_some _ _ Hf) as (before & rest0 & -> & Hb & ->).
    rewrite drop_app_length. simpl.
    destruct (balanced_span rest0 (0 + 1)) as [span'|] eqn:E; [|done].
    intros [= <-]. apply balanced_span_sound in E; [|lia].
    destruct E as ([after ->] & Hz & Hmin).
    exists before, after. split; [done|]. split; [done|].
    split; [by eexists|]. split; [simpl; lia|].
    intros [|c q] r Hq Hq0 Hr; [done|]. injection Hq as <- Hq.
    specialize (Hmin q r Hq Hr). simpl. lia.
  - intros (before & after & -> & Hb & [rest ->] & Hz & Hmin).
    assert (Hin : find 123 (before ++ (123%N :: rest) ++ after) <> -1).
    { rewrite find_none. intros H. apply H.
      apply elem_of_app. right. left. }
    destruct (Z.eqb_spec (find 123 (before ++ (123%N :: rest) ++ after)) (-1))
      as [|_]; [done|].
    destruct (find_some _ _ Hin) as (before' & rest' & Heq & Hb' & ->).
    simpl in Heq.
    destruct (first_occurrence_unique _ _ _ _ _ Heq Hb Hb') as [<- <-].
    rewrite drop_app_length. simpl.
    rewrite (balanced_span_complete (rest ++ after) (0 + 1) rest); [done|lia|].
    split; [by exists after|]. split; [simpl in Hz; lia|].
    intros q r Hq Hr.
    assert (Hne : 123%N :: q ≠ []) by done.
    specialize (Hmin (123%N :: q) r). simpl in Hmin. rewrite Hq in Hmin.
    specialize (Hmin eq_refl Hne Hr). lia.
Qed.

Lemma parse_instruction_recovery (s : str) (e : exn) :
  json_loads s = Raise e ->
  parse_instruction s
  = match recovered_span s with
    | Some span =>
        match json_loads span with
        | Ok instruction => inl instruction
        | Raise e2 =>
            inr (error_envelope
                   (u "Failed to parse instruction JSON: " ++ exn_str e2))
        end
    | None =>
        inr (error_envelope
               (if find 123 s =? -1
                then u "Failed to parse instruction JSON: No JSON object found"
                else u "Failed to parse instruction JSON: Incomplete JSON object"))
    end.
Proof.
  intros H. unfold parse_instruction, recovered_span. rewrite H.
  destruct (find 123 s =? -1); simpl; [done|].
  by destruct (balanced_span _ _).
Qed.

(** C8. When the strict parse of the captured text fails, what is parsed next
    is the first complete object of the text: the span that starts at the
    first opening brace and ends at the closing brace where the count of the
    braces first returns to zero. There is at most one such span; the
    result is the object parsed from it, or an error envelope when it does
    not parse; what follows the span plays no part. When the text has no such
    span the result is an error envelope. In either case of failure
    [process_ai_instruction] returns that envelope and sends no request. *)
Theorem recovery_takes_first_complete_object (U : interpreter) (instruction_str
    : str) (e : exn) :
  json_loads instruction_str = Raise e ->
  (forall span : str,
      first_complete_object instruction_str span ->
      parse_instruction instruction_str
      = match json_loads span with
        | Ok instruction => inl instruction
        | Raise e2 =>
            inr (error_envelope
                   (u "Failed to parse instruction JSON: " ++ exn_str e2))
        end) /\
  (forall span1 span2 : str,
      first_complete_object instruction_str span1 ->
      first_complete_object instruction_str span2 ->
      span1 = span2) /\
  ((forall span : str, ~ first_complete_object instruction_str span) ->
   exists envelope : json,
     parse_instruction instruction_str = inr envelope /\ is_error envelope) /\
  (forall (p : provider)
          (create_event create_task query_events query_tasks
             : json -> str -> M json)
          (ai_response captured user_id : str) (envelope : json),
      search_instruction ai_response = Some captured ->
      clean_json_string captured = instruction_str ->
      parse_instruction instruction_str = inr envelope ->
      process_ai_instruction U p create_event create_task query_events
        query_tasks ai_response user_id = ([], Ok envelope)).
Proof.
  intros Hfail. pose proof (parse_instruction_recovery _ _ Hfail) as Hparse.
  split; [|split; [|split]].
  - intros span Hspan%recovered_span_spec. by rewrite Hparse, Hspan.
  - intros span1 span2 H1%recovered_span_spec H2%recovered_span_spec.
    congruence.
  - intros Hnone. rewrite Hparse.
    destruct (recovered_span instruction_str) as [span|] eqn:E.
    + exfalso. by apply (Hnone span), recovered_span_spec.
    + eexists. split; [done|]. by eexists.
  - intros p h1 h2 h3 h4 ai_response captured user_id envelope Hs Hc Hp.
    unfold process_ai_instruction. rewrite Hs, Hc, Hp. reflexivity.
Qed.

Lemma recovery_takes_first_complete_object_witness :
  json_loads greeting_and_more = Raise (Exn JSONDecodeError (u "Extra data")) /\
  first_complete_object greeting_and_more strict_greeting /\
  parse_instruction greeting_and_more
  = inl (JObj [(u "action", JStr (u "greeting"))]).
Proof.
  assert (Hfail : json_loads greeting_and_more
                  = Raise (Exn JSONDecodeError (u "Extra data")))
    by (vm_compute; reflexivity).
  assert (Hspan : first_complete_object greeting_and_more strict_greeting).
  { apply recovered_span_spec. vm_compute. reflexivity. }
  split; [exact Hfail|]. split; [exact Hspan|].
  destruct (recovery_takes_first_complete_object sample_interpreter
    greeting_and_more _ Hfail)
    as [H _].
  rewrite (H _ Hspan). vm_compute. reflexivity.
Defined.

(** ** Runs on sample data *)

(** One candidate titled "Dentist appointment" and the description "dentist
    appointment": one deletion is asked, of that candidate. *)
Example sole_match_is_deleted :
  let task := sample_task "t1" "Dentist appointment" None in
  let r :=
    find_and_delete sample_interpreter Task (sample_provider [task] [])
      (find_and_delete_instruction "task"
         [("title"%string, JStr (u "dentist appointment"))])
      sample_user in
  calls_of r
  = [TasklistsList; TasksList (JStr (u "list-1"));
     TasksDelete (JStr (u "list-1")) (JStr (u "t1"))] /\
  deleted_ids (calls_of r) = [JStr (u "t1")] /\
  field "message" (default JNull (match outcome r with
                                  | Ok envelope => Some envelope
                                  | Raise _ => None
                                  end))
  = Some (JStr (u "Task 'Dentist appointment' deleted successfully.")).
Proof. by vm_compute. Qed.

(** No candidate at all: nothing is asked to be deleted. *)
Example nothing_browsed_nothing_deleted :
  let r :=
    find_and_delete sample_interpreter Event (sample_provider [] [])
      (find_and_delete_instruction "event"
         [("title"%string, JStr (u "dentist"))])
      sample_user in
  calls_of r = [EventsList] /\
  field "message" (default JNull (match outcome r with
                                  | Ok envelope => Some envelope
                                  | Raise _ => None
                                  end))
  = Some (JStr (u "No events found to delete.")).
Proof. by vm_compute. Qed.

(** A title that is [null], as the prompt allows for a title that is not
    specified: [.lower()] raises, the handler returns an error envelope and
    asks for no deletion. *)
Example null_title_is_an_error :
  let r :=
    find_and_delete sample_interpreter Task (sample_provider [rent_task] [])
      (find_and_delete_instruction "task" [("title"%string, JNull)])
      sample_user in
  selection sample_interpreter Task (find_and_delete_instruction "task"
    [("title"%string, JNull)])
    [rent_task]
  = Raise (Exn AttributeError
             (u "'NoneType' object has no attribute 'lower'")) /\
  r = ([TasklistsList; TasksList (JStr (u "list-1"))],
       Ok (error_envelope
             (u "Failed to find and delete task: 'NoneType' object has no attribute 'lower'"))).
Proof. by vm_compute. Qed.

(** A start hint without an offset against an event whose timestamp has
    one: the subtraction raises and the handler returns an error envelope. *)
Example naive_hint_against_aware_event :
  let instruction :=
    find_and_delete_instruction "event"
      [("title"%string, JStr (u "catchup"));
       ("datetime_start"%string, JStr (u "2025-06-27T17:00:00"))] in
  find_and_delete sample_interpreter Event (sample_provider [] [catchup_event])
    instruction
    sample_user
  = ([EventsList],
     Ok (error_envelope
           (u "Failed to find and delete calendar event: can't subtract offset-naive and offset-aware datetimes"))).
Proof. by vm_compute. Qed.

(** The start hint of [catchup_instruction] is half an hour after the event:
    the event is kept and deleted. An hour and one second apart it is not. *)
Example within_the_hour :
  deleted_ids
    (calls_of
       (find_and_delete sample_interpreter Event (sample_provider []
         [catchup_event])
          catchup_instruction sample_user))
  = [JStr (u "e5")] /\
  selection sample_interpreter Event
    (find_and_delete_instruction "event"
       [("title"%string, JStr (u "catchup"));
        ("datetime_start"%string, JStr (u "2025-06-27T18:00:01-05:00"))])
    [catchup_event] = Ok [] /\
  selection sample_interpreter Event
    (find_and_delete_instruction "event"
       [("title"%string, JStr (u "catchup"));
        ("datetime_start"%string, JStr (u "2025-06-27T23:00:00Z"))])
    [catchup_event] = Ok [catchup_event].
Proof. by vm_compute. Qed.

(** Trailing commas and surrounding white space are repaired. *)
Example trailing_commas_are_repaired :
  let text :=
    u "  {" ++ quoted "action" ++ u ": " ++ quoted "greeting" ++ u ", "
    ++ quoted "reminders" ++ u ": [1, 2, ], }" ++ [10%N] in
  (exists e : exn, json_loads text = Raise e) /\
  json_loads (clean_json_string text)
  = Ok (JObj [(u "action", JStr (u "greeting"));
              (u "reminders", JArr [JNum (u "1"); JNum (u "2")])]).
Proof. split; [eexists|]; by vm_compute. Qed.

(** The group the pattern captures runs to the last closing brace of the
    reply. *)
Example capture_runs_to_last_brace :
  search_instruction (u "ok instruction:  {a{b}c} userReply: } done")
  = Some (u "{a{b}c} userReply: }") /\
  recovered_span (u "{a{b}c} userReply: }") = Some (u "{a{b}c}").
Proof. by vm_compute. Qed.

(** Reads of a history of nine messages. *)
Example reads_of_nine_messages :
  let h := after_appends nine_appends in
  length (get_conversation_history h (u "alice") (Some 8)) = 8%nat /\
  length (get_conversation_history h (u "alice") None) = 9%nat /\
  length (get_conversation_history h (u "alice") (Some 0)) = 9%nat /\
  get_conversation_history h (u "bob") None = [].
Proof. by vm_compute. Qed.

(* ===================================================================== *)
(** * Part III: further properties of the code                             *)
(* ===================================================================== *)

(** ** The conversation store as a window *)

Lemma last_entries_app {A} (k : nat) (l m : list A) :
  last_entries k (last_entries k l ++ m) = last_entries k (l ++ m).
Proof.
  unfold last_entries. rewrite !length_app, length_drop.
  destruct (decide (length l <= k)%nat) as [Hle|Hgt].
  - replace (length l - k)%nat with 0%nat by lia. rewrite drop_0.
    f_equal. lia.
  - rewrite <- (drop_app_le l m (length l - k)) by lia.
    rewrite drop_drop. f_equal. lia.
Qed.

Lemma entries_for_snoc (user_id : str) (ops : list append) (a : append) :
  entries_for user_id (ops ++ [a])
  = entries_for user_id ops
    ++ (if decide (ap_user a = user_id)
        then [Entry (ap_message a) (default true (ap_is_user a)) (ap_now a)]
        else []).
Proof.
  unfold entries_for. rewrite omap_app. f_equal. simpl.
  by destruct (decide _).
Qed.

(** X1. After any sequence of appends on the store of start-up, what is
    stored for a user is the last 20 of the entries appended for that user,
    in the order of the calls, whatever was appended for other users in
    between. *)
Theorem store_is_window_of_20 (ops : list append) (user_id : str) :
  stored (after_appends ops) user_id
  = last_entries 20 (entries_for user_id ops).
Proof.
  induction ops as [|a ops IH] using rev_ind.
  - done.
  - unfold after_appends in *. rewrite foldl_app. cbn [foldl].
    rewrite entries_for_snoc.
    destruct (decide (ap_user a = user_id)) as [<-|Hne].
    + rewrite stored_do_append, IH. apply last_entries_app.
    + rewrite app_nil_r, <- IH. unfold stored.
      by rewrite do_append_other.
Qed.

Lemma last_read_after_append
    (h : history) (now user_id msg : str) (is_user : option bool) (k : Z) :
  1 <= k ->
  last (get_conversation_history
          (add_to_conversation_history h now user_id msg is_user)
          user_id (Some k))
  = Some (Entry msg (default true is_user) now).
Proof.
  intros Hk. set (h' := add_to_conversation_history h now user_id msg is_user).
  pose proof (stored_do_append h (Append now user_id msg is_user)) as H.
  cbn [ap_user ap_message ap_is_user ap_now] in H.
  change (do_append h (Append now user_id msg is_user)) with h' in H.
  unfold get_conversation_history. cbn [default from_option id].
  unfold stored in H.
  destruct (h' !! user_id) as [l|] eqn:E.
  - cbn [default from_option id] in H. subst l.
    replace k with (Z.of_nat (Z.to_nat k)) by lia.
    rewrite slice_from_neg by lia.
    set (e := Entry _ _ _). set (l := default [] (h !! user_id)).
    unfold last_entries. rewrite !length_drop, !length_app, drop_drop.
    cbn [length].
    rewrite drop_app_le by lia. by rewrite last_snoc.
  - cbn [default from_option id] in H. unfold last_entries in H.
    apply (f_equal length) in H. rewrite length_drop, length_app in H.
    simpl in H. lia.
Qed.

Lemma read_other_after_append
    (h : history) (now user_id msg : str) (is_user : option bool)
    (other : str) (count : option Z) :
  other <> user_id ->
  get_conversation_history
    (add_to_conversation_history h now user_id msg is_user) other count
  = get_conversation_history h other count.
Proof.
  intros Hne. unfold get_conversation_history.
  pose proof (do_append_other h (Append now user_id msg is_user) other Hne)
    as H.
  change (do_append h (Append now user_id msg is_user))
    with (add_to_conversation_history h now user_id msg is_user) in H.
  by rewrite H.
Qed.

(** X2. A message appended for a user is the last entry of every read of
    that user's history with a count of one or more, with the flag and the
    clock reading of the call; a read of any other user's history is what it
    was before the call. *)
Theorem read_after_append
    (h : history) (now user_id msg : str) (is_user : option bool) (k : Z) :
  1 <= k ->
  let h' := add_to_conversation_history h now user_id msg is_user in
  last (get_conversation_history h' user_id (Some k))
  = Some (Entry msg (default true is_user) now) /\
  forall (other : str) (count : option Z),
    other <> user_id ->
    get_conversation_history h' other count
    = get_conversation_history h other count.
Proof.
  intros Hk h'. split.
  - by apply last_read_after_append.
  - intros other count Hne. by apply read_other_after_append.
Qed.

Lemma read_after_append_witness :
  let h' :=
    add_to_conversation_history (after_appends nine_appends)
      (u "2025-06-27T10:05:00") (u "alice") (u "hello") None in
  1 <= 8 /\
  last (get_conversation_history h' (u "alice") (Some 8))
  = Some (Entry (u "hello") true (u "2025-06-27T10:05:00")).
Proof.
  intros h'. split; [lia|].
  apply (read_after_append (after_appends nine_appends)
           (u "2025-06-27T10:05:00") (u "alice") (u "hello") None 8).
  lia.
Defined.

(** X3. A read with the count 0 returns the whole stored history, and a read
    with a negative count [-n] returns the stored history without its first
    [n] entries: the count bounds nothing unless it is 1 or more. *)
Theorem read_with_count_below_1 (h : history) (user_id : str) (k : Z) :
  k <= 0 ->
  get_conversation_history h user_id (Some k)
  = drop (Z.to_nat (- k)) (stored h user_id).
Proof.
  intros Hk. unfold get_conversation_history, stored.
  cbn [default from_option id].
  destruct (h !! user_id) as [l|]; cbn [default from_option id];
    [|by rewrite drop_nil].
  unfold slice_from.
  destruct (Z.ltb_spec (- k) 0) as [H|_]; [lia|].
  destruct (Z.min_spec (- k) (Z.of_nat (length l))) as [[_ ->]|[Hle ->]];
    [done|].
  rewrite Nat2Z.id, !drop_ge by lia. done.
Qed.

Lemma read_with_count_below_1_witness :
  0 <= 0 /\
  get_conversation_history (after_appends nine_appends) (u "alice") (Some 0)
  = drop (Z.to_nat (- 0)) (stored (after_appends nine_appends) (u "alice")).
Proof.
  split; [lia|].
  apply (read_with_count_below_1 (after_appends nine_appends) (u "alice") 0).
  lia.
Defined.

(** ** The search of the instruction *)

Lemma lstrip_split (s : str) :
  exists ws : str, s = ws ++ lstrip s /\ Forall (fun c => is_space c = true) ws.
Proof.
  induction s as [|c s (ws & Hs & Hws)]; [by exists []|].
  cbn [lstrip]. destruct (is_space c) eqn:Hc.
  - exists (c :: ws). split; [by rewrite Hs at 1|by constructor].
  - by exists [].
Qed.

Lemma lstrip_app (ws : str) (c : N) (t : str) :
  Forall (fun c => is_space c = true) ws -> is_space c = false ->
  lstrip (ws ++ c :: t) = c :: t.
Proof.
  intros Hws Hc. induction Hws as [|d ws Hd _ IH]; cbn [lstrip app].
  - by rewrite Hc.
  - by rewrite Hd.
Qed.

Lemma upto_last_None (c : N) (r : str) : upto_last c r = None <-> c ∉ r.
Proof.
  induction r as [|d r IH]; cbn [upto_last].
  - split; [intros _; apply not_elem_of_nil|done].
  - rewrite not_elem_of_cons, <- IH.
    destruct (upto_last c r); [split; [done|intros [_ [=]]]|].
    destruct (N.eqb_spec d c) as [->|Hne].
    + split; [done|intros [[] _]; done].
    + split; [done|done].
Qed.

Lemma upto_last_Some (c : N) (r t : str) :
  upto_last c r = Some t <->
  exists body after : str, r = body ++ c :: after /\ t = body ++ [c] /\ c ∉ after.
Proof.
  revert t. induction r as [|d r IH]; intros t; cbn [upto_last].
  - split; [done|]. intros (body & after & H & _). by destruct body.
  - destruct (upto_last c r) as [t'|] eqn:E.
    + destruct (proj1 (IH t') eq_refl) as (body & after & -> & -> & Hafter).
      split.
      * intros [= <-]. by exists (d :: body), after.
      * intros (body' & after' & H & -> & Hafter').
        destruct body' as [|d' body'].
        -- injection H as -> H. exfalso. apply Hafter'. rewrite <- H.
           apply elem_of_app. right. left.
        -- injection H as -> H. f_equal.
           assert (H' : Some (body ++ [c]) = Some (body' ++ [c])).
           { apply IH. exists body', after'. done. }
           by injection H' as ->.
    + apply upto_last_None in E.
      destruct (N.eqb_spec d c) as [->|Hne].
      * split.
        -- intros [= <-]. by exists [], r.
        -- intros (body & after & H & -> & Hafter).
           destruct body as [|d' body]; [done|].
           injection H as -> H. exfalso. apply E. rewrite H. apply elem_of_app. right. left.
      * split; [done|]. intros (body & after & H & -> & Hafter).
        destruct body as [|d' body]; injection H as -> H; [done|].
        exfalso. apply E. rewrite H. apply elem_of_app. right. left.
Qed.

Lemma startswith_app (p s : str) : startswith p (p ++ s) = true.
Proof. apply startswith_spec. by exists s. Qed.

Lemma instruction_here_Some (s g : str) :
  instruction_here s = Some g <->
  exists after : str, matches_at s [] g after /\ 125%N ∉ after.
Proof.
  unfold instruction_here, matches_at. split.
  - destruct (startswith _ s) eqn:Hp; [|done].
    apply startswith_spec in Hp as [rest ->].
    rewrite drop_app_length' by done.
    destruct (lstrip_split rest) as (ws & Hrest & Hws).
    destruct (lstrip rest) as [|c r]; [done|].
    destruct (N.eqb_spec c 123) as [->|]; [|done].
    destruct (upto_last 125 r) as [t|] eqn:E; [|done].
    apply upto_last_Some in E as (body & after & -> & -> & Hafter).
    intros [= <-]. exists after. split; [|done]. exists ws, body.
    split; [|done]. rewrite Hrest at 1. cbn [app]. by rewrite <- !app_assoc.
  - intros (after & (ws & body & -> & Hws & ->) & Hafter). cbn [app].
    rewrite startswith_app, drop_app_length' by done.
    rewrite lstrip_app by done.
    cbn [N.eqb Pos.eqb].
    assert (H : upto_last 125 ((body ++ [125%N]) ++ after)
                = Some (body ++ [125%N])).
    { apply upto_last_Some. exists body, after. by rewrite <- app_assoc. }
    by rewrite H.
Qed.

Lemma instruction_here_None (s : str) :
  instruction_here s = None -> forall g after : str, ~ matches_at s [] g after.
Proof.
  intros Hn g after (ws & body & -> & Hws & ->).
  revert Hn. unfold instruction_here. cbn [app].
  rewrite startswith_app, drop_app_length' by done.
  rewrite lstrip_app by done. cbn [N.eqb Pos.eqb].
  destruct (upto_last 125 _) eqn:E; [done|].
  apply upto_last_None in E. intros _. apply E. rewrite !elem_of_app, !elem_of_cons. tauto.
Qed.

Lemma matches_at_cons (c : N) (s before g after : str) :
  matches_at (c :: s) (c :: before) g after <-> matches_at s before g after.
Proof.
  unfold matches_at. split; intros (ws & body & H & Hws & ->); exists ws, body.
  - by injection H as ->.
  - by rewrite H.
Qed.

Lemma matches_at_head (s before g after : str) :
  matches_at s before g after ->
  match before with
  | [] => True
  | c :: before' => exists s', s = c :: s' /\ matches_at s' before' g after
  end.
Proof.
  destruct before as [|c before']; [done|].
  intros (ws & body & -> & Hws & ->). eexists. split; [done|].
  by exists ws, body.
Qed.

(** X4. The search of the instruction in a reply finds the group of the
    leftmost place where [instruction:] is followed by white space and by an
    opening brace that a closing brace follows somewhere, and the group runs
    from that opening brace to the last closing brace of the whole reply;
    the search fails exactly when the reply has no such place. *)
Theorem search_instruction_leftmost_longest (s : str) :
  match search_instruction s with
  | Some g =>
      exists before after : str,
        matches_at s before g after /\
        (125%N ∉ after) /\
        forall b' g' a' : str,
          matches_at s b' g' a' -> (length before <= length b')%nat
  | None => forall before g after : str, ~ matches_at s before g after
  end.
Proof.
  induction s as [|c s IH].
  - cbn [search_instruction].
    destruct (instruction_here []) as [g|] eqn:E.
    + apply instruction_here_Some in E as (after & Hm & Hafter).
      exists [], after. split; [done|]. split; [done|]. intros. simpl. lia.
    + intros before g after Hm.
      destruct before as [|d before].
      * by apply (instruction_here_None [] E g after).
      * by destruct Hm as (ws & body & H & _).
  - cbn [search_instruction].
    destruct (instruction_here (c :: s)) as [g|] eqn:E.
    + apply instruction_here_Some in E as (after & Hm & Hafter).
      exists [], after. split; [done|]. split; [done|]. intros. simpl. lia.
    + destruct (search_instruction s) as [g|].
      * destruct IH as (before & after & Hm & Hafter & Hleft).
        exists (c :: before), after. split; [by apply matches_at_cons|].
        split; [done|]. intros b' g' a' Hm'.
        destruct b' as [|d b'].
        -- by destruct (instruction_here_None _ E g' a').
        -- apply matches_at_head in Hm' as (s' & [= <- <-] & Hm').
           apply Hleft in Hm'. simpl. lia.
      * intros before g after Hm. destruct before as [|d before].
        -- by apply (instruction_here_None _ E g after).
        -- apply matches_at_head in Hm as (s' & [= <- <-] & Hm).
           by apply (IH before g after).
Qed.

(** ** What the find-and-delete handlers send *)

Lemma select_raise_head (keep : json -> result bool) (x : json) (l : list json)
    (e : exn) :
  keep x = Raise e -> select keep (x :: l) = Raise e.
Proof. intros H. cbn [select]. by rewrite H. Qed.

Lemma py_get_str (s k : str) (dflt : json) :
  py_get (JStr s) k dflt = Raise (no_attribute (JStr s) (u "get")).
Proof. done. Qed.

Lemma py_getitem_field (c : json) (id : json) :
  py_getitem c (u "id") = Ok id -> id_of c = Some id.
Proof.
  destruct c as [| | | | |members]; try done. unfold id_of, field. simpl.
  by destruct (lookup_member _ members) as [x|]; [intros [= ->]|].
Qed.

Ltac mstep :=
  cbv beta iota zeta delta [bind lift send ret try_except rbind negb].

Ltac envelope_leaf :=
  eexists; split; [reflexivity|];
  first [left; reflexivity | right; eexists; reflexivity].

Lemma select_of_keys (keep : json -> result bool) (tasks : json)
    (all kept : list json) :
  (forall (s : str) (rest : list json),
      select keep (JStr s :: rest) <> Ok kept) ->
  truthy tasks = true ->
  py_iter tasks = Ok all ->
  select keep all = Ok kept ->
  tasks = JArr all.
Proof.
  intros Hstr Ht Hiter Hsel.
  destruct tasks as [| | |s|items|members]; try done.
  - injection Hiter as <-. destruct s as [|c s]; [done|].
    exfalso. eapply Hstr. exact Hsel.
  - by injection Hiter as <-.
  - injection Hiter as <-. destruct members as [|[k v] members]; [done|].
    exfalso. eapply Hstr. exact Hsel.
Qed.

Lemma find_and_delete_task_log (U : interpreter)
    (p : provider) (instruction : json) (user_id : str) :
  let r := find_and_delete_task_from_instruction U p instruction user_id in
  (exists envelope : json,
      outcome r = Ok envelope /\ (is_success envelope \/ is_error envelope)) /\
  (calls_of r = [] \/
   calls_of r = [TasklistsList] \/
   (exists l : json, calls_of r = [TasklistsList; TasksList l]) \/
   (exists (l id : json) (candidates : list json) (c : json),
       calls_of r = [TasklistsList; TasksList l; TasksDelete l id] /\
       browsed Task p candidates /\
       selection U Task instruction candidates = Ok [c] /\
       id_of c = Some id)).
Proof.
  intros r. subst r. unfold find_and_delete_task_from_instruction.
  destruct (tasks_service_error p) as [err|] eqn:Hsvc.
  { mstep. split; [envelope_leaf|by left]. }
  mstep.
  destruct (execute p TasklistsList) as [tasklists|e] eqn:H1; mstep;
    [|split; [envelope_leaf|by right; left]].
  destruct (default_tasklist_id tasklists) as [tasklist_id|e] eqn:H2; mstep;
    [|split; [envelope_leaf|by right; left]].
  destruct (execute p (TasksList tasklist_id)) as [tasks_result|e] eqn:H3;
    mstep; [|split; [envelope_leaf|by right; right; left; eexists]].
  destruct (py_get tasks_result (u "items") (JArr [])) as [tasks|e] eqn:H4;
    mstep; [|split; [envelope_leaf|by right; right; left; eexists]].
  destruct (truthy tasks) eqn:Ht; mstep;
    [|split; [envelope_leaf|by right; right; left; eexists]].
  destruct (py_get instruction (u "title") (JStr [])) as [title|e] eqn:Htitle;
    mstep; [|split; [envelope_leaf|by right; right; left; eexists]].
  destruct (py_lower U title) as [sd|e] eqn:Hsd;
    mstep; [|split; [envelope_leaf|by right; right; left; eexists]].
  destruct (py_iter tasks) as [all_tasks|e] eqn:Hiter;
    mstep; [|split; [envelope_leaf|by right; right; left; eexists]].
  destruct (select (task_matches U sd) all_tasks) as [matching|e] eqn:Hsel;
    mstep; [|split; [envelope_leaf|by right; right; left; eexists]].
  destruct matching as [|m1 [|m2 ms]].
  - destruct (for_each format_task all_tasks) as [lines|e]; mstep;
      (split; [envelope_leaf|by right; right; left; eexists]).
  - destruct (py_get m1 (u "title") (JStr (u "Untitled Task")))
      as [task_title|e]; mstep;
      [|split; [envelope_leaf|by right; right; left; eexists]].
    destruct (py_getitem m1 (u "id")) as [task_id|e] eqn:Hid; mstep;
      [|split; [envelope_leaf|by right; right; left; eexists]].
    assert (Htasks : tasks = JArr all_tasks).
    { eapply select_of_keys; [|done..]. intros s rest.
      cbn [select]. unfold task_matches at 1. by rewrite py_get_str. }
    subst tasks.
    assert (Hfound :
      exists (l id : json) (candidates : list json) (c : json),
        [TasklistsList; TasksList tasklist_id; TasksDelete tasklist_id task_id]
        = [TasklistsList; TasksList l; TasksDelete l id] /\
        browsed Task p candidates /\
        selection U Task instruction candidates = Ok [c] /\
        id_of c = Some id).
    { exists tasklist_id, task_id, all_tasks, m1. split; [done|].
      split; [|split].
      - split; [done|]. by exists tasklists, tasklist_id, tasks_result.
      - unfold selection, search_description_of. rewrite Htitle. cbn [rbind].
        rewrite Hsd. done.
      - by apply py_getitem_field. }
    destruct (execute p (TasksDelete tasklist_id task_id)); mstep;
      (split; [envelope_leaf|by right; right; right]).
  - destruct (for_each format_task (m1 :: m2 :: ms)) as [lines|e]; mstep;
      (split; [envelope_leaf|by right; right; left; eexists]).
Qed.

Lemma find_and_delete_event_log (U : interpreter)
    (p : provider) (instruction : json) (user_id : str) :
  let r :=
    find_and_delete_calendar_event_from_instruction U p instruction user_id in
  (exists envelope : json,
      outcome r = Ok envelope /\ (is_success envelope \/ is_error envelope)) /\
  (calls_of r = [] \/
   calls_of r = [EventsList] \/
   (exists (id : json) (candidates : list json) (c : json),
       calls_of r = [EventsList; EventsDelete id] /\
       browsed Event p candidates /\
       selection U Event instruction candidates = Ok [c] /\
       id_of c = Some id)).
Proof.
  intros r. subst r. unfold find_and_delete_calendar_event_from_instruction.
  destruct (calendar_service_error p) as [err|] eqn:Hsvc.
  { mstep. split; [envelope_leaf|by left]. }
  mstep.
  destruct (execute p EventsList) as [events_result|e] eqn:H1; mstep;
    [|split; [envelope_leaf|by right; left]].
  destruct (py_get events_result (u "items") (JArr [])) as [events|e] eqn:H2;
    mstep; [|split; [envelope_leaf|by right; left]].
  destruct (truthy events) eqn:Ht; mstep;
    [|split; [envelope_leaf|by right; left]].
  destruct (py_get instruction (u "title") (JStr [])) as [title|e] eqn:Htitle;
    mstep; [|split; [envelope_leaf|by right; left]].
  destruct (py_lower U title) as [sd|e] eqn:Hsd;
    mstep; [|split; [envelope_leaf|by right; left]].
  destruct (py_get instruction (u "date") JNull) as [d|e] eqn:Hd;
    mstep; [|split; [envelope_leaf|by right; left]].
  destruct (py_get instruction (u "datetime_start") JNull) as [ds|e] eqn:Hds;
    mstep; [|split; [envelope_leaf|by right; left]].
  destruct (py_get instruction (u "time") JNull) as [t|e] eqn:Htime;
    mstep; [|split; [envelope_leaf|by right; left]].
  destruct (py_iter events) as [all_events|e] eqn:Hiter;
    mstep; [|split; [envelope_leaf|by right; left]].
  destruct (select (event_matches U sd d ds t) all_events)
    as [matching|e] eqn:Hsel;
    mstep; [|split; [envelope_leaf|by right; left]].
  destruct matching as [|m1 [|m2 ms]].
  - destruct (for_each format_event all_events) as [lines|e]; mstep;
      (split; [envelope_leaf|by right; left]).
  - destruct (py_get m1 (u "summary") (JStr (u "Untitled Event")))
      as [event_title|e]; mstep; [|split; [envelope_leaf|by right; left]].
    destruct (py_getitem m1 (u "id")) as [event_id|e] eqn:Hid; mstep;
      [|split; [envelope_leaf|by right; left]].
    assert (Hevents : events = JArr all_events).
    { eapply select_of_keys; [|done..]. intros s rest.
      cbn [select]. unfold event_matches at 1. by rewrite py_get_str. }
    subst events.
    assert (Hfound :
      exists (id : json) (candidates : list json) (c : json),
        [EventsList; EventsDelete event_id] = [EventsList; EventsDelete id] /\
        browsed Event p candidates /\
        selection U Event instruction candidates = Ok [c] /\
        id_of c = Some id).
    { exists event_id, all_events, m1. split; [done|].
      split; [|split].
      - split; [done|]. by exists events_result.
      - unfold selection, search_description_of. rewrite Htitle. cbn [rbind].
        rewrite Hsd. cbn [rbind]. rewrite Hd, Hds, Htime. done.
      - by apply py_getitem_field. }
    destruct (execute p (EventsDelete event_id)); mstep;
      (split; [envelope_leaf|by right; right]).
  - destruct (for_each format_event (m1 :: m2 :: ms)) as [lines|e]; mstep;
      (split; [envelope_leaf|by right; left]).
Qed.

Ltac last_request :=
  let before := fresh "before" in
  let H := fresh "H" in
  let Hdel := fresh "Hdel" in
  intros before ? ? H Hdel;
  destruct before as [|? [|? [|? [|? ?]]]]; simplify_eq/=; done.

Ltac allowed_requests :=
  repeat first
    [ apply Forall_nil_2
    | apply Forall_cons_2;
      [ first [ by left | by right; left; eexists | by right; right; left
              | by right; right; right ] | ] ].

(** X5. Whatever the provider answers and whatever the instruction holds, a
    [find_and_delete] handler raises nothing and returns a success envelope
    or an error envelope; it asks the provider for one deletion at most; a
    deletion is the last request it sends; and every other request it sends
    is a listing. *)
Theorem find_and_delete_is_guarded (U : interpreter)
    (k : item_kind) (p : provider) (instruction : json) (user_id : str) :
  let r := find_and_delete U k p instruction user_id in
  (exists envelope : json,
      outcome r = Ok envelope /\ (is_success envelope \/ is_error envelope)) /\
  (length (deleted_ids (calls_of r)) <= 1)%nat /\
  (forall (before : list call) (c : call) (after : list call),
      calls_of r = before ++ c :: after -> is_delete c = true -> after = []) /\
  Forall (fun c =>
            c = TasklistsList \/ (exists l : json, c = TasksList l) \/
            c = EventsList \/ is_delete c = true) (calls_of r).
Proof.
  intros r. subst r. destruct k; cbn [find_and_delete].
  - destruct (find_and_delete_task_log U p instruction user_id) as [Henv Hlog].
    split; [exact Henv|].
    destruct Hlog as [->|[->|[[l ->]|(l & id & cs & c0 & -> & _)]]].
    + split; [simpl; lia|]. split; [last_request|]. allowed_requests.
    + split; [simpl; lia|]. split.
      * last_request.
      * allowed_requests.
    + split; [simpl; lia|]. split.
      * last_request.
      * allowed_requests.
    + split; [simpl; lia|]. split.
      * last_request.
      * allowed_requests.
  - destruct (find_and_delete_event_log U p instruction user_id) as [Henv Hlog].
    split; [exact Henv|].
    destruct Hlog as [->|[->|(id & cs & c0 & -> & _)]].
    + split; [simpl; lia|]. split; [last_request|]. allowed_requests.
    + split; [simpl; lia|]. split.
      * last_request.
      * allowed_requests.
    + split; [simpl; lia|]. split.
      * last_request.
      * allowed_requests.
Qed.

Lemma selection_kept (U : interpreter) (k : item_kind) (instruction : json)
    (candidates kept : list json) (c : json) :
  selection U k instruction candidates = Ok kept -> c ∈ kept -> c ∈ candidates.
Proof.
  unfold selection. destruct (search_description_of U instruction); [|by
    destruct k].
  destruct k; cbn [rbind].
  - intros Hsel Hin. by destruct (select_kept _ _ _ _ Hsel Hin).
  - repeat (match goal with
            | |- context [rbind ?r _] => destruct r; cbn [rbind]; [|done]
            end).
    intros Hsel Hin. by destruct (select_kept _ _ _ _ Hsel Hin).
Qed.

(** X6. A [find_and_delete] handler deletes nothing but what it found: the
    id of every deletion it asks for is the id of a candidate the provider
    listed, and that candidate is the only one the matching loop of the
    handler selected for the instruction. *)
Theorem deletion_is_of_the_sole_match (U : interpreter)
    (k : item_kind) (p : provider) (instruction : json) (user_id : str)
    (id : json) :
  id ∈ deleted_ids (calls_of (find_and_delete U k p instruction user_id)) ->
  exists (candidates : list json) (c : json),
    browsed k p candidates /\
    selection U k instruction candidates = Ok [c] /\
    c ∈ candidates /\
    id_of c = Some id.
Proof.
  destruct k; cbn [find_and_delete].
  - destruct (find_and_delete_task_log U p instruction user_id) as [_ Hlog].
    destruct Hlog as [->|[->|[[l ->]|(l & id' & cs & c & -> & Hb & Hs & Hid)]]];
      cbn; try by intros ?%elem_of_nil.
    intros ->%list_elem_of_singleton. exists cs, c.
    split; [done|]. split; [done|]. split; [|done].
    eapply selection_kept; [done|left].
  - destruct (find_and_delete_event_log U p instruction user_id) as [_ Hlog].
    destruct Hlog as [->|[->|(id' & cs & c & -> & Hb & Hs & Hid)]];
      cbn; try by intros ?%elem_of_nil.
    intros ->%list_elem_of_singleton. exists cs, c.
    split; [done|]. split; [done|]. split; [|done].
    eapply selection_kept; [done|left].
Qed.

Lemma deletion_is_of_the_sole_match_witness :
  let p := sample_provider [rent_task] [] in
  JStr (u "t9")
    ∈ deleted_ids
        (calls_of
           (find_and_delete sample_interpreter Task p rent_instruction
              sample_user)) /\
  exists (candidates : list json) (c : json),
    browsed Task p candidates /\
    selection sample_interpreter Task rent_instruction candidates = Ok [c] /\
    c ∈ candidates /\
    id_of c = Some (JStr (u "t9")).
Proof.
  intros p.
  assert (H : JStr (u "t9")
                ∈ deleted_ids
                    (calls_of
                       (find_and_delete sample_interpreter Task p
                          rent_instruction sample_user))).
  { vm_compute. left. }
  split; [exact H|].
  exact (deletion_is_of_the_sole_match sample_interpreter Task p
           rent_instruction sample_user (JStr (u "t9")) H).
Defined.

(** ** Deletion by id *)

(** X7. With a calendar service at hand, the handler of a deletion by id
    sends nothing and returns an error envelope when the instruction gives no
    event id (none, null or the empty text, or an instruction that is no
    dict); with an id it sends one request, the deletion of that id, and
    returns a success envelope that carries the id when the provider accepts
    it, an error envelope with the text of the failure otherwise, told apart
    as a failure of the API or another one. *)
Theorem delete_event_by_id
    (p : provider) (instruction : json) (user_id : str) :
  calendar_service_error p = None ->
  let r := delete_calendar_event_from_instruction p instruction user_id in
  match hint "event_id" instruction with
  | None => calls_of r = [] /\ exists envelope, outcome r = Ok envelope /\ is_error envelope
  | Some event_id =>
      calls_of r = [EventsDelete event_id] /\
      match execute p (EventsDelete event_id) with
      | Ok _ =>
          exists envelope : json,
            outcome r = Ok envelope /\ is_success envelope /\
            field "event_id" envelope = Some event_id
      | Raise e =>
          outcome r
          = Ok (error_envelope
                  ((match exn_cls e with
                    | HttpError => u "Calendar API error: "
                    | _ => u "Failed to delete calendar event: "
                    end) ++ exn_str e))
      end
  end.
Proof.
  intros Hsvc r. subst r. unfold delete_calendar_event_from_instruction.
  rewrite Hsvc. unfold hint, field.
  destruct instruction as [| | | | |members];
    try (mstep; split; [done|]; eexists; split; [done|]; by eexists).
  cbn [py_get]. mstep.
  destruct (lookup_member (u "event_id") members) as [event_id|];
    cbn [default from_option id]; unfold given.
  - destruct (truthy event_id); mstep.
    + destruct (execute p (EventsDelete event_id)) as [x|e]; mstep.
      * split; [done|]. eexists. split; [done|]. split; [done|]. cbn.
        by rewrite !str_eqb_refl.
      * by destruct (exn_cls e).
    + split; [done|]. eexists. split; [done|]. by eexists.
  - mstep. split; [done|]. eexists. split; [done|]. by eexists.
Qed.

Lemma delete_event_by_id_witness :
  let p := sample_provider [] dentist_events in
  let instruction :=
    JObj [(u "action", JStr (u "delete")); (u "item_type", JStr (u "event"));
          (u "event_id", JStr (u "e1"))] in
  let r := delete_calendar_event_from_instruction p instruction sample_user in
  calendar_service_error p = None /\
  calls_of r = [EventsDelete (JStr (u "e1"))] /\
  exists envelope : json,
    outcome r = Ok envelope /\ is_success envelope /\
    field "event_id" envelope = Some (JStr (u "e1")).
Proof.
  intros p instruction r. split; [done|].
  exact (delete_event_by_id p instruction sample_user eq_refl).
Defined.

(** X8. With a tasks service at hand, the handler of a deletion of a task by
    id sends nothing, not even the listing of the task lists, when the
    instruction gives no task id; with an id it first lists the task lists,
    and where that answer names a list to use it sends the deletion of that
    id in that list and nothing else: the first of the lists under the key
    [items] of the answer, wherever the key stands in it, or [@default]
    when the answer has an empty list of lists. *)
Theorem delete_task_by_id
    (p : provider) (instruction : json) (user_id : str) :
  tasks_service_error p = None ->
  let r := delete_task_from_instruction p instruction user_id in
  (exists envelope : json,
      outcome r = Ok envelope /\ (is_success envelope \/ is_error envelope)) /\
  match hint "task_id" instruction with
  | None => calls_of r = []
  | Some task_id =>
      match execute p TasklistsList with
      | Ok tasklists =>
          match default_tasklist_id tasklists with
          | Ok tasklist_id =>
              calls_of r = [TasklistsList; TasksDelete tasklist_id task_id] /\
              (forall (first : json) (rest : list json),
                  field "items" tasklists = Some (JArr (first :: rest)) ->
                  id_of first = Some tasklist_id) /\
              (field "items" tasklists = Some (JArr []) ->
               tasklist_id = JStr (u "@default"))
          | Raise _ => calls_of r = [TasklistsList]
          end
      | Raise _ => calls_of r = [TasklistsList]
      end
  end.
Proof.
  intros Hsvc r. subst r. unfold delete_task_from_instruction.
  rewrite Hsvc. unfold hint, field.
  destruct instruction as [| | | | |members];
    try (mstep; split; [envelope_leaf|done]).
  cbn [py_get]. mstep.
  destruct (lookup_member (u "task_id") members) as [task_id|];
    cbn [default from_option id]; unfold given;
    [|mstep; split; [envelope_leaf|done]].
  destruct (truthy task_id); mstep; [|split; [envelope_leaf|done]].
  destruct (execute p TasklistsList) as [tasklists|e]; mstep;
    [|destruct (exn_cls e); (split; [envelope_leaf|done])].
  destruct (default_tasklist_id tasklists) as [tasklist_id|e] eqn:Hl; mstep;
    [|destruct (exn_cls e); (split; [envelope_leaf|done])].
  split.
  { destruct (execute p (TasksDelete tasklist_id task_id)) as [x|e]; mstep;
      [envelope_leaf|].
    destruct (exn_cls e); envelope_leaf. }
  split.
  { destruct (execute p (TasksDelete tasklist_id task_id)) as [x|e]; mstep;
      [done|]. by destruct (exn_cls e). }
  split.
  - intros first rest Hitems. revert Hl. unfold default_tasklist_id.
    destruct tasklists as [| | | | |lists]; try done.
    unfold field in Hitems. cbn [py_getitem]. rewrite Hitems.
    cbn [rbind truthy py_first]. apply py_getitem_field.
  - intros Hitems. revert Hl. unfold default_tasklist_id.
    destruct tasklists as [| | | | |lists]; try done.
    unfold field in Hitems. cbn [py_getitem]. rewrite Hitems.
    cbn [rbind truthy]. by intros [= <-].
Qed.

Lemma delete_task_by_id_witness :
  let p := two_lists_provider in
  let instruction :=
    JObj [(u "action", JStr (u "delete")); (u "item_type", JStr (u "task"));
          (u "task_id", JStr (u "t1"))] in
  let r := delete_task_from_instruction p instruction sample_user in
  tasks_service_error p = None /\
  (exists (tasklists first second : json),
      execute p TasklistsList = Ok tasklists /\
      field "items" tasklists = Some (JArr [first; second]) /\
      id_of first = Some (JStr (u "list-A"))) /\
  calls_of r = [TasklistsList; TasksDelete (JStr (u "list-A")) (JStr (u "t1"))].
Proof.
  intros p instruction r. split; [done|].
  split; [do 3 eexists; split; [reflexivity|]; split; reflexivity|].
  pose proof (delete_task_by_id p instruction sample_user eq_refl) as [_ H].
  exact (proj1 H).
Defined.

(** ** A start hint without an offset *)

Lemma select_raises (keep : json -> result bool) (l : list json) (e : exn) :
  Forall (fun x => keep x = Raise e \/ exists b, keep x = Ok b) l ->
  Exists (fun x => keep x = Raise e) l ->
  select keep l = Raise e.
Proof.
  induction 1 as [|x l Hx Hl IH]; [by intros ?%Exists_nil|].
  intros Hex. cbn [select]. destruct Hx as [->|[b Hb]]; [done|].
  rewrite Hb. cbn [rbind]. apply Exists_cons in Hex as [Hex|Hex].
  - by rewrite Hex in Hb.
  - by rewrite IH.
Qed.

Lemma event_matches_naive_hint (U : interpreter)
    (sd h : str) (dh : datetime) (date time event : json) :
  well_formed_event event = true ->
  truthy date = false -> truthy (JStr h) = true ->
  fromisoformat (replace (u "Z") (u "+00:00") h) = Ok dh ->
  dt_utcoffset dh = None ->
  (event_matches U sd date (JStr h) time event = Raise mixed_subtraction \/
   exists b : bool, event_matches U sd date (JStr h) time event = Ok b) /\
  (forall (t s : str) (dc : datetime),
      title_of Event event = Ok (JStr t) ->
      title_matches sd (lower U t) = true ->
      start_timestamp Event event = Some (JStr s) ->
      fromisoformat (replace (u "Z") (u "+00:00") s) = Ok dc ->
      dt_utcoffset dc <> None ->
      event_matches U sd date (JStr h) time event = Raise mixed_subtraction).
Proof.
  intros Hwf Hdate Hh Hdh Hnaive.
  destruct (well_formed_title Event event Hwf) as [t Ht].
  destruct (well_formed_event_fields U event Hwf)
    as (event_datetime & event_date & Hmatch & _ & Hstamp & Hdt & _).
  assert (Hdm :
    date_matches date (JStr h) time event_datetime event_date
    = if truthy event_datetime then
        match event_datetime with
        | JStr s =>
            match fromisoformat (replace (u "Z") (u "+00:00") s) with
            | Ok dc =>
                match dt_utcoffset dc with
                | None => Ok (within_one_hour
                                (wall_microseconds dc - wall_microseconds dh))
                | Some _ => Raise mixed_subtraction
                end
            | Raise e => Raise e
            end
        | _ => Ok true
        end
      else Ok true).
  { unfold date_matches. rewrite Hdate, Hh.
    destruct (truthy event_datetime) eqn:Tdt; [|done].
    destruct (falsy_or_readable _ _ Hdt Tdt) as (s & d & -> & Hs).
    cbn [py_replace rbind]. rewrite Hs, Hdh. cbn [rbind].
    unfold dt_sub. rewrite Hnaive. by destruct (dt_utcoffset d). }
  split.
  - destruct (title_matches sd (lower U t)) eqn:Hm.
    + rewrite (Hmatch _ _ _ _ _ Ht Hm), Hdm.
      destruct (truthy event_datetime) eqn:Tdt; [|right; by eexists].
      destruct (falsy_or_readable _ _ Hdt Tdt) as (s & d & -> & Hs).
      rewrite Hs. destruct (dt_utcoffset d); [by left|right; by eexists].
    + right. exists false. by eapply event_matches_title.
  - intros t' s dc Ht' Hm Hs Hdc Haware.
    rewrite (Hmatch _ _ _ _ _ Ht' Hm), Hdm.
    rewrite Hstamp in Hs. unfold given in Hs.
    destruct (truthy event_datetime); [|done].
    injection Hs as ->. rewrite Hdc. by destruct (dt_utcoffset dc).
Qed.

(** X9. Let the provider list well-formed events, and let the instruction
    carry no date and a start whose text has no offset from UTC. If one of
    the events whose title matches has a start with an offset, as the starts
    of the timed events of Google Calendar have, the handler returns the
    error envelope of the failed subtraction of the two, and asks for no
    deletion, whatever the other events are. *)
Theorem start_hint_without_offset_fails (U : interpreter)
    (p : provider) (instruction : json) (user_id : str)
    (candidates : list json) (sd h : str) (dh : datetime) :
  browsed Event p candidates ->
  forallb well_formed_event candidates = true ->
  search_description_of U instruction = Ok sd ->
  hint "date" instruction = None ->
  hint "datetime_start" instruction = Some (JStr h) ->
  fromisoformat (replace (u "Z") (u "+00:00") h) = Ok dh ->
  dt_utcoffset dh = None ->
  (exists (c : json) (t s : str) (dc : datetime),
      c ∈ candidates /\
      title_of Event c = Ok (JStr t) /\
      title_matches sd (lower U t) = true /\
      start_timestamp Event c = Some (JStr s) /\
      fromisoformat (replace (u "Z") (u "+00:00") s) = Ok dc /\
      dt_utcoffset dc <> None) ->
  let r := find_and_delete U Event p instruction user_id in
  outcome r
  = Ok (error_envelope
          (u "Failed to find and delete calendar event: "
           ++ exn_str mixed_subtraction)) /\
  calls_of r = [EventsList].
Proof.
  intros (Hsvc & events_result & H1 & H2) Hwf Hsd Hdate Hstart Hdh Hnaive
    (c & t & s & dc & Hc & Ht & Hm & Hs & Hdc & Haware) r.
  destruct (search_description_dict U _ _ Hsd) as [members ->].
  pose proof (selection_event_unfold U members sd candidates Hsd) as Hsel.
  apply hint_none in Hdate.
  rewrite hint_given in Hstart. unfold given in Hstart.
  destruct (truthy (default JNull (lookup_member (u "datetime_start") members)))
    eqn:Tstart; [|done].
  injection Hstart as Hstart. rewrite Hstart in *.
  assert (Hraise :
    select
      (event_matches U sd (default JNull (lookup_member (u "date") members))
         (JStr h) (default JNull (lookup_member (u "time") members)))
      candidates = Raise mixed_subtraction).
  { apply select_raises.
    - apply Forall_forall. intros x Hx%list_elem_of_In.
      apply (proj1 (forallb_forall _ _) Hwf) in Hx.
      by destruct (event_matches_naive_hint U sd h dh
                     (default JNull (lookup_member (u "date") members))
                     (default JNull (lookup_member (u "time") members))
                     x Hx Hdate Tstart Hdh Hnaive) as [H _].
    - apply Exists_exists. exists c. split; [done|].
      assert (Hwfc : well_formed_event c = true).
      { apply (proj1 (forallb_forall _ _) Hwf). by apply list_elem_of_In. }
      destruct (event_matches_naive_hint U sd h dh
                  (default JNull (lookup_member (u "date") members))
                  (default JNull (lookup_member (u "time") members))
                  c Hwfc Hdate Tstart Hdh Hnaive) as [_ H].
      by eapply H. }
  subst r. cbn [find_and_delete].
  unfold find_and_delete_calendar_event_from_instruction.
  rewrite Hsvc. mstep. rewrite H1. mstep. rewrite H2. mstep.
  destruct candidates as [|c0 cs]; [by apply elem_of_nil in Hc|].
  cbn [truthy]. mstep.
  unfold search_description_of in Hsd.
  destruct (py_get (JObj members) (u "title") (JStr [])) as [title|] eqn:Htitle;
    [|done].
  cbn [rbind] in Hsd. mstep. rewrite Hsd. mstep.
  cbn [py_get]. mstep. rewrite Hstart. cbn [py_iter]. mstep.
  rewrite Hraise. mstep. done.
Qed.

Lemma start_hint_without_offset_fails_witness :
  let p := sample_provider [] [catchup_event] in
  let r := find_and_delete sample_interpreter Event p naive_start_instruction
    sample_user in
  browsed Event p [catchup_event] /\
  hint "datetime_start" naive_start_instruction
  = Some (JStr (u "2025-06-27T17:00:00")) /\
  outcome r
  = Ok (error_envelope
          (u "Failed to find and delete calendar event: "
           ++ exn_str mixed_subtraction)) /\
  calls_of r = [EventsList].
Proof.
  intros p r.
  assert (Hb : browsed Event p [catchup_event]).
  { split; [done|]. eexists. split; reflexivity. }
  split; [exact Hb|]. split; [by vm_compute|].
  apply (start_hint_without_offset_fails sample_interpreter p
    naive_start_instruction sample_user
           [catchup_event] (u "eddie <> nilesh catchup")
           (u "2025-06-27T17:00:00") (Datetime 2025 6 27 17 0 0 0 None)).
  - exact Hb.
  - by vm_compute.
  - by vm_compute.
  - by vm_compute.
  - by vm_compute.
  - by vm_compute.
  - done.
  - exists catchup_event, (u "Eddie <> Nilesh Catchup"),
      (u "2025-06-27T17:00:00-05:00"),
      (Datetime 2025 6 27 17 0 0 0 (Some (-18000000000))).
    split; [left|]. split; [by vm_compute|]. split; [by vm_compute|].
    split; [by vm_compute|]. split; [by vm_compute|]. done.
Defined.

(** ** Queries *)

Lemma for_each_length {A B} (body : A -> result B) (l : list A) (ys : list B) :
  for_each body l = Ok ys ->
  Forall2 (fun x y => body x = Ok y) l ys.
Proof.
  revert ys. induction l as [|x l IH]; intros ys; cbn [for_each].
  - intros [= <-]. constructor.
  - destruct (body x) as [y|] eqn:Hy; [|done]. cbn [rbind].
    destruct (for_each body l) as [ys'|]; [|done]. cbn [rbind].
    intros [= <-]. constructor; [done|]. by apply IH.
Qed.

Lemma for_each_raises {A B} (body : A -> result B) (before : list A) (x : A)
    (after : list A) (e : exn) :
  Forall (fun x => is_ok (body x) = true) before ->
  body x = Raise e ->
  for_each body (before ++ x :: after) = Raise e.
Proof.
  intros Hb Hx. induction Hb as [|y before Hy _ IH]; cbn [for_each app].
  - by rewrite Hx.
  - destruct (body y); [|done]. cbn [rbind]. by rewrite IH.
Qed.

(** X10. With a calendar service at hand, the query of the events of an
    instruction sends one request, a listing of events, and nothing else.
    When the instruction gives a date, the window of the listing is that day
    from 00:00:00 to 23:59:59 UTC, whatever start and end the instruction
    also gives; otherwise the window is from the start to the end of the
    instruction, a bound being [None] where the instruction has none. *)
Theorem query_events_window
    (p : provider) (members : list (str * json)) (user_id : str) :
  calendar_service_error p = None ->
  let instruction := JObj members in
  let r := query_calendar_events_from_instruction p instruction user_id in
  exists time_min time_max : json,
    calls_of r = [events_list_request time_min time_max] /\
    match hint "date" instruction with
    | Some date =>
        time_min = JStr (py_str date ++ u "T00:00:00Z") /\
        time_max = JStr (py_str date ++ u "T23:59:59Z")
    | None =>
        time_min = default JNull (field "datetime_start" instruction) /\
        time_max = default JNull (field "datetime_end" instruction)
    end.
Proof.
  intros Hsvc instruction r. subst r instruction.
  unfold query_calendar_events_from_instruction. rewrite Hsvc.
  rewrite hint_given. unfold field, given, query_bounds. cbn [py_get]. mstep.
  destruct (truthy (default JNull (lookup_member (u "date") members))).
  - eexists _, _. split; [|done].
    destruct (execute p _) as [events_result|e]; mstep; [|done].
    destruct (py_get events_result _ _) as [events|e]; mstep; [|done].
    destruct (truthy events); mstep.
    + destruct (py_iter events) as [all|e]; mstep; [|done].
      destruct (for_each format_event all); mstep; [|done].
      by destruct (py_len events).
    + by destruct (py_len events).
  - eexists _, _. split; [|done].
    destruct (execute p _) as [events_result|e]; mstep; [|done].
    destruct (py_get events_result _ _) as [events|e]; mstep; [|done].
    destruct (truthy events); mstep.
    + destruct (py_iter events) as [all|e]; mstep; [|done].
      destruct (for_each format_event all); mstep; [|done].
      by destruct (py_len events).
    + by destruct (py_len events).
Qed.

Lemma query_events_window_witness :
  let p := sample_provider [] dentist_events in
  let instruction :=
    JObj [(u "action", JStr (u "query")); (u "item_type", JStr (u "event"));
          (u "datetime_start", JStr (u "2025-06-01T00:00:00"));
          (u "date", JStr (u "2025-06-27"))] in
  calendar_service_error p = None /\
  calls_of (query_calendar_events_from_instruction p instruction sample_user)
  = [events_list_request (JStr (u "2025-06-27T00:00:00Z"))
       (JStr (u "2025-06-27T23:59:59Z"))].
Proof.
  intros p instruction. split; [done|].
  destruct (query_events_window p
              [(u "action", JStr (u "query")); (u "item_type", JStr (u "event"));
               (u "datetime_start", JStr (u "2025-06-01T00:00:00"));
               (u "date", JStr (u "2025-06-27"))] sample_user eq_refl)
    as (time_min & time_max & Hcalls & Hmin & Hmax).
  rewrite Hmin, Hmax in Hcalls. exact Hcalls.
Defined.

(** X11. When the listing of a query of events is answered with a list of
    events, the handler returns them as the provider gave them, with their
    number, and a text of one line for each event in the same order; the
    text says that no events were found when the list is empty. It does so
    whenever every event can be put in a line, as every well-formed event
    can; when one event cannot, the handler returns the error envelope of
    that failure and none of the events. *)
Theorem query_events_answer
    (p : provider) (instruction : json) (user_id : str) (c : call)
    (events_result : json) (events : list json) :
  let r := query_calendar_events_from_instruction p instruction user_id in
  calls_of r = [c] ->
  execute p c = Ok events_result ->
  py_get events_result (u "items") (JArr []) = Ok (JArr events) ->
  (forallb well_formed_event events = true ->
   is_ok (for_each format_event events) = true) /\
  match for_each format_event events with
  | Ok lines =>
      Forall2 (fun event line => format_event event = Ok line) events lines /\
      outcome r
      = Ok (JObj
              [(u "success", JBool true);
               (u "message",
                JStr (u "Found " ++ str_of_len events ++ u " events"));
               (u "events", JArr events);
               (u "count", JNum (str_of_len events));
               (u "formatted_response",
                JStr (mark_calendar ++ u " **Your Events:**" ++ nl ++ nl
                      ++ match events with
                         | [] => u "No events found for the specified time period."
                         | _ => join_lines lines
                         end))])
  | Raise e =>
      outcome r
      = Ok (error_envelope
              (u "Failed to query calendar events: " ++ exn_str e))
  end.
Proof.
  intros r Hcalls Hexec Hitems. split.
  { intros Hwf.
    assert (Hwf' : Forall (fun c => well_formed_event c = true) events).
    { apply Forall_forall. intros x Hx%list_elem_of_In.
      by apply (proj1 (forallb_forall _ _) Hwf). }
    by destruct (forallb_Forall_ok _ format_event _ well_formed_event_format
                   Hwf') as [lines ->]. }
  subst r. revert Hcalls. unfold query_calendar_events_from_instruction.
  destruct (calendar_service_error p); [done|].
  destruct instruction as [| | | | |members]; try done.
  cbn [py_get]. mstep.
  destruct (query_bounds _ _ _) as [time_min time_max].
  assert (Hc : forall log : list call,
             [events_list_request time_min time_max] ++ log = [c] ->
             execute p (events_list_request time_min time_max)
             = Ok events_result).
  { intros log [= <- _]. exact Hexec. }
  destruct (execute p (events_list_request time_min time_max))
    as [x|e] eqn:He; mstep; [|intros H; by specialize (Hc _ H)].
  destruct (py_get x (u "items") (JArr [])) as [events'|e] eqn:Hi; mstep.
  2:{ intros H. specialize (Hc _ H). injection Hc as ->.
      by rewrite Hitems in Hi. }
  destruct (truthy events') eqn:Ht; mstep.
  - destruct (py_iter events') as [all|e] eqn:Hall; mstep.
    2:{ intros H. specialize (Hc _ H). injection Hc as ->.
        rewrite Hitems in Hi. by injection Hi as <-. }
    destruct (for_each format_event all) as [lines|e] eqn:Hlines; mstep.
    + destruct (py_len events') as [n|e] eqn:Hn; mstep.
      * intros H. specialize (Hc _ H). injection Hc as ->.
        rewrite Hitems in Hi. injection Hi as <-.
        injection Hall as <-. injection Hn as <-. rewrite Hlines.
        split; [by apply for_each_length|].
        by destruct events.
      * intros H. specialize (Hc _ H). injection Hc as ->.
        rewrite Hitems in Hi. by injection Hi as <-.
    + intros H. specialize (Hc _ H). injection Hc as ->.
      rewrite Hitems in Hi. injection Hi as <-.
      injection Hall as <-. by rewrite Hlines.
  - destruct (py_len events') as [n|e] eqn:Hn; mstep.
    + intros H. specialize (Hc _ H). injection Hc as ->.
      rewrite Hitems in Hi. injection Hi as <-.
      destruct events; [|done]. injection Hn as <-. cbn [for_each].
      split; [constructor|done].
    + intros H. specialize (Hc _ H). injection Hc as ->.
      rewrite Hitems in Hi. by injection Hi as <-.
Qed.

Lemma query_events_answer_witness :
  let p := answering_provider [] dentist_events in
  let instruction :=
    query_instruction "event" [("date"%string, JStr (u "2025-06-27"))] in
  let r := query_calendar_events_from_instruction p instruction sample_user in
  exists envelope : json,
    outcome r = Ok envelope /\
    field "count" envelope = Some (JNum (u "2")) /\
    field "events" envelope = Some (JArr dentist_events).
Proof.
  intros p instruction r.
  pose proof (query_events_answer p instruction sample_user
                (events_list_request (JStr (u "2025-06-27T00:00:00Z"))
                   (JStr (u "2025-06-27T23:59:59Z")))
                (JObj [(u "items", JArr dentist_events)]) dentist_events
                eq_refl eq_refl eq_refl) as [_ H].
  destruct (for_each format_event dentist_events) as [lines|e] eqn:Hl;
    [|by vm_compute in Hl].
  destruct H as [_ H]. fold r in H. rewrite H.
  eexists. split; [reflexivity|]. split; reflexivity.
Defined.

(** X12. With a tasks service at hand and a task list to use, the query of
    the tasks of an instruction lists the task lists and then sends one
    listing of the tasks of that list, completed tasks left out, and nothing
    else. When the instruction gives a date, the due dates asked for are
    those of that day from 00:00:00 to 23:59:59 UTC, whatever start and end
    the instruction also gives; otherwise they run from the start to the end
    of the instruction. The handler raises nothing. *)
Theorem query_tasks_window
    (p : provider) (members : list (str * json)) (user_id : str)
    (tasklists tasklist_id : json) :
  tasks_service_error p = None ->
  execute p TasklistsList = Ok tasklists ->
  default_tasklist_id tasklists = Ok tasklist_id ->
  let instruction := JObj members in
  let r := query_tasks_from_instruction p instruction user_id in
  (exists envelope : json,
      outcome r = Ok envelope /\ (is_success envelope \/ is_error envelope)) /\
  exists due_min due_max : json,
    calls_of r
    = [TasklistsList; tasks_list_request tasklist_id due_min due_max] /\
    match hint "date" instruction with
    | Some date =>
        due_min = JStr (py_str date ++ u "T00:00:00Z") /\
        due_max = JStr (py_str date ++ u "T23:59:59Z")
    | None =>
        due_min = default JNull (field "datetime_start" instruction) /\
        due_max = default JNull (field "datetime_end" instruction)
    end.
Proof.
  intros Hsvc H1 H2 instruction r. subst r instruction.
  unfold query_tasks_from_instruction. rewrite Hsvc. mstep.
  rewrite H1. mstep. rewrite H2. mstep.
  rewrite hint_given. unfold field, given, query_bounds. cbn [py_get]. mstep.
  destruct (truthy (default JNull (lookup_member (u "date") members))).
  - destruct (execute p (tasks_list_request _ _ _)) as [tasks_result|e]; mstep;
      [|split; [envelope_leaf|by eexists _, _]].
    destruct (py_get tasks_result _ _) as [tasks|e]; mstep;
      [|split; [envelope_leaf|by eexists _, _]].
    destruct (truthy tasks); mstep.
    + destruct (py_iter tasks) as [all|e]; mstep;
        [|split; [envelope_leaf|by eexists _, _]].
      destruct (for_each format_task all); mstep;
        [|split; [envelope_leaf|by eexists _, _]].
      destruct (py_len tasks); mstep;
        (split; [envelope_leaf|by eexists _, _]).
    + destruct (py_len tasks); mstep;
        (split; [envelope_leaf|by eexists _, _]).
  - destruct (execute p (tasks_list_request _ _ _)) as [tasks_result|e]; mstep;
      [|split; [envelope_leaf|by eexists _, _]].
    destruct (py_get tasks_result _ _) as [tasks|e]; mstep;
      [|split; [envelope_leaf|by eexists _, _]].
    destruct (truthy tasks); mstep.
    + destruct (py_iter tasks) as [all|e]; mstep;
        [|split; [envelope_leaf|by eexists _, _]].
      destruct (for_each format_task all); mstep;
        [|split; [envelope_leaf|by eexists _, _]].
      destruct (py_len tasks); mstep;
        (split; [envelope_leaf|by eexists _, _]).
    + destruct (py_len tasks); mstep;
        (split; [envelope_leaf|by eexists _, _]).
Qed.

Lemma query_tasks_window_witness :
  let p := answering_provider dentist_tasks [] in
  let instruction :=
    query_instruction "task" [("date"%string, JStr (u "2025-07-01"))] in
  calls_of (query_tasks_from_instruction p instruction sample_user)
  = [TasklistsList;
     tasks_list_request (JStr (u "list-1"))
       (JStr (u "2025-07-01T00:00:00Z")) (JStr (u "2025-07-01T23:59:59Z"))].
Proof.
  intros p instruction.
  destruct (query_tasks_window p
              [(u "action", JStr (u "query")); (u "item_type", JStr (u "task"));
               (u "date", JStr (u "2025-07-01"))] sample_user
              (JObj [(u "items", JArr [JObj [(u "id", JStr (u "list-1"))]])])
              (JStr (u "list-1")) eq_refl eq_refl eq_refl)
    as (_ & due_min & due_max & Hcalls & Hmin & Hmax).
  rewrite Hmin, Hmax in Hcalls. exact Hcalls.
Defined.

(** ** The creation of a task *)

Lemma lookup_set_member_other (k k' : str) (v : json)
    (members : list (str * json)) :
  str_eqb k' k = false ->
  lookup_member k' (set_member k v members) = lookup_member k' members.
Proof.
  intros Hne. induction members as [|[k0 v0] members IH]; cbn.
  - by rewrite Hne.
  - destruct (str_eqb k k0) eqn:E; cbn.
    + apply str_eqb_eq in E as <-. by rewrite Hne.
    + by rewrite IH.
Qed.

(** The comparisons of the keys of the literals. *)
Ltac keys :=
  repeat match goal with
         | |- context [str_eqb (u ?a) (u ?b)] =>
             let v := eval vm_compute in (str_eqb (u a) (u b)) in
             change (str_eqb (u a) (u b)) with v
         end;
  cbn iota.

(** X13. With a tasks service at hand and a task list to use, the creation
    of a task lists the task lists and then sends one insertion into that
    list, and nothing else. The task sent has the title of the instruction,
    whatever value it is, [None] included, and [Untitled Task] only where
    the instruction has no title at all; it has the description of the
    instruction as its notes; and it is due at the start the instruction
    gives, else on the date it gives, and has no due date when it gives
    neither. The handler reports the success with that title, or the error
    envelope of the failure of the insertion. *)
Theorem create_task_request
    (p : provider) (members : list (str * json)) (user_id : str)
    (tasklists tasklist_id : json) :
  tasks_service_error p = None ->
  execute p TasklistsList = Ok tasklists ->
  default_tasklist_id tasklists = Ok tasklist_id ->
  let instruction := JObj members in
  let r := create_task_from_instruction p instruction user_id in
  let title := default (JStr (u "Untitled Task")) (field "title" instruction) in
  let notes := default JNull (field "description" instruction) in
  let body :=
    JObj ([(u "title", title); (u "notes", notes)]
          ++ match due_of instruction with
             | Some due => [(u "due", due)]
             | None => []
             end) in
  calls_of r = [TasklistsList; tasks_insert_request tasklist_id body] /\
  match execute p (tasks_insert_request tasklist_id body) with
  | Ok task =>
      outcome r
      = Ok (JObj
              [(u "success", JBool true);
               (u "message",
                JStr (u "Task '" ++ py_str title ++ u "' created successfully"));
               (u "task", task)])
  | Raise e =>
      outcome r = Ok (error_envelope (u "Failed to create task: " ++ exn_str e))
  end.
Proof.
  intros Hsvc H1 H2 instruction r title notes body.
  subst r body title notes instruction.
  unfold create_task_from_instruction. rewrite Hsvc. mstep.
  rewrite H1. mstep. rewrite H2. mstep.
  unfold due_of. rewrite !hint_given. unfold field, given. cbn [py_get]. mstep.
  destruct (lookup_member (u "datetime_start") members) as [start|] eqn:Es;
    cbn [default from_option id].
  - destruct (truthy start) eqn:Ts; mstep.
    + cbn [py_getitem]. rewrite Es. mstep. cbn [set_member app]. keys.
      destruct (execute p (tasks_insert_request _ _)); mstep; [|done].
      cbn [py_getitem lookup_member]. keys. done.
    + destruct (lookup_member (u "date") members) as [date|] eqn:Ed;
        cbn [default from_option id].
      * destruct (truthy date) eqn:Td; mstep.
        -- cbn [py_getitem]. rewrite Ed. mstep. cbn [set_member app]. keys.
           destruct (execute p (tasks_insert_request _ _)); mstep; [|done].
           cbn [py_getitem lookup_member]. keys. done.
        -- cbn [app].
           destruct (execute p (tasks_insert_request _ _)); mstep; [|done].
           cbn [py_getitem lookup_member]. keys. done.
      * cbn [truthy]. mstep. cbn [app].
        destruct (execute p (tasks_insert_request _ _)); mstep; [|done].
        cbn [py_getitem lookup_member]. keys. done.
  - cbn [truthy]. mstep.
    destruct (lookup_member (u "date") members) as [date|] eqn:Ed;
      cbn [default from_option id].
    + destruct (truthy date) eqn:Td; mstep.
      * cbn [py_getitem]. rewrite Ed. mstep. cbn [set_member app]. keys.
        destruct (execute p (tasks_insert_request _ _)); mstep; [|done].
        cbn [py_getitem lookup_member]. keys. done.
      * cbn [app].
        destruct (execute p (tasks_insert_request _ _)); mstep; [|done].
        cbn [py_getitem lookup_member]. keys. done.
    + cbn [truthy]. mstep. cbn [app].
      destruct (execute p (tasks_insert_request _ _)); mstep; [|done].
      cbn [py_getitem lookup_member]. keys. done.
Qed.

Lemma create_task_request_witness :
  let p := answering_provider [] [] in
  let r := create_task_from_instruction p untitled_create_instruction
             sample_user in
  let body :=
    JObj [(u "title", JNull); (u "notes", JNull);
          (u "due", JStr (u "2025-06-27"))] in
  calls_of r = [TasklistsList; tasks_insert_request (JStr (u "list-1")) body] /\
  outcome r
  = Ok (JObj
          [(u "success", JBool true);
           (u "message", JStr (u "Task 'None' created successfully"));
           (u "task", body)]).
Proof.
  intros p r body.
  exact (create_task_request p
           [(u "action", JStr (u "create")); (u "item_type", JStr (u "task"));
            (u "title", JNull);
            (u "datetime_start", JNull);
            (u "date", JStr (u "2025-06-27"));
            (u "description", JNull)] sample_user
           (JObj [(u "items", JArr [JObj [(u "id", JStr (u "list-1"))]])])
           (JStr (u "list-1")) eq_refl eq_refl eq_refl).
Defined.

(** ** The reply of the model and the endpoints *)

Lemma given_text_nonempty (v : option str) :
  given_text v = true -> exists (c : N) (s : str), v = Some (c :: s).
Proof. destruct v as [[|c s]|]; try done. eauto. Qed.

Lemma conversation_context_lines (h : history) (user_id : option str) :
  conversation_context h user_id = [] \/
  exists lines : list entry,
    (0 < length lines <= 8)%nat /\
    conversation_context h user_id
    = nl ++ nl ++ u "Previous conversation:" ++ nl
      ++ concat (context_line <$> lines).
Proof.
  unfold conversation_context. destruct (given_text user_id); [|by left].
  cbn zeta.
  destruct (get_conversation_history h (default [] user_id) (Some 8))
    as [|e l] eqn:E; [by left|].
  right. exists (e :: l). split; [|done].
  assert (Hlen : (length (get_conversation_history h (default [] user_id)
                            (Some 8%Z)) <= 8)%nat).
  { unfold get_conversation_history. cbn [default from_option id].
    destruct (h !! default [] user_id) as [stored|]; [|simpl; lia].
    change (Z.opp 8) with (- Z.of_nat 8). rewrite slice_from_neg by lia.
    rewrite last_entries_length. lia. }
  rewrite E in Hlen. simpl in *. lia.
Qed.

(** X14. The call that gets the reply of the model sends one request at
    most, and none without a key or when the prompt cannot be built. A
    request is for the model [deepseek-chat] and holds two messages, the
    prompt as [system] and then one message of the [user], in which at most
    eight lines of the stored conversation come before the current message.
    The text returned is never empty. *)
Theorem reply_of_the_model_is_guarded
    (a : assistant) (h : history) (user_text : str) (user_id : option str) :
  let r := process_text_with_ai_internal a h user_text user_id in
  snd r <> [] /\
  (fst r = [] \/
   exists (prompt said : str),
     given_text (DEEPSEEK_API_KEY a) = true /\
     get_system_prompt_with_context a = Ok prompt /\
     fst r
     = [ChatRequest DEEPSEEK_MODEL
          [ChatMessage (u "system") prompt; ChatMessage (u "user") said]
          256 (u "0.7") (u "0.9")] /\
     (said = user_text \/
      exists lines : list entry,
        (0 < length lines <= 8)%nat /\
        said = nl ++ nl ++ u "Previous conversation:" ++ nl
               ++ concat (context_line <$> lines)
               ++ nl ++ u "Current message: " ++ user_text)).
Proof.
  intros r. subst r. unfold process_text_with_ai_internal, openai_client.
  destruct (given_text (DEEPSEEK_API_KEY a)) eqn:Hkey; cbn [negb];
    [|by split; [|left]].
  destruct (get_system_prompt_with_context a) as [prompt|e] eqn:Hprompt;
    [|by split; [|left]].
  cbn zeta. cbn [fst snd]. split.
  - by destruct (create a _) as [[|[[|c t]|] choices]|e].
  - right.
    destruct (conversation_context_lines h user_id) as [->|(lines & Hn & ->)].
    + exists prompt, user_text. split; [done|]. split; [done|].
      split; [done|]. by left.
    + eexists prompt, _. split; [done|]. split; [done|].
      split; [reflexivity|]. right. exists lines. split; [done|].
      by rewrite <- !app_assoc.
Qed.

Lemma try_except_ret_ok {A} (m : M A) (handler : exn -> A) :
  exists v : A, outcome (try_except m (fun e => ret (handler e))) = Ok v.
Proof. destruct m as [log [v|e]]; by eexists. Qed.

Section EndpointFacts.

Context (U : interpreter) (a : assistant) (p : provider).

Context (create_calendar_event_from_instruction
         create_task_from_instruction
         query_calendar_events_from_instruction
         query_tasks_from_instruction : json -> str -> M json).

Local Abbreviation process_ai_instruction' :=
  (process_ai_instruction U p create_calendar_event_from_instruction
     create_task_from_instruction query_calendar_events_from_instruction
     query_tasks_from_instruction).

Local Abbreviation process_text_with_ai' :=
  (process_text_with_ai U a p create_calendar_event_from_instruction
     create_task_from_instruction query_calendar_events_from_instruction
     query_tasks_from_instruction).

Lemma process_ai_instruction_returns (ai_response user_id : str) :
  exists v : json, outcome (process_ai_instruction' ai_response user_id) = Ok v.
Proof. unfold process_ai_instruction. apply try_except_ret_ok. Qed.

(** What a turn does, in terms of the calls it makes. *)
Lemma process_text_with_ai_unfold
    (h : history) (now_user now_reply now user_text user_id : str) :
  user_id <> [] ->
  let h1 := add_to_conversation_history h now_user user_id user_text
              (Some true) in
  let r := process_text_with_ai_internal a h1 user_text (Some user_id) in
  let i := process_ai_instruction' (snd r) user_id in
  let s := process_text_with_ai' h now_user now_reply now user_text
             (Some user_id) in
  store_after s
  = add_to_conversation_history h1 now_reply user_id (snd r) (Some false) /\
  chat_requests s = fst r /\
  provider_calls s = calls_of i /\
  answer s
  = (api_result <- outcome i ;;
     _ <- py_get api_result (u "success") JNull ;;
     Ok (JObj [(u "response", JStr (snd r));
               (u "api_result", api_result);
               (u "timestamp", JStr now)], 200))%result.
Proof.
  intros Hne h1 r i s. subst s i r h1. unfold process_text_with_ai.
  destruct user_id as [|c uid]; [done|]. cbn [given_text negb default from_option id].
  destruct (process_text_with_ai_internal _ _ _ _) as [requests reply].
  cbn [snd fst].
  by destruct (process_ai_instruction U _ _ _ _ _ _ _) as [calls api_result].
Qed.

End EndpointFacts.

(** X15. A message sent with a user id is recorded whatever comes of it:
    after the call the history of that user is the last 20 of what it was,
    followed by the message of the user and by the reply, in that order and
    with the clock readings of their storage; the histories of the other
    users are what they were; and an answer of the endpoint has the status
    200 and carries the reply that was stored. *)
Theorem turn_is_recorded (U : interpreter)
    (a : assistant) (p : provider)
    (create_event create_task query_events query_tasks : json -> str -> M json)
    (h : history) (now_user now_reply now user_text user_id : str) :
  user_id <> [] ->
  let s := process_text_with_ai U a p create_event create_task query_events
             query_tasks h now_user now_reply now user_text (Some user_id) in
  exists reply : str,
    stored (store_after s) user_id
    = last_entries 20
        (stored h user_id
         ++ [Entry user_text true now_user; Entry reply false now_reply]) /\
    (forall other : str,
        other <> user_id -> store_after s !! other = h !! other) /\
    (forall (body : json) (status : Z),
        answer s = Ok (body, status) ->
        status = 200 /\ field "response" body = Some (JStr reply)).
Proof.
  intros Hne s.
  destruct (process_text_with_ai_unfold U a p create_event create_task
              query_events query_tasks h now_user now_reply now user_text
              user_id Hne) as (Hstore & _ & _ & Hanswer).
  fold s in Hstore, Hanswer.
  set (h1 := add_to_conversation_history h now_user user_id user_text
               (Some true)) in *.
  set (reply := snd (process_text_with_ai_internal a h1 user_text
                       (Some user_id))) in *.
  exists reply. split; [|split].
  - rewrite Hstore.
    pose proof (stored_do_append h1
                  (Append now_reply user_id reply (Some false))) as H2.
    pose proof (stored_do_append h
                  (Append now_user user_id user_text (Some true))) as H1.
    cbn [ap_user ap_message ap_is_user ap_now default from_option id] in H1, H2.
    change (do_append h (Append now_user user_id user_text (Some true)))
      with h1 in H1.
    unfold do_append in H2. cbn [ap_user ap_message ap_is_user ap_now] in H2.
    rewrite H2, H1, last_entries_app, <- app_assoc. done.
  - intros other Hother. rewrite Hstore.
    pose proof (do_append_other h1
                  (Append now_reply user_id reply (Some false)) other Hother)
      as H2.
    pose proof (do_append_other h
                  (Append now_user user_id user_text (Some true)) other Hother)
      as H1.
    unfold do_append in H1, H2.
    cbn [ap_user ap_message ap_is_user ap_now] in H1, H2.
    rewrite H2. exact H1.
  - intros body status. rewrite Hanswer.
    destruct (outcome _) as [api_result|e]; [|done]. cbn [rbind].
    destruct (py_get api_result _ _); [|done]. cbn [rbind].
    intros [= <- <-]. split; [done|]. unfold field. cbn. keys. done.
Qed.

Lemma turn_is_recorded_witness :
  let s := sample_turn (replying_assistant note_reply) (sample_provider [] [])
             (after_appends nine_appends) (u "2025-06-27T10:05:00")
             (u "2025-06-27T10:05:02") (u "2025-06-27T10:05:03")
             (u "add a note") (Some (u "alice")) in
  u "alice" <> [] /\
  exists reply : str,
    stored (store_after s) (u "alice")
    = last_entries 20
        (stored (after_appends nine_appends) (u "alice")
         ++ [Entry (u "add a note") true (u "2025-06-27T10:05:00");
             Entry reply false (u "2025-06-27T10:05:02")]).
Proof.
  intros s. split; [done|].
  destruct (turn_is_recorded sample_interpreter (replying_assistant note_reply)
              (sample_provider [] []) stand_in_handler stand_in_handler
              stand_in_handler stand_in_handler (after_appends nine_appends)
              (u "2025-06-27T10:05:00") (u "2025-06-27T10:05:02")
              (u "2025-06-27T10:05:03") (u "add a note") (u "alice"))
    as (reply & H & _); [done|].
  exists reply. exact H.
Defined.

Lemma concat_context_snoc (lines : list entry) (e : entry) :
  concat (context_line <$> (lines ++ [e]))
  = concat (context_line <$> lines) ++ context_line e.
Proof. by rewrite fmap_app, concat_app, (right_id [] app (context_line e)). Qed.

(** X16. The message of the user is stored before the model is asked, so
    the conversation put before the current message always ends with that
    same message: with a key and a prompt at hand, the endpoint sends one
    request whose [user] message ends with the text of the user as the last
    line of the previous conversation, said by [User], and then once more as
    the current message. *)
Theorem prompt_repeats_current_message (U : interpreter)
    (a : assistant) (p : provider)
    (create_event create_task query_events query_tasks : json -> str -> M json)
    (h : history) (now_user now_reply now user_text user_id prompt : str) :
  user_id <> [] ->
  given_text (DEEPSEEK_API_KEY a) = true ->
  get_system_prompt_with_context a = Ok prompt ->
  let s := process_text_with_ai U a p create_event create_task query_events
             query_tasks h now_user now_reply now user_text (Some user_id) in
  exists earlier : str,
    messages <$> chat_requests s
    = [[ChatMessage (u "system") prompt;
        ChatMessage (u "user")
          (nl ++ nl ++ u "Previous conversation:" ++ nl ++ earlier
           ++ u "User: " ++ user_text ++ nl
           ++ nl ++ u "Current message: " ++ user_text)]].
Proof.
  intros Hne Hkey Hprompt s.
  destruct (process_text_with_ai_unfold U a p create_event create_task
              query_events query_tasks h now_user now_reply now user_text
              user_id Hne) as (_ & Hrequests & _).
  fold s in Hrequests. rewrite Hrequests. clear Hrequests s.
  pose proof (last_read_after_append h now_user user_id user_text (Some true) 8)
    as Hlast.
  apply last_Some in Hlast as [older Hread]; [|lia].
  unfold process_text_with_ai_internal, openai_client.
  rewrite Hkey, Hprompt. cbn [negb]. cbn zeta. cbn [fst fmap list_fmap messages].
  unfold conversation_context.
  destruct user_id as [|c uid]; [done|].
  cbn [given_text default from_option id]. cbn zeta. rewrite Hread.
  exists (concat (context_line <$> older)).
  destruct (older ++ _) as [|e0 l0] eqn:E; [by destruct older|].
  rewrite <- E, concat_context_snoc. unfold context_line at 2 4.
  cbn [is_user message default from_option id]. unfold nl. cbn [app].
  repeat (rewrite <- app_assoc; cbn [app]). reflexivity.
Qed.

Lemma prompt_repeats_current_message_witness :
  let s := sample_turn (replying_assistant note_reply) (sample_provider [] [])
             conversation_history (u "2025-06-27T10:05:00")
             (u "2025-06-27T10:05:02") (u "2025-06-27T10:05:03")
             (u "add a note") (Some (u "alice")) in
  exists earlier : str,
    messages <$> chat_requests s
    = [[ChatMessage (u "system") (u "You are CalendarGPT.");
        ChatMessage (u "user")
          (nl ++ nl ++ u "Previous conversation:" ++ nl ++ earlier
           ++ u "User: " ++ u "add a note" ++ nl
           ++ nl ++ u "Current message: " ++ u "add a note")]].
Proof.
  intros s.
  apply (prompt_repeats_current_message sample_interpreter
           (replying_assistant note_reply) (sample_provider [] [])
           stand_in_handler stand_in_handler
           stand_in_handler stand_in_handler conversation_history
           (u "2025-06-27T10:05:00") (u "2025-06-27T10:05:02")
           (u "2025-06-27T10:05:03") (u "add a note") (u "alice")
           (u "You are CalendarGPT.")); done.
Defined.

(** X17. Without a key the endpoint asks nothing of the model and nothing
    of the provider, and still answers with the status 200: the reply is the
    text that tells of the missing key, the result of the instruction is the
    error envelope of a reply without instruction, and that text is stored
    as what the assistant said. *)
Theorem missing_key_is_answered_as_a_reply (U : interpreter)
    (a : assistant) (p : provider)
    (create_event create_task query_events query_tasks : json -> str -> M json)
    (h : history) (now_user now_reply now user_text user_id : str) :
  user_id <> [] ->
  given_text (DEEPSEEK_API_KEY a) = false ->
  let s := process_text_with_ai U a p create_event create_task query_events
             query_tasks h now_user now_reply now user_text (Some user_id) in
  chat_requests s = [] /\
  provider_calls s = [] /\
  answer s
  = Ok (JObj [(u "response", JStr no_key_reply);
              (u "api_result",
               error_envelope (u "No instruction found in AI response"));
              (u "timestamp", JStr now)], 200) /\
  last (stored (store_after s) user_id)
  = Some (Entry no_key_reply false now_reply).
Proof.
  intros Hne Hkey s.
  destruct (process_text_with_ai_unfold U a p create_event create_task
              query_events query_tasks h now_user now_reply now user_text
              user_id Hne) as (Hstore & Hrequests & Hcalls & Hanswer).
  fold s in Hstore, Hrequests, Hcalls, Hanswer.
  assert (Hr : forall h1,
             process_text_with_ai_internal a h1 user_text (Some user_id)
             = ([], no_key_reply)).
  { intros h1. unfold process_text_with_ai_internal. by rewrite Hkey. }
  rewrite Hr in Hstore, Hrequests, Hcalls, Hanswer. cbn [fst snd] in *.
  assert (Hp : process_ai_instruction U p create_event create_task query_events
                 query_tasks no_key_reply user_id
               = ([], Ok (error_envelope
                            (u "No instruction found in AI response")))).
  { unfold process_ai_instruction.
    assert (Hs : search_instruction no_key_reply = None) by by vm_compute.
    by rewrite Hs. }
  rewrite Hp in Hcalls, Hanswer.
  split; [done|]. split; [done|]. split; [done|].
  rewrite Hstore.
  pose proof (stored_do_append
                (add_to_conversation_history h now_user user_id user_text
                   (Some true))
                (Append now_reply user_id no_key_reply (Some false))) as H2.
  unfold do_append in H2. cbn [ap_user ap_message ap_is_user ap_now] in H2.
  rewrite H2. cbn [default from_option id]. unfold last_entries.
  rewrite length_app. cbn [length]. rewrite drop_app_le by lia.
  by rewrite last_snoc.
Qed.

Lemma missing_key_is_answered_as_a_reply_witness :
  let s := sample_turn unconfigured_assistant (sample_provider [] [])
             conversation_history (u "2025-06-27T10:05:00")
             (u "2025-06-27T10:05:02") (u "2025-06-27T10:05:03")
             (u "add a note") (Some (u "alice")) in
  chat_requests s = [] /\
  provider_calls s = [] /\
  answer s
  = Ok (JObj [(u "response", JStr no_key_reply);
              (u "api_result",
               error_envelope (u "No instruction found in AI response"));
              (u "timestamp", JStr (u "2025-06-27T10:05:03"))], 200) /\
  last (stored (store_after s) (u "alice"))
  = Some (Entry no_key_reply false (u "2025-06-27T10:05:02")).
Proof.
  intros s.
  apply (missing_key_is_answered_as_a_reply sample_interpreter
    unconfigured_assistant
           (sample_provider [] []) stand_in_handler stand_in_handler
           stand_in_handler stand_in_handler conversation_history
           (u "2025-06-27T10:05:00") (u "2025-06-27T10:05:02")
           (u "2025-06-27T10:05:03") (u "add a note") (u "alice")); done.
Defined.

(** X18. The endpoint reads the result of the instruction as a dict. It
    answers exactly when the processing of the instruction returned a dict;
    when it returned anything else, as it returns [None] for an instruction
    whose item type has no route, the view is left by the [AttributeError]
    of that read, after the message and the reply have been stored. *)
Theorem answer_needs_an_envelope (U : interpreter)
    (a : assistant) (p : provider)
    (create_event create_task query_events query_tasks : json -> str -> M json)
    (h : history) (now_user now_reply now user_text user_id : str) :
  user_id <> [] ->
  let s := process_text_with_ai U a p create_event create_task query_events
             query_tasks h now_user now_reply now user_text (Some user_id) in
  exists (reply : str) (api_result : json),
    last (stored (store_after s) user_id) = Some (Entry reply false now_reply) /\
    outcome (process_ai_instruction U p create_event create_task query_events
               query_tasks reply user_id) = Ok api_result /\
    match api_result with
    | JObj _ =>
        answer s
        = Ok (JObj [(u "response", JStr reply);
                    (u "api_result", api_result);
                    (u "timestamp", JStr now)], 200)
    | _ => answer s = Raise (no_attribute api_result (u "get"))
    end.
Proof.
  intros Hne s.
  destruct (process_text_with_ai_unfold U a p create_event create_task
              query_events query_tasks h now_user now_reply now user_text
              user_id Hne) as (Hstore & _ & _ & Hanswer).
  fold s in Hstore, Hanswer.
  set (h1 := add_to_conversation_history h now_user user_id user_text
               (Some true)) in *.
  set (reply := snd (process_text_with_ai_internal a h1 user_text
                       (Some user_id))) in *.
  destruct (process_ai_instruction_returns U p create_event create_task
              query_events query_tasks reply user_id) as [api_result Hr].
  exists reply, api_result. split; [|split; [done|]].
  - rewrite Hstore.
    pose proof (stored_do_append h1
                  (Append now_reply user_id reply (Some false))) as H2.
    unfold do_append in H2. cbn [ap_user ap_message ap_is_user ap_now] in H2.
    rewrite H2. cbn [default from_option id]. unfold last_entries.
    rewrite length_app. cbn [length]. rewrite drop_app_le by lia.
    by rewrite last_snoc.
  - rewrite Hanswer, Hr. cbn [rbind]. by destruct api_result.
Qed.

Lemma answer_needs_an_envelope_witness :
  let s := sample_turn (replying_assistant note_reply) (sample_provider [] [])
             conversation_history (u "2025-06-27T10:05:00")
             (u "2025-06-27T10:05:02") (u "2025-06-27T10:05:03")
             (u "add a note") (Some (u "alice")) in
  answer s = Raise (no_attribute JNull (u "get")) /\
  last (stored (store_after s) (u "alice"))
  = Some (Entry note_reply false (u "2025-06-27T10:05:02")).
Proof.
  intros s.
  destruct (answer_needs_an_envelope sample_interpreter (replying_assistant
    note_reply)
              (sample_provider [] []) stand_in_handler stand_in_handler
              stand_in_handler stand_in_handler conversation_history
              (u "2025-06-27T10:05:00") (u "2025-06-27T10:05:02")
              (u "2025-06-27T10:05:03") (u "add a note") (u "alice"))
    as (reply & api_result & Hlast & Hr & Ha); [done|].
  fold s in Hlast, Ha.
  assert (Hreply : reply = note_reply).
  { assert (H : last (stored (store_after s) (u "alice"))
                = Some (Entry note_reply false (u "2025-06-27T10:05:02")))
      by by vm_compute.
    pose proof (eq_trans (eq_sym Hlast) H) as H'. by injection H' as ->. }
  subst reply.
  assert (Hnone : outcome (process_ai_instruction sample_interpreter
    (sample_provider [] [])
                             stand_in_handler stand_in_handler stand_in_handler
                             stand_in_handler note_reply (u "alice"))
                  = Ok JNull) by by vm_compute.
  pose proof (eq_trans (eq_sym Hr) Hnone) as Hv. injection Hv as ->.
  split; [exact Ha|exact Hlast].
Defined.

(** ** The creation of an event *)

Lemma hint_some (k : string) (members : list (str * json)) (v : json) :
  hint k (JObj members) = Some v ->
  lookup_member (u k) members = Some v /\ truthy v = true.
Proof.
  rewrite hint_given. unfold given.
  destruct (lookup_member (u k) members) as [x|]; cbn [default from_option id].
  - destruct (truthy x) eqn:T; [|done]. by intros [= <-].
  - done.
Qed.

Lemma days_before_month_succ (y m : Z) :
  1 <= m <= 11 ->
  days_before_month y (m + 1) = days_before_month y m + days_in_month y m.
Proof.
  intros Hm. unfold days_before_month.
  replace (Z.to_nat (m + 1 - 1)) with (S (Z.to_nat (m - 1))) by lia.
  cbn [days_before_month_from]. do 2 f_equal. lia.
Qed.

Lemma days_before_december (y : Z) :
  days_before_month y 12 = if is_leap y then 335 else 334.
Proof.
  unfold days_before_month. change (Z.to_nat (12 - 1)) with 11%nat.
  cbn [days_before_month_from]. unfold days_in_month.
  cbn [Z.of_nat Pos.of_succ_nat Pos.succ Z.eqb Pos.eqb orb].
  by destruct (is_leap y).
Qed.

Lemma days_before_year_succ (y : Z) :
  days_before_year (y + 1)
  = days_before_year y + if is_leap y then 366 else 365.
Proof.
  unfold days_before_year, is_leap.
  replace (y + 1 - 1) with y by lia.
  destruct (Z.eqb_spec (y mod 4) 0) as [H4|H4];
    destruct (Z.eqb_spec (y mod 100) 0) as [H100|H100];
    destruct (Z.eqb_spec (y mod 400) 0) as [H400|H400];
    cbn [andb orb negb]; Z.div_mod_to_equations; lia.
Qed.

(** The day after a date of the calendar is a date of the calendar, and the
    next one. *)
Lemma add_one_day_next (y m d : Z) :
  1 <= y <= 9999 -> 1 <= m <= 12 -> 1 <= d <= days_in_month y m ->
  (y, m, d) <> (9999, 12, 31) ->
  exists y' m' d' : Z,
    add_one_day y m d = Ok (y', m', d') /\
    ymd2ord y' m' d' = ymd2ord y m d + 1 /\
    1 <= y' <= 9999 /\ 1 <= m' <= 12 /\ 1 <= d' <= days_in_month y' m'.
Proof.
  intros Hy Hm Hd Hlast. unfold add_one_day.
  destruct (Z.leb_spec (d + 1) (days_in_month y m)) as [Hin|Hout].
  - destruct (Z.leb_spec y 9999) as [_|]; [|lia].
    exists y, m, (d + 1). split; [done|]. unfold ymd2ord. lia.
  - assert (d = days_in_month y m) as Hdim by lia.
    destruct (Z.leb_spec (m + 1) 12) as [Hm12|Hm12].
    + destruct (Z.leb_spec y 9999) as [_|]; [|lia].
      exists y, (m + 1), 1. split; [done|]. unfold ymd2ord.
      rewrite days_before_month_succ by lia.
      split; [lia|]. split; [lia|]. split; [lia|].
      unfold days_in_month. repeat case_match; lia.
    + assert (m = 12) as -> by lia.
      assert (d = 31) as -> by (rewrite Hdim; reflexivity).
      assert (y <> 9999) by (intros ->; done).
      destruct (Z.leb_spec (y + 1) 9999) as [_|]; [|lia].
      exists (y + 1), 1, 1. split; [done|]. unfold ymd2ord.
      rewrite days_before_year_succ, days_before_december.
      change (days_before_month (y + 1) 1) with 0.
      split; [destruct (is_leap y); lia|].
      split; [lia|]. split; [lia|]. done.
Qed.

Section CreateEventFacts.

Context (U : interpreter) (p : provider).

Lemma strptime_Ymd_valid (v : json) (y m d : Z) :
  strptime_Ymd U v = Ok (y, m, d) ->
  1 <= y <= 9999 /\ 1 <= m <= 12 /\ 1 <= d <= days_in_month y m.
Proof.
  unfold strptime_Ymd. destruct v as [| | |s| |]; try done.
  destruct (match s with [] => _ | _ => _ end) as [[[[y0 m0] d0] [|c r]]|];
    try done.
  destruct (Z.leb_spec 1 y0), (Z.leb_spec y0 9999); cbn [andb negb]; try done.
  destruct (Z.leb_spec 1 m0), (Z.leb_spec m0 12); cbn [andb negb]; try done.
  destruct (Z.leb_spec 1 d0), (Z.leb_spec d0 (days_in_month y0 m0));
    cbn [andb negb]; try done.
  intros [= <- <- <-]. lia.
Qed.

(** The handler sends the event when it could be built, and nothing when it
    could not. *)
Lemma create_calendar_event_run (instruction : json) (user_id : str) :
  calendar_service_error p = None ->
  let r := create_calendar_event_from_instruction U p instruction user_id in
  match event_data_of U instruction with
  | Ok event_data =>
      calls_of r = [events_insert_request (JObj event_data)] /\
      exists envelope : json,
        outcome r = Ok envelope /\ (is_success envelope \/ is_error envelope)
  | Raise e =>
      calls_of r = [] /\
      outcome r
      = Ok (error_envelope
              (u "Failed to create calendar event: " ++ exn_str e))
  end.
Proof.
  intros Hsvc r. subst r. unfold create_calendar_event_from_instruction.
  rewrite Hsvc. mstep.
  destruct (event_data_of U instruction) as [event_data|e]; mstep; [|done].
  destruct (execute p (events_insert_request _)) as [event|e]; mstep.
  - destruct (py_getitem _ _); mstep; (split; [done|envelope_leaf]).
  - split; [done|envelope_leaf].
Qed.

Lemma with_start_date (members : list (str * json)) (v : json)
    (event_data : list (str * json)) :
  hint "datetime_start" (JObj members) = None ->
  hint "date" (JObj members) = Some v ->
  with_start (JObj members) event_data
  = Ok (set_member (u "start") (JObj [(u "date", v)]) event_data).
Proof.
  intros Hs%hint_none [Hd Td]%hint_some. unfold with_start.
  cbn [py_get py_getitem rbind]. rewrite Hs, Hd. cbn [default from_option id rbind].
  by rewrite Td.
Qed.

Lemma with_start_timed (members : list (str * json)) (v : json)
    (event_data : list (str * json)) :
  hint "datetime_start" (JObj members) = Some v ->
  with_start (JObj members) event_data
  = Ok (set_member (u "start")
          (JObj [(u "dateTime", v); (u "timeZone", chicago)]) event_data).
Proof.
  intros [Hs Ts]%hint_some. unfold with_start.
  cbn [py_get py_getitem rbind]. rewrite Hs. cbn [default from_option id rbind].
  by rewrite Ts.
Qed.

Lemma with_end_timed_start (members : list (str * json)) (v : json)
    (event_data : list (str * json)) :
  hint "datetime_start" (JObj members) = Some v ->
  hint "datetime_end" (JObj members) = None ->
  with_end U (JObj members) event_data = Ok event_data.
Proof.
  intros [Hs Ts]%hint_some He%hint_none. unfold with_end.
  cbn [py_get py_getitem rbind]. rewrite He, Hs.
  cbn [default from_option id rbind]. rewrite Ts.
  by destruct (truthy (default JNull (lookup_member (u "date") members))).
Qed.

Lemma with_end_all_day (members : list (str * json)) (v : json)
    (event_data : list (str * json)) :
  hint "datetime_start" (JObj members) = None ->
  hint "datetime_end" (JObj members) = None ->
  hint "date" (JObj members) = Some v ->
  with_end U (JObj members) event_data
  = (start_date <- strptime_Ymd U v ;;
     let '(y, m, d) := start_date in
     end_date <- add_one_day y m d ;;
     let '(y, m, d) := end_date in
     Ok (set_member (u "end")
           (JObj [(u "date", JStr (strftime_Ymd U y m d))]) event_data))%result.
Proof.
  intros Hs%hint_none He%hint_none [Hd Td]%hint_some. unfold with_end.
  cbn [py_get py_getitem rbind]. rewrite He, Hs, Hd.
  cbn [default from_option id rbind negb]. by rewrite Td.
Qed.

Lemma with_recurrence_none (members : list (str * json))
    (event_data : list (str * json)) :
  hint "recurrence" (JObj members) = None ->
  with_recurrence U (JObj members) event_data = Ok event_data.
Proof.
  intros H%hint_none. unfold with_recurrence. cbn [py_get rbind].
  by rewrite H.
Qed.

Lemma with_reminders_none (members : list (str * json))
    (event_data : list (str * json)) :
  hint "reminders" (JObj members) = None ->
  with_reminders U (JObj members) event_data = Ok event_data.
Proof.
  intros H%hint_none. unfold with_reminders. cbn [py_get rbind].
  by rewrite H.
Qed.

End CreateEventFacts.

(** X19. An all-day event ends on the day after it starts. For an
    instruction with a date, and without start, end, recurrence or
    reminders, the handler sends one insertion, of an event that starts on
    the date as the instruction writes it and ends on the date that follows
    it in the calendar, across the ends of months and of years and on leap
    days, for every date but the last one of the year 9999. *)
Theorem all_day_event_ends_next_day
    (U : interpreter) (p : provider) (members : list (str * json))
    (user_id : str) (date : json) (y m d : Z) :
  calendar_service_error p = None ->
  let instruction := JObj members in
  hint "date" instruction = Some date ->
  hint "datetime_start" instruction = None ->
  hint "datetime_end" instruction = None ->
  hint "recurrence" instruction = None ->
  hint "reminders" instruction = None ->
  strptime_Ymd U date = Ok (y, m, d) ->
  (y, m, d) <> (9999, 12, 31) ->
  exists y' m' d' : Z,
    ymd2ord y' m' d' = ymd2ord y m d + 1 /\
    1 <= y' <= 9999 /\ 1 <= m' <= 12 /\ 1 <= d' <= days_in_month y' m' /\
    calls_of (create_calendar_event_from_instruction U p instruction user_id)
    = [events_insert_request
         (JObj [(u "summary",
                 default (JStr (u "Untitled Event")) (field "title" instruction));
                (u "description",
                 default JNull (field "description" instruction));
                (u "location", default JNull (field "location" instruction));
                (u "start", JObj [(u "date", date)]);
                (u "end", JObj [(u "date", JStr (strftime_Ymd U y' m' d'))])])].
Proof.
  intros Hsvc instruction Hdate Hstart Hend Hrec Hrem Hparse Hlast.
  destruct (strptime_Ymd_valid U date y m d Hparse) as (Hy & Hm & Hd).
  destruct (add_one_day_next y m d Hy Hm Hd Hlast)
    as (y' & m' & d' & Hadd & Hord & Hy' & Hm' & Hd').
  exists y', m', d'. split; [done|]. split; [done|]. split; [done|].
  split; [done|].
  pose proof (create_calendar_event_run U p instruction user_id Hsvc) as Hrun.
  cbv zeta in Hrun.
  assert (Hdata :
    event_data_of U instruction
    = Ok [(u "summary",
           default (JStr (u "Untitled Event")) (field "title" instruction));
          (u "description", default JNull (field "description" instruction));
          (u "location", default JNull (field "location" instruction));
          (u "start", JObj [(u "date", date)]);
          (u "end", JObj [(u "date", JStr (strftime_Ymd U y' m' d'))])]).
  { unfold event_data_of, instruction. cbn [py_get rbind].
    rewrite (with_start_date _ date) by done. cbn [rbind].
    rewrite (with_end_all_day U _ date) by done.
    rewrite Hparse. cbn [rbind]. rewrite Hadd. cbn [rbind].
    rewrite with_recurrence_none by done. cbn [rbind].
    rewrite with_reminders_none by done.
    cbn [set_member]. keys. done. }
  rewrite Hdata in Hrun. by destruct Hrun as [-> _].
Qed.

Lemma all_day_event_ends_next_day_witness :
  let instruction := create_instruction "event" new_years_eve in
  exists y' m' d' : Z,
    ymd2ord y' m' d' = ymd2ord 2025 12 31 + 1 /\
    1 <= m' <= 12 /\ 1 <= d' <= days_in_month y' m' /\
    calls_of (create_calendar_event_from_instruction sample_interpreter
                (sample_provider [] []) instruction sample_user)
    = [events_insert_request
         (JObj [(u "summary", JStr (u "Party"));
                (u "description", JNull);
                (u "location", JNull);
                (u "start", JObj [(u "date", JStr (u "2025-12-31"))]);
                (u "end",
                 JObj [(u "date",
                        JStr (strftime_Ymd sample_interpreter y' m' d'))])])].
Proof.
  intros instruction.
  destruct (all_day_event_ends_next_day sample_interpreter
              (sample_provider [] [])
              [(u "action", JStr (u "create")); (u "item_type", JStr (u "event"));
               (u "title", JStr (u "Party"));
               (u "date", JStr (u "2025-12-31"))]
              sample_user (JStr (u "2025-12-31")) 2025 12 31)
    as (y' & m' & d' & Hord & _ & Hm & Hd & Hcalls);
    [by vm_compute..|done|].
  exists y', m', d'. split; [exact Hord|]. split; [exact Hm|].
  split; [exact Hd|]. exact Hcalls.
Defined.

(** X20. An event with a start and no end is sent without an end. For an
    instruction with a start, and without end, recurrence or reminders, the
    handler sends one insertion, of an event that starts at the start of the
    instruction, in the time zone [America/Chicago] whatever the instruction
    says of its zone, and that has no end, whether the instruction gives a
    date or not. *)
Theorem timed_event_has_no_end
    (U : interpreter) (p : provider) (members : list (str * json))
    (user_id : str) (start : json) :
  calendar_service_error p = None ->
  let instruction := JObj members in
  hint "datetime_start" instruction = Some start ->
  hint "datetime_end" instruction = None ->
  hint "recurrence" instruction = None ->
  hint "reminders" instruction = None ->
  calls_of (create_calendar_event_from_instruction U p instruction user_id)
  = [events_insert_request
       (JObj [(u "summary",
               default (JStr (u "Untitled Event")) (field "title" instruction));
              (u "description",
               default JNull (field "description" instruction));
              (u "location", default JNull (field "location" instruction));
              (u "start",
               JObj [(u "dateTime", start);
                     (u "timeZone", JStr (u "America/Chicago"))])])].
Proof.
  intros Hsvc instruction Hstart Hend Hrec Hrem.
  pose proof (create_calendar_event_run U p instruction user_id Hsvc) as Hrun.
  cbv zeta in Hrun.
  assert (Hdata :
    event_data_of U instruction
    = Ok [(u "summary",
           default (JStr (u "Untitled Event")) (field "title" instruction));
          (u "description", default JNull (field "description" instruction));
          (u "location", default JNull (field "location" instruction));
          (u "start",
           JObj [(u "dateTime", start);
                 (u "timeZone", JStr (u "America/Chicago"))])]).
  { unfold event_data_of, instruction. cbn [py_get rbind].
    rewrite (with_start_timed _ start) by done. cbn [rbind].
    rewrite (with_end_timed_start U _ start) by done. cbn [rbind].
    rewrite with_recurrence_none by done. cbn [rbind].
    rewrite with_reminders_none by done.
    cbn [set_member]. keys. done. }
  rewrite Hdata in Hrun. by destruct Hrun as [-> _].
Qed.

Lemma timed_event_has_no_end_witness :
  calls_of (create_calendar_event_from_instruction sample_interpreter
              (sample_provider [] []) (create_instruction "event" meeting)
              sample_user)
  = [events_insert_request
       (JObj [(u "summary", JStr (u "Team Meeting"));
              (u "description", JNull);
              (u "location", JNull);
              (u "start",
               JObj [(u "dateTime", JStr (u "2025-05-05T09:00:00"));
                     (u "timeZone", JStr (u "America/Chicago"))])])].
Proof.
  apply (timed_event_has_no_end sample_interpreter (sample_provider [] [])
           [(u "action", JStr (u "create")); (u "item_type", JStr (u "event"));
            (u "title", JStr (u "Team Meeting"));
            (u "datetime_start", JStr (u "2025-05-05T09:00:00"));
            (u "datetime_end", JNull);
            (u "date", JStr (u "2025-05-05"))]
           sample_user (JStr (u "2025-05-05T09:00:00"))); by vm_compute.
Defined.

(** ** Recurrence and reminders *)

Section RecurrenceFacts.

Context (U : interpreter).

Lemma rrule_parts_of_keys (rec rec' : list (str * json)) :
  Forall (fun k => lookup_member k rec = lookup_member k rec') recurrence_keys ->
  rrule_parts_of U (JObj rec) = rrule_parts_of U (JObj rec').
Proof.
  intros H. unfold recurrence_keys in H.
  apply Forall_cons in H as [H1 H]. apply Forall_cons in H as [H2 H].
  apply Forall_cons in H as [H3 H]. apply Forall_cons in H as [H4 _].
  unfold rrule_parts_of. cbn [py_get py_getitem]. by rewrite H1, H2, H3, H4.
Qed.

Lemma rrule_parts_of_unread (rec : list (str * json)) :
  Forall (fun k => truthy (default JNull (lookup_member k rec)) = false)
    recurrence_keys ->
  rrule_parts_of U (JObj rec) = Ok [].
Proof.
  intros H. unfold recurrence_keys in H.
  apply Forall_cons in H as [H1 H]. apply Forall_cons in H as [H2 H].
  apply Forall_cons in H as [H3 H]. apply Forall_cons in H as [H4 _].
  unfold rrule_parts_of. cbn [py_get rbind]. rewrite H1. cbn [rbind].
  rewrite H2. cbn [rbind]. rewrite H3. cbn [rbind]. by rewrite H4.
Qed.

End RecurrenceFacts.

(** X21. A recurrence of which the handler reads nothing becomes a daily
    one. When the recurrence of the instruction is a dict that gives none of
    [freq], [interval], [until] and [byweekday], whatever else it holds, the
    event is given the single rule [RRULE:FREQ=DAILY]. *)
Theorem unread_recurrence_becomes_daily
    (U : interpreter) (members rec : list (str * json))
    (event_data : list (str * json)) :
  hint "recurrence" (JObj members) = Some (JObj rec) ->
  Forall (fun k => truthy (default JNull (lookup_member k rec)) = false)
    recurrence_keys ->
  with_recurrence U (JObj members) event_data
  = Ok (set_member (u "recurrence") (JArr [JStr (u "RRULE:FREQ=DAILY")])
          event_data).
Proof.
  intros [Hrec Trec]%hint_some Hkeys. unfold with_recurrence.
  cbn [py_get py_getitem rbind]. rewrite Hrec.
  cbn [default from_option id rbind]. rewrite Trec. cbn [rbind].
  by rewrite rrule_parts_of_unread.
Qed.

Lemma unread_recurrence_becomes_daily_witness :
  with_recurrence sample_interpreter
    (create_instruction "event"
       [("title"%string, JStr (u "Standup"));
        ("recurrence"%string, counted_recurrence)])
    [(u "summary", JStr (u "Standup"))]
  = Ok [(u "summary", JStr (u "Standup"));
        (u "recurrence", JArr [JStr (u "RRULE:FREQ=DAILY")])].
Proof.
  apply (unread_recurrence_becomes_daily sample_interpreter
           [(u "action", JStr (u "create")); (u "item_type", JStr (u "event"));
            (u "title", JStr (u "Standup"));
            (u "recurrence", counted_recurrence)]
           [(u "frequency", JStr (u "weekly")); (u "count", JNum (u "5"))]
           [(u "summary", JStr (u "Standup"))]).
  - by vm_compute.
  - repeat constructor.
Defined.

(** X22. The rule of recurrence is made of the four keys [freq],
    [interval], [until] and [byweekday] and of nothing else: two recurrences
    that agree on these four keys give the same parts of the rule, or the
    same failure, whatever else they hold, a count of occurrences
    included. *)
Theorem recurrence_reads_four_keys
    (U : interpreter) (rec rec' : list (str * json)) :
  Forall (fun k => lookup_member k rec = lookup_member k rec') recurrence_keys ->
  rrule_parts_of U (JObj rec) = rrule_parts_of U (JObj rec').
Proof. apply rrule_parts_of_keys. Qed.

Lemma recurrence_reads_four_keys_witness :
  rrule_parts_of sample_interpreter
    (JObj [(u "freq", JStr (u "weekly")); (u "count", JNum (u "5"))])
  = rrule_parts_of sample_interpreter (JObj [(u "freq", JStr (u "weekly"))]).
Proof.
  apply (recurrence_reads_four_keys sample_interpreter
           [(u "freq", JStr (u "weekly")); (u "count", JNum (u "5"))]
           [(u "freq", JStr (u "weekly"))]).
  repeat constructor.
Defined.

Lemma number_of_digits (ds : str) (acc n : Z) :
  number_of ds acc = Some n -> Forall (fun c => is_digit c = true) ds.
Proof.
  revert acc. induction ds as [|c ds IH]; intros acc; cbn [number_of].
  - constructor.
  - destruct (is_digit c) eqn:Hc; [|done]. intros H. constructor; [done|].
    by eapply IH.
Qed.

Lemma is_digit_cases (c : N) :
  is_digit c = true ->
  (c = 48 \/ c = 49 \/ c = 50 \/ c = 51 \/ c = 52 \/ c = 53 \/ c = 54 \/
   c = 55 \/ c = 56 \/ c = 57)%N.
Proof. unfold is_digit. rewrite andb_true_iff, !N.leb_le. lia. Qed.

Lemma replace_scan_absent (a : N) (old new s : str) :
  a ∉ s -> replace_scan (a :: old) new s 0 = s.
Proof.
  induction s as [|c s IH]; [done|]. intros [Hc Hs]%not_elem_of_cons.
  cbn [replace_scan startswith].
  destruct (N.eqb_spec a c) as [->|_]; [done|]. cbn [andb].
  by rewrite IH.
Qed.

Lemma replace_scan_app_absent (a : N) (new s t : str) :
  a ∉ s -> replace_scan [a] new (s ++ t) 0 = s ++ replace_scan [a] new t 0.
Proof.
  induction s as [|c s IH]; [done|]. intros [Hc Hs]%not_elem_of_cons.
  cbn [replace_scan startswith app].
  destruct (N.eqb_spec a c) as [->|_]; [done|]. cbn [andb].
  by rewrite IH.
Qed.

Lemma digits_have_no (a : N) (ds : str) :
  is_digit a = false -> Forall (fun c => is_digit c = true) ds -> a ∉ ds.
Proof.
  intros Ha Hds Hin. eapply Forall_forall in Hds; [|exact Hin]. congruence.
Qed.

Section ReminderFacts.

Context (U : interpreter).

Lemma int_char_of_digit (c : N) :
  is_digit c = true -> int_char_of U c = IntDigit (Z.of_N (c - 48)).
Proof.
  intros H. by destruct (is_digit_cases c H) as [->|[->|[->|[->|[->|[->|[->|[->|[->| ->]]]]]]]]].
Qed.

Lemma int_digits_ascii (ds : str) (rest : list int_char) (acc n : Z)
    (count : nat) :
  number_of ds acc = Some n ->
  match rest with
  | IntDigit _ :: _ | IntUnderscore :: _ => False
  | _ => True
  end ->
  int_digits ((int_char_of U <$> ds) ++ rest) acc count false
  = Some (n, (count + length ds)%nat, rest).
Proof.
  intros Hn Hrest. revert acc count Hn.
  induction ds as [|c ds IH]; intros acc count; cbn [number_of].
  - intros [= ->]. cbn [fmap list_fmap app length].
    rewrite Nat.add_0_r. by destruct rest as [|[] rest].
  - destruct (is_digit c) eqn:Hc; [|done]. intros Hn.
    cbn [fmap list_fmap app length]. rewrite int_char_of_digit by done.
    cbn [int_digits]. change (list_fmap _ _ (int_char_of U) ds)
      with (int_char_of U <$> ds).
    rewrite (IH _ (S count) Hn). by rewrite Nat.add_succ_r.
Qed.

(** [int] reads a run of ASCII digits as the number they denote, and
    refuses a run of ASCII digits that a letter follows. *)
Lemma int_of_str_digits (ds : str) (n : Z) :
  ds <> [] -> (length ds <= 640)%nat -> number_of ds 0 = Some n ->
  int_of_str U ds = Ok n.
Proof.
  intros Hne Hlen Hn. unfold int_of_str.
  pose proof (number_of_digits _ _ _ Hn) as Hds.
  destruct ds as [|c ds]; [done|].
  apply Forall_cons in Hds as [Hc Hds].
  pose proof (int_digits_ascii (c :: ds) [] 0 n 0 Hn I) as Hrun.
  rewrite app_nil_r in Hrun.
  cbn [fmap list_fmap] in *. rewrite int_char_of_digit in * by done.
  cbn [skip_int_space]. rewrite Hrun. cbn [skip_int_space].
  rewrite (bool_decide_eq_false_2 (640 < _)%nat) by (simpl in *; lia).
  done.
Qed.

Lemma int_of_str_letter (ds : str) (n : Z) (letter : N) :
  number_of ds 0 = Some n -> int_char_of U letter = IntOther ->
  int_of_str U (ds ++ [letter])
  = Raise (Exn ValueError (int_error U (ds ++ [letter]))).
Proof.
  intros Hn Hletter. unfold int_of_str.
  pose proof (number_of_digits _ _ _ Hn) as Hds.
  rewrite fmap_app. cbn [fmap list_fmap]. rewrite Hletter.
  change (list_fmap _ _ (int_char_of U) ds) with (int_char_of U <$> ds).
  destruct ds as [|c ds].
  - done.
  - apply Forall_cons in Hds as [Hc Hds].
    pose proof (int_digits_ascii (c :: ds) [IntOther] 0 n 0 Hn I) as Hrun.
    cbn [fmap list_fmap app] in *. rewrite int_char_of_digit in * by done.
    cbn [skip_int_space]. by rewrite Hrun.
Qed.

Lemma reminder_override_minutes (ds : str) (n : Z) :
  ds <> [] -> (length ds <= 640)%nat -> number_of ds 0 = Some n ->
  reminder_override U (JStr (u "PT" ++ ds ++ u "M")) = Ok (popup_override n).
Proof.
  intros Hne Hlen Hn. pose proof (number_of_digits _ _ _ Hn) as Hds.
  unfold reminder_override. cbn [py_replace rbind].
  assert (H1 : replace (u "PT") [] (u "PT" ++ ds ++ u "M") = ds ++ u "M").
  { change (u "PT") with [80; 84]%N. change (u "M") with [77%N].
    unfold replace. cbn [app replace_scan startswith N.eqb Pos.eqb andb length
                           Nat.sub].
    apply replace_scan_absent. rewrite not_elem_of_app. split.
    - by apply digits_have_no.
    - by intros ?%list_elem_of_singleton. }
  rewrite H1.
  assert (H2 : replace (u "M") [] (ds ++ u "M") = ds).
  { change (u "M") with [77%N]. unfold replace.
    rewrite replace_scan_app_absent by by apply digits_have_no.
    cbn. by rewrite app_nil_r. }
  rewrite H2, (int_of_str_digits ds n) by done. done.
Qed.

Lemma reminder_override_hours (ds : str) (n : Z) :
  number_of ds 0 = Some n ->
  reminder_override U (JStr (u "PT" ++ ds ++ u "H"))
  = Raise (Exn ValueError (int_error U (ds ++ u "H"))).
Proof.
  intros Hn. pose proof (number_of_digits _ _ _ Hn) as Hds.
  unfold reminder_override. cbn [py_replace rbind].
  assert (H1 : replace (u "PT") [] (u "PT" ++ ds ++ u "H") = ds ++ u "H").
  { change (u "PT") with [80; 84]%N. change (u "H") with [72%N].
    unfold replace. cbn [app replace_scan startswith N.eqb Pos.eqb andb length
                           Nat.sub].
    apply replace_scan_absent. rewrite not_elem_of_app. split.
    - by apply digits_have_no.
    - by intros ?%list_elem_of_singleton. }
  rewrite H1.
  assert (H2 : replace (u "M") [] (ds ++ u "H") = ds ++ u "H").
  { change (u "M") with [77%N]. change (u "H") with [72%N]. unfold replace.
    apply replace_scan_absent. rewrite not_elem_of_app. split.
    - by apply digits_have_no.
    - by intros ?%list_elem_of_singleton. }
  rewrite H2. change (u "H") with [72%N].
  by rewrite (int_of_str_letter ds n 72).
Qed.

End ReminderFacts.

Lemma for_each_raises_at {A B} (body : A -> result B) (l : list A) (x : A)
    (e : exn) :
  x ∈ l -> body x = Raise e -> exists e' : exn, for_each body l = Raise e'.
Proof.
  intros Hin Hx. induction l as [|y l IH]; [by apply elem_of_nil in Hin|].
  cbn [for_each]. destruct (body y) as [b|e'] eqn:Hy; [|by eexists].
  cbn [rbind]. apply elem_of_cons in Hin as [->|Hin]; [congruence|].
  destruct (IH Hin) as [e' ->]. by eexists.
Qed.

Lemma rbind_raises {A B} (r : result A) (f : A -> result B) :
  (forall a : A, exists e : exn, f a = Raise e) ->
  exists e : exn, rbind r f = Raise e.
Proof. intros H. destruct r as [a|e]; [apply H|by eexists]. Qed.

Lemma for_each_override (U : interpreter) (rs : list json) (ns : list Z) :
  Forall2 (fun r n =>
             exists ds : str,
               r = JStr (u "PT" ++ ds ++ u "M") /\ ds <> [] /\
               (length ds <= 640)%nat /\ number_of ds 0 = Some n) rs ns ->
  for_each (reminder_override U) rs = Ok (popup_override <$> ns).
Proof.
  induction 1 as [|r n rs ns (ds & -> & Hne & Hlen & Hn) _ IH]; [done|].
  cbn [for_each]. rewrite (reminder_override_minutes U ds n) by done.
  cbn [rbind]. by rewrite IH.
Qed.

(** X23. Reminders are read as minutes. When the reminders of the
    instruction are texts [PT], a number in digits and [M], the event is
    given reminders that do not use the defaults of the calendar and that
    pop up, one for each text and in the same order, as many minutes before
    the event as the number of the text. *)
Theorem reminders_are_minutes
    (U : interpreter) (members : list (str * json)) (rs : list json)
    (ns : list Z) (event_data : list (str * json)) :
  hint "reminders" (JObj members) = Some (JArr rs) ->
  Forall2 (fun r n =>
             exists ds : str,
               r = JStr (u "PT" ++ ds ++ u "M") /\ ds <> [] /\
               (length ds <= 640)%nat /\ number_of ds 0 = Some n) rs ns ->
  with_reminders U (JObj members) event_data
  = Ok (set_member (u "reminders")
          (JObj [(u "useDefault", JBool false);
                 (u "overrides", JArr (popup_override <$> ns))])
          event_data).
Proof.
  intros [Hrem Trem]%hint_some Hrs. unfold with_reminders.
  cbn [py_get py_getitem rbind]. rewrite Hrem.
  cbn [default from_option id rbind]. rewrite Trem. cbn [py_iter rbind].
  by rewrite (for_each_override U rs ns).
Qed.

Lemma reminders_are_minutes_witness :
  with_reminders sample_interpreter
    (create_instruction "event" [("reminders"%string, two_reminders)])
    [(u "summary", JStr (u "Standup"))]
  = Ok [(u "summary", JStr (u "Standup"));
        (u "reminders",
         JObj [(u "useDefault", JBool false);
               (u "overrides", JArr [popup_override 15; popup_override 60])])].
Proof.
  apply (reminders_are_minutes sample_interpreter
           [(u "action", JStr (u "create")); (u "item_type", JStr (u "event"));
            (u "reminders", two_reminders)]
           [JStr (u "PT15M"); JStr (u "PT60M")] [15; 60]
           [(u "summary", JStr (u "Standup"))]).
  - by vm_compute.
  - constructor.
    { exists (u "15"). split; [reflexivity|]. split; [by vm_compute|].
      split; [vm_compute; lia|reflexivity]. }
    constructor.
    { exists (u "60"). split; [reflexivity|]. split; [by vm_compute|].
      split; [vm_compute; lia|reflexivity]. }
    constructor.
Defined.

(** X24. A reminder in hours makes the creation fail. When one of the
    reminders of the instruction is a text [PT], a number in digits and [H],
    the handler sends nothing to the provider and returns an error
    envelope, whatever the rest of the instruction is. *)
Theorem reminder_in_hours_fails
    (U : interpreter) (p : provider) (members : list (str * json))
    (user_id : str) (rs : list json) (ds : str) (n : Z) :
  calendar_service_error p = None ->
  hint "reminders" (JObj members) = Some (JArr rs) ->
  JStr (u "PT" ++ ds ++ u "H") ∈ rs ->
  number_of ds 0 = Some n ->
  let r := create_calendar_event_from_instruction U p (JObj members) user_id in
  calls_of r = [] /\
  exists envelope : json, outcome r = Ok envelope /\ is_error envelope.
Proof.
  intros Hsvc [Hrem Trem]%hint_some Hin Hn r.
  pose proof (create_calendar_event_run U p (JObj members) user_id Hsvc) as Hrun.
  cbv zeta in Hrun. fold r in Hrun.
  assert (Hraise : exists e : exn, event_data_of U (JObj members) = Raise e).
  { unfold event_data_of. cbn [py_get rbind].
    do 3 (apply rbind_raises; intros ?).
    unfold with_reminders. cbn [py_get py_getitem rbind]. rewrite Hrem.
    cbn [default from_option id rbind]. rewrite Trem. cbn [py_iter rbind].
    destruct (for_each_raises_at (reminder_override U) rs _ _ Hin
                (reminder_override_hours U ds n Hn)) as [e ->].
    by eexists. }
  destruct Hraise as [e He]. rewrite He in Hrun. destruct Hrun as [-> ->].
  split; [done|]. eexists. split; [done|]. by eexists.
Qed.

Lemma reminder_in_hours_fails_witness :
  let instruction :=
    create_instruction "event"
      [("title"%string, JStr (u "Standup"));
       ("reminders"%string, JArr [JStr (u "PT15M"); JStr (u "PT1H")])] in
  let r := create_calendar_event_from_instruction sample_interpreter
             (sample_provider [] []) instruction sample_user in
  calls_of r = [] /\
  exists envelope : json, outcome r = Ok envelope /\ is_error envelope.
Proof.
  intros instruction r.
  apply (reminder_in_hours_fails sample_interpreter (sample_provider [] [])
           [(u "action", JStr (u "create")); (u "item_type", JStr (u "event"));
            (u "title", JStr (u "Standup"));
            (u "reminders", JArr [JStr (u "PT15M"); JStr (u "PT1H")])]
           sample_user [JStr (u "PT15M"); JStr (u "PT1H")] (u "1") 1).
  - done.
  - by vm_compute.
  - right. left.
  - reflexivity.
Defined.

(** ** What the engine sends for each action *)

Lemma calls_of_try_except_ret {A} (m : M A) (handler : exn -> A) :
  calls_of (try_except m (fun e => ret (handler e))) = calls_of m.
Proof. destruct m as [log [v|e]]; cbn; [done|]. by rewrite app_nil_r. Qed.

Lemma create_calendar_event_log
    (U : interpreter) (p : provider) (instruction : json) (user_id : str) :
  let r := create_calendar_event_from_instruction U p instruction user_id in
  calls_of r = [] \/ exists body : json, calls_of r = [events_insert_request body].
Proof.
  intros r. subst r. unfold create_calendar_event_from_instruction.
  destruct (calendar_service_error p); mstep; [by left|].
  destruct (event_data_of U instruction) as [event_data|e]; mstep; [|by left].
  right. exists (JObj event_data).
  destruct (execute p (events_insert_request _)); mstep; [|done].
  by destruct (py_getitem _ _).
Qed.

Lemma create_task_log (p : provider) (instruction : json) (user_id : str) :
  let r := create_task_from_instruction p instruction user_id in
  calls_of r = [] \/ calls_of r = [TasklistsList] \/
  exists tasklist body : json,
    calls_of r = [TasklistsList; tasks_insert_request tasklist body].
Proof.
  intros r. subst r. unfold create_task_from_instruction.
  destruct (tasks_service_error p); mstep; [by left|].
  destruct (execute p TasklistsList) as [tasklists|e]; mstep;
    [|by right; left].
  destruct (default_tasklist_id tasklists) as [tasklist_id|e]; mstep;
    [|by right; left].
  destruct (py_get instruction (u "title") _) as [title|e]; mstep;
    [|by right; left].
  destruct (py_get instruction (u "description") _) as [notes|e]; mstep;
    [|by right; left].
  destruct (py_get instruction (u "datetime_start") _) as [start|e]; mstep;
    [|by right; left].
  destruct (truthy start); mstep.
  - destruct (py_getitem instruction (u "datetime_start")) as [due|e]; mstep;
      [|by right; left].
    right. right. eexists _, _.
    destruct (execute p (tasks_insert_request _ _)); mstep; [|done].
    by destruct (py_getitem _ _).
  - destruct (py_get instruction (u "date") _) as [date|e]; mstep;
      [|by right; left].
    destruct (truthy date); mstep.
    + destruct (py_getitem instruction (u "date")) as [due|e]; mstep;
        [|by right; left].
      right. right. eexists _, _.
      destruct (execute p (tasks_insert_request _ _)); mstep; [|done].
      by destruct (py_getitem _ _).
    + right. right. eexists _, _.
      destruct (execute p (tasks_insert_request _ _)); mstep; [|done].
      by destruct (py_getitem _ _).
Qed.

Lemma query_calendar_events_log
    (p : provider) (instruction : json) (user_id : str) :
  let r := query_calendar_events_from_instruction p instruction user_id in
  calls_of r = [] \/
  exists time_min time_max : json,
    calls_of r = [events_list_request time_min time_max].
Proof.
  intros r. subst r. unfold query_calendar_events_from_instruction.
  destruct (calendar_service_error p); mstep; [by left|].
  destruct (py_get instruction (u "datetime_start") _) as [a|e]; mstep;
    [|by left].
  destruct (py_get instruction (u "datetime_end") _) as [b|e]; mstep;
    [|by left].
  destruct (py_get instruction (u "date") _) as [d|e]; mstep; [|by left].
  destruct (query_bounds a b d) as [time_min time_max].
  right. exists time_min, time_max.
  destruct (execute p (events_list_request _ _)) as [x|e]; mstep; [|done].
  destruct (py_get x _ _) as [events|e]; mstep; [|done].
  destruct (truthy events); mstep.
  - destruct (py_iter events) as [all|e]; mstep; [|done].
    destruct (for_each format_event all); mstep; [|done].
    by destruct (py_len events).
  - by destruct (py_len events).
Qed.

Lemma query_tasks_log (p : provider) (instruction : json) (user_id : str) :
  let r := query_tasks_from_instruction p instruction user_id in
  calls_of r = [] \/ calls_of r = [TasklistsList] \/
  exists tasklist due_min due_max : json,
    calls_of r = [TasklistsList; tasks_list_request tasklist due_min due_max].
Proof.
  intros r. subst r. unfold query_tasks_from_instruction.
  destruct (tasks_service_error p); mstep; [by left|].
  destruct (execute p TasklistsList) as [tasklists|e]; mstep;
    [|by right; left].
  destruct (default_tasklist_id tasklists) as [tasklist_id|e]; mstep;
    [|by right; left].
  destruct (py_get instruction (u "datetime_start") _) as [a|e]; mstep;
    [|by right; left].
  destruct (py_get instruction (u "datetime_end") _) as [b|e]; mstep;
    [|by right; left].
  destruct (py_get instruction (u "date") _) as [d|e]; mstep;
    [|by right; left].
  destruct (query_bounds a b d) as [due_min due_max].
  right. right. exists tasklist_id, due_min, due_max.
  destruct (execute p (tasks_list_request _ _ _)) as [x|e]; mstep; [|done].
  destruct (py_get x _ _) as [tasks|e]; mstep; [|done].
  destruct (truthy tasks); mstep.
  - destruct (py_iter tasks) as [all|e]; mstep; [|done].
    destruct (for_each format_task all); mstep; [|done].
    by destruct (py_len tasks).
  - by destruct (py_len tasks).
Qed.

Lemma delete_calendar_event_log
    (p : provider) (instruction : json) (user_id : str) :
  let r := delete_calendar_event_from_instruction p instruction user_id in
  calls_of r = [] \/ exists id : json, calls_of r = [EventsDelete id].
Proof.
  intros r. subst r. unfold delete_calendar_event_from_instruction.
  destruct (calendar_service_error p); mstep; [by left|].
  destruct (py_get instruction (u "event_id") _) as [id|e]; mstep.
  2:{ left. by destruct (exn_cls e). }
  destruct (truthy id); mstep; [|by left].
  right. exists id.
  destruct (execute p (EventsDelete id)) as [x|e]; mstep; [done|].
  by destruct (exn_cls e).
Qed.

Lemma delete_task_log (p : provider) (instruction : json) (user_id : str) :
  let r := delete_task_from_instruction p instruction user_id in
  calls_of r = [] \/ calls_of r = [TasklistsList] \/
  exists tasklist id : json, calls_of r = [TasklistsList; TasksDelete tasklist id].
Proof.
  intros r. subst r. unfold delete_task_from_instruction.
  destruct (tasks_service_error p); mstep; [by left|].
  destruct (py_get instruction (u "task_id") _) as [id|e]; mstep.
  2:{ left. by destruct (exn_cls e). }
  destruct (truthy id); mstep; [|by left].
  destruct (execute p TasklistsList) as [tasklists|e]; mstep.
  2:{ right. left. by destruct (exn_cls e). }
  destruct (default_tasklist_id tasklists) as [tasklist_id|e]; mstep.
  2:{ right. left. by destruct (exn_cls e). }
  right. right. exists tasklist_id, id.
  destruct (execute p (TasksDelete tasklist_id id)) as [x|e]; mstep; [done|].
  by destruct (exn_cls e).
Qed.

Lemma is_str_action (members : list (str * json)) (action : string) :
  is_str (default JNull (lookup_member (u "action") members)) action = true ->
  field "action" (JObj members) = Some (JStr (u action)).
Proof.
  unfold is_str, field. rewrite json_eqb_str_r.
  destruct (lookup_member (u "action") members) as [v|]; [|done].
  cbn [default from_option id]. by intros ->.
Qed.

Lemma bind_lift_ok {A B} (a : A) (f : A -> M B) : bind (lift (Ok a)) f = f a.
Proof. unfold bind, lift. by destruct (f a). Qed.

(** The requests of a dispatch are those of the handler of its action. *)
Lemma dispatch_log
    (U : interpreter) (p : provider) (instruction : json) (user_id : str) :
  let log :=
    calls_of (dispatch U p (create_calendar_event_from_instruction U p)
                (create_task_from_instruction p)
                (query_calendar_events_from_instruction p)
                (query_tasks_from_instruction p) instruction user_id) in
  log = [] \/
  (field "action" instruction = Some (JStr (u "create")) /\
   ((exists body : json, log = [events_insert_request body]) \/
    log = [TasklistsList] \/
    exists tasklist body : json,
      log = [TasklistsList; tasks_insert_request tasklist body])) \/
  (field "action" instruction = Some (JStr (u "delete")) /\
   ((exists id : json, log = [EventsDelete id]) \/
    log = [TasklistsList] \/
    exists tasklist id : json, log = [TasklistsList; TasksDelete tasklist id])) \/
  (field "action" instruction = Some (JStr (u "find_and_delete")) /\
   (log = [EventsList] \/
    (exists id : json, log = [EventsList; EventsDelete id]) \/
    log = [TasklistsList] \/
    (exists tasklist : json, log = [TasklistsList; TasksList tasklist]) \/
    exists tasklist id : json,
      log = [TasklistsList; TasksList tasklist; TasksDelete tasklist id])) \/
  (field "action" instruction = Some (JStr (u "query")) /\
   ((exists time_min time_max : json,
        log = [events_list_request time_min time_max]) \/
    log = [TasklistsList] \/
    exists tasklist due_min due_max : json,
      log = [TasklistsList; tasks_list_request tasklist due_min due_max])).
Proof.
  intros log. subst log.
  destruct instruction as [| | | | |members]; try by left.
  unfold dispatch. cbn [py_get]. rewrite !bind_lift_ok.
  set (action := default JNull (lookup_member (u "action") members)).
  set (item_type := default JNull (lookup_member (u "item_type") members)).
  pose proof (is_str_action members) as Haction. fold action in Haction.
  destruct (is_str action "greeting"); [by left|].
  destruct (is_str action "create") eqn:Hcreate.
  { apply Haction in Hcreate.
    destruct (is_str item_type "event").
    - destruct (create_calendar_event_log U p (JObj members) user_id)
        as [->|[body ->]]; [by left|].
      right. left. split; [done|]. left. by exists body.
    - destruct (is_str item_type "task"); [|by left].
      destruct (create_task_log p (JObj members) user_id)
        as [->|[->|(tasklist & body & ->)]]; [by left|..].
      + right. left. split; [done|]. by right; left.
      + right. left. split; [done|]. right. right. by exists tasklist, body. }
  destruct (is_str action "update").
  { destruct (is_str item_type "event"); [by left|].
    destruct (is_str item_type "task"); by left. }
  destruct (is_str action "delete") eqn:Hdelete.
  { apply Haction in Hdelete.
    destruct (is_str item_type "event").
    - destruct (delete_calendar_event_log p (JObj members) user_id)
        as [->|[id ->]]; [by left|].
      right. right. left. split; [done|]. left. by exists id.
    - destruct (is_str item_type "task"); [|by left].
      destruct (delete_task_log p (JObj members) user_id)
        as [->|[->|(tasklist & id & ->)]]; [by left|..].
      + right. right. left. split; [done|]. by right; left.
      + right. right. left. split; [done|]. right. right.
        by exists tasklist, id. }
  destruct (is_str action "find_and_delete") eqn:Hfind.
  { apply Haction in Hfind.
    destruct (is_str item_type "event").
    - destruct (find_and_delete_event_log U p (JObj members) user_id)
        as [_ [->|[->|(id & _ & _ & -> & _)]]]; [by left|..].
      + right. right. right. left. split; [done|]. by left.
      + right. right. right. left. split; [done|]. right. left. by exists id.
    - destruct (is_str item_type "task"); [|by left].
      destruct (find_and_delete_task_log U p (JObj members) user_id)
        as [_ [->|[->|[[l ->]|(l & id & _ & _ & -> & _)]]]]; [by left|..].
      + right. right. right. left. split; [done|]. by right; right; left.
      + right. right. right. left. split; [done|].
        right. right. right. left. by exists l.
      + right. right. right. left. split; [done|].
        right. right. right. right. by exists l, id. }
  destruct (is_str action "query") eqn:Hquery.
  { apply Haction in Hquery.
    destruct (is_str item_type "event").
    - destruct (query_calendar_events_log p (JObj members) user_id)
        as [->|(time_min & time_max & ->)]; [by left|].
      right. right. right. right. split; [done|]. left.
      by exists time_min, time_max.
    - destruct (is_str item_type "task"); [|by left].
      destruct (query_tasks_log p (JObj members) user_id)
        as [->|[->|(tasklist & due_min & due_max & ->)]]; [by left|..].
      + right. right. right. right. split; [done|]. by right; left.
      + right. right. right. right. split; [done|]. right. right.
        by exists tasklist, due_min, due_max. }
  destruct (is_str action "clarification_needed"); by left.
Qed.

Lemma is_insert_events_insert (body : json) :
  is_insert (events_insert_request body) = true.
Proof. done. Qed.

Lemma is_listing_events_insert (body : json) :
  is_listing (events_insert_request body) = false.
Proof. done. Qed.

Lemma is_insert_tasks_insert (tasklist body : json) :
  is_insert (tasks_insert_request tasklist body) = true.
Proof. done. Qed.

Lemma is_listing_tasks_insert (tasklist body : json) :
  is_listing (tasks_insert_request tasklist body) = false.
Proof. done. Qed.

Lemma is_insert_events_list (time_min time_max : json) :
  is_insert (events_list_request time_min time_max) = false.
Proof. done. Qed.

Lemma is_listing_events_list (time_min time_max : json) :
  is_listing (events_list_request time_min time_max) = true.
Proof. done. Qed.

Lemma is_insert_tasks_list (tasklist due_min due_max : json) :
  is_insert (tasks_list_request tasklist due_min due_max) = false.
Proof. done. Qed.

Lemma is_listing_tasks_list (tasklist due_min due_max : json) :
  is_listing (tasks_list_request tasklist due_min due_max) = true.
Proof. done. Qed.

Lemma is_delete_other (request : json) : is_delete (OtherCall request) = false.
Proof. done. Qed.

Ltac kinds :=
  cbn [forallb List.filter existsb];
  rewrite ?is_insert_events_insert, ?is_listing_events_insert,
    ?is_insert_tasks_insert, ?is_listing_tasks_insert,
    ?is_insert_events_list, ?is_listing_events_list,
    ?is_insert_tasks_list, ?is_listing_tasks_list;
  cbn [is_insert is_listing is_delete method_of events_insert_request
       tasks_insert_request events_list_request tasks_list_request
       orb andb length].

Ltac empty_log :=
  cbn; split; [done|]; split; [lia|]; split; [done|]; split; [done|];
  intros H; by destruct H.

(** X25. Whatever the reply of the model and whatever the provider answers,
    the processing of the instruction of a reply raises nothing, and what it
    sends follows the action of the instruction: it sends nothing but
    listings, insertions and deletions, and one insertion or deletion at
    most; it sends an insertion only for the action [create], a deletion
    only for the actions [delete] and [find_and_delete], and any request at
    all only for these three actions and for [query]. *)
Theorem requests_follow_the_action
    (U : interpreter) (p : provider) (ai_response user_id : str) :
  let r := engine U p ai_response user_id in
  (exists v : json, outcome r = Ok v) /\
  forallb (fun c => is_listing c || is_insert c || is_delete c) (calls_of r)
  = true /\
  (length (List.filter (fun c => is_insert c || is_delete c) (calls_of r))
   <= 1)%nat /\
  (existsb is_insert (calls_of r) = true -> action_is ai_response "create") /\
  (existsb is_delete (calls_of r) = true ->
   action_is ai_response "delete" \/ action_is ai_response "find_and_delete") /\
  (calls_of r <> [] ->
   action_is ai_response "create" \/ action_is ai_response "delete" \/
   action_is ai_response "find_and_delete" \/ action_is ai_response "query").
Proof.
  intros r. subst r. unfold engine.
  split; [apply process_ai_instruction_returns|].
  unfold process_ai_instruction. rewrite calls_of_try_except_ret.
  unfold action_is, instruction_of.
  destruct (search_instruction ai_response) as [g|]; [|empty_log].
  destruct (parse_instruction (clean_json_string g)) as [instruction|failure];
    [|empty_log].
  destruct (dispatch_log U p instruction user_id)
    as [->|[[Ha H]|[[Ha H]|[[Ha H]|[Ha H]]]]]; [empty_log|..].
  - assert (Hcreate : exists i, Some instruction = Some i /\
                        field "action" i = Some (JStr (u "create")))
      by by exists instruction.
    destruct H as [[body ->]|[->|(tasklist & body & ->)]]; kinds;
      (split; [done|]); (split; [lia|]); (split; [done|]);
      (split; [done|]); intros _; by left.
  - assert (Hdelete : exists i, Some instruction = Some i /\
                        field "action" i = Some (JStr (u "delete")))
      by by exists instruction.
    destruct H as [[id ->]|[->|(tasklist & id & ->)]]; kinds;
      (split; [done|]); (split; [lia|]); (split; [done|]);
      (split; [intros _; by left|]); intros _; by right; left.
  - assert (Hfind : exists i, Some instruction = Some i /\
                      field "action" i = Some (JStr (u "find_and_delete")))
      by by exists instruction.
    destruct H as [->|[[id ->]|[->|[[l ->]|(l & id & ->)]]]]; kinds;
      (split; [done|]); (split; [lia|]); (split; [done|]);
      (split; [intros _; by right|]); intros _; by right; right; left.
  - assert (Hquery : exists i, Some instruction = Some i /\
                       field "action" i = Some (JStr (u "query")))
      by by exists instruction.
    destruct H as [(time_min & time_max & ->)|[->|(l & a & b & ->)]]; kinds;
      (split; [done|]); (split; [lia|]); (split; [done|]);
      (split; [done|]); intros _; by right; right; right.
Qed.
(** ** The cleaner only takes code points out *)

Lemma sublist_reverse_2 {A} (l k : list A) :
  sublist l k -> sublist (reverse l) (reverse k).
Proof.
  induction 1 as [|x l k _ IH|x l k _ IH]; [done|..]; rewrite ?reverse_cons.
  - by apply sublist_app.
  - by apply sublist_inserts_r.
Qed.

Lemma lstrip_sublist (s : str) : sublist (lstrip s) s.
Proof.
  destruct (lstrip_split s) as (ws & Hs & _). rewrite Hs at 2.
  by apply sublist_inserts_l.
Qed.

Lemma strip_sublist (s : str) : sublist (strip s) s.
Proof.
  unfold strip. rewrite <- (reverse_involutive s) at 2.
  apply sublist_reverse_2. etrans; [apply lstrip_sublist|].
  apply sublist_reverse_2, lstrip_sublist.
Qed.

Lemma sub_trailing_commas_sublist (closer : N -> bool) (s : str) :
  sublist (sub_trailing_commas closer s) s.
Proof.
  induction s as [|c s IH]; [done|]. cbn [sub_trailing_commas].
  destruct ((c =? 44)%N && closes_after_space closer s).
  - by apply sublist_cons.
  - by apply sublist_skip.
Qed.

Lemma replace_scan_sublist (a : N) (old new s : str) (skip : nat) :
  sublist new (a :: old) ->
  sublist (replace_scan (a :: old) new s skip) (drop skip s).
Proof.
  intros Hnew. revert skip.
  induction s as [|c s IH]; intros skip; [by destruct skip|].
  cbn [replace_scan]. destruct skip as [|skip]; [|apply IH].
  destruct (startswith (a :: old) (c :: s)) eqn:Hp.
  - apply startswith_spec in Hp as [rest Hrest].
    specialize (IH (length (a :: old) - 1)%nat).
    rewrite Hrest in *. cbn [app] in Hrest. injection Hrest as _ ->.
    cbn [length] in IH. rewrite Nat.sub_succ, Nat.sub_0_r in IH.
    rewrite drop_app_length in IH.
    cbn [length drop]. rewrite Nat.sub_succ, Nat.sub_0_r.
    by apply sublist_app.
  - cbn [drop]. apply sublist_skip, (IH 0%nat).
Qed.

Lemma replace_sublist (a : N) (old new s : str) :
  sublist new (a :: old) -> sublist (replace (a :: old) new s) s.
Proof. intros Hnew. by apply (replace_scan_sublist a old new s 0). Qed.

(** X26. The cleaner only takes code points out: the text it returns is
    the text it is given with some code points left out, in the same
    order. It puts no code point in and changes none, so a text that lacks
    a quote or a brace lacks it after the cleaning too. *)
Theorem cleaning_only_removes (json_str : str) :
  sublist (clean_json_string json_str) json_str.
Proof.
  unfold clean_json_string. cbn zeta.
  etrans; [apply strip_sublist|].
  etrans; [apply replace_sublist|].
  { unfold line_904_old. cbn. do 3 apply sublist_cons.
    apply sublist_skip, sublist_nil_l. }
  etrans; [apply replace_sublist; reflexivity|].
  etrans; [apply replace_sublist; reflexivity|].
  etrans; apply sub_trailing_commas_sublist.
Qed.

(** ** The start of a session *)

(** X27. The start of a session is answered but not recorded: with a user
    id, [initialize_ai] leaves the store as it is, sends nothing to the
    provider and answers 200 with some text, also when the model could not
    be asked; and for a user with no stored message, a key and a prompt at
    hand, the model is asked once, with the prompt and the bare text
    [SESSION_START]. *)
Theorem session_start_is_not_recorded
    (a : assistant) (h : history) (now user_id prompt : str) :
  user_id <> [] ->
  let s := initialize_ai a h now (Some user_id) in
  store_after s = h /\
  provider_calls s = [] /\
  (exists reply : str,
     answer s = Ok (JObj [(u "response", JStr reply);
                          (u "user_id", JStr user_id);
                          (u "timestamp", JStr now)], 200)) /\
  (given_text (DEEPSEEK_API_KEY a) = true ->
   get_system_prompt_with_context a = Ok prompt ->
   stored h user_id = [] ->
   messages <$> chat_requests s
   = [[ChatMessage (u "system") prompt;
       ChatMessage (u "user") (u "SESSION_START")]]).
Proof.
  intros Hne s. subst s. unfold initialize_ai.
  destruct user_id as [|c uid]; [done|]. cbn [given_text negb].
  destruct (process_text_with_ai_internal a h (u "SESSION_START")
              (Some (c :: uid))) as [requests ai_response] eqn:Hreply.
  cbn [store_after provider_calls answer chat_requests default from_option id].
  split; [done|]. split; [done|]. split; [by exists ai_response|].
  intros Hkey Hprompt Hstored.
  unfold process_text_with_ai_internal, openai_client in Hreply.
  rewrite Hkey, Hprompt in Hreply. cbn [negb] in Hreply. cbn zeta in Hreply.
  unfold conversation_context, get_conversation_history in Hreply.
  cbn [given_text default from_option id] in Hreply.
  unfold stored in Hstored.
  destruct (h !! (c :: uid)) as [l|];
    cbn [default from_option id] in Hstored; [subst l|];
    cbn in Hreply; by injection Hreply as <- _.
Qed.

Lemma session_start_is_not_recorded_witness :
  let s := initialize_ai (replying_assistant (u "Hello!")) conversation_history
             (u "2025-06-27T10:00:00") (Some (u "alice")) in
  store_after s = conversation_history /\
  provider_calls s = [] /\
  (exists reply : str,
     answer s = Ok (JObj [(u "response", JStr reply);
                          (u "user_id", JStr (u "alice"));
                          (u "timestamp", JStr (u "2025-06-27T10:00:00"))], 200)) /\
  messages <$> chat_requests s
  = [[ChatMessage (u "system") (u "You are CalendarGPT.");
      ChatMessage (u "user") (u "SESSION_START")]].
Proof.
  intros s.
  destruct (session_start_is_not_recorded (replying_assistant (u "Hello!"))
              conversation_history (u "2025-06-27T10:00:00") (u "alice")
              (u "You are CalendarGPT.") ltac:(done))
    as (Hstore & Hcalls & Hanswer & Hrequests).
  split; [exact Hstore|]. split; [exact Hcalls|]. split; [exact Hanswer|].
  apply Hrequests; reflexivity.
Defined.

(** ** The branch on the title matches *)

(** X28. For an instruction that carries no date, no start and no time,
    the branch of a [find_and_delete] handler is on the candidates that
    match on title. Let the provider answer the listing with well-formed
    candidates, and let [matching] be those whose lowered title contains
    the lowered description or is contained in it, in the order of the
    listing. A deletion is asked of the provider exactly when [matching] has
    one element, and it is the deletion of that element and of nothing
    else. With no match the handler asks for no deletion and returns a
    success envelope that lists every candidate browsed; with two matches
    or more it asks for no deletion and returns a success envelope that
    lists the matches and only them. *)
Theorem delete_iff_one_title_match
    (U : interpreter) (k : item_kind) (p : provider) (instruction : json)
    (user_id d : str) (candidates : list json) :
  browsed k p candidates ->
  forallb (well_formed k) candidates = true ->
  description_of instruction = Ok (JStr d) ->
  no_temporal_hint instruction ->
  let matching := List.filter (title_test U k d) candidates in
  let r := find_and_delete U k p instruction user_id in
  (forall c : json,
      c ∈ matching <-> c ∈ candidates /\ matches_on_title U k d c) /\
  (existsb is_delete (calls_of r) = true <-> length matching = 1%nat) /\
  (forall c : json,
      matching = [c] ->
      exists id : json, id_of c = Some id /\ deleted_ids (calls_of r) = [id]) /\
  (matching = [] ->
   deleted_ids (calls_of r) = [] /\
   exists envelope : json,
     outcome r = Ok envelope /\ is_success envelope /\
     listed k envelope = candidates) /\
  ((2 <= length matching)%nat ->
   deleted_ids (calls_of r) = [] /\
   exists envelope : json,
     outcome r = Ok envelope /\ is_success envelope /\
     listed k envelope = matching).
Proof.
  intros Hb Hwf Hd Hno matching r.
  pose proof (selection_is_filter U k instruction d candidates Hd Hno Hwf)
    as Hsel.
  fold matching in Hsel.
  pose proof (find_and_delete_branches U k p instruction user_id _ _
                Hb Hsel Hwf) as H.
  fold r in H. clearbody r.
  split.
  { intros c. subst matching. rewrite list_elem_of_In, filter_In.
    by rewrite <- list_elem_of_In, title_test_spec. }
  clearbody matching.
  destruct matching as [|m1 [|m2 ms]].
  - destruct H as (H1 & H2 & H3).
    split; [by rewrite H2|]. split; [done|]. split; [done|].
    cbn [length]. lia.
  - destruct H as (H1 & H2).
    split; [done|]. split; [by intros c [= <-]|]. split; [done|].
    cbn [length]. lia.
  - destruct H as (H1 & H2 & H3).
    split; [by rewrite H2|]. split; [done|]. split; [done|]. done.
Qed.

Lemma delete_iff_one_title_match_witness :
  let p := sample_provider dentist_and_rent_tasks [] in
  let instruction := described_instruction "task" (u "Pay Rent") in
  let r := find_and_delete sample_interpreter Task p instruction sample_user in
  browsed Task p dentist_and_rent_tasks /\
  forallb (well_formed Task) dentist_and_rent_tasks = true /\
  description_of instruction = Ok (JStr (u "Pay Rent")) /\
  no_temporal_hint instruction /\
  List.filter (title_test sample_interpreter Task (u "Pay Rent"))
    dentist_and_rent_tasks = [rent_task] /\
  existsb is_delete (calls_of r) = true /\
  deleted_ids (calls_of r) = [JStr (u "t9")].
Proof.
  intros p instruction r.
  assert (Hb : browsed Task p dentist_and_rent_tasks).
  { split; [reflexivity|].
    exists (JObj [(u "items", JArr [JObj [(u "id", JStr (u "list-1"))]])]),
      (JStr (u "list-1")), (JObj [(u "items", JArr dentist_and_rent_tasks)]).
    repeat split; vm_compute; reflexivity. }
  assert (Hwf : forallb (well_formed Task) dentist_and_rent_tasks = true)
    by (vm_compute; reflexivity).
  assert (Hd : description_of instruction = Ok (JStr (u "Pay Rent")))
    by reflexivity.
  assert (Hno : no_temporal_hint instruction)
    by (repeat split; vm_compute; reflexivity).
  assert (Hm : List.filter (title_test sample_interpreter Task (u "Pay Rent"))
                 dentist_and_rent_tasks = [rent_task])
    by (vm_compute; reflexivity).
  destruct (delete_iff_one_title_match sample_interpreter Task p instruction
              sample_user (u "Pay Rent") dentist_and_rent_tasks Hb Hwf Hd Hno)
    as (_ & Hiff & Hone & _).
  split; [exact Hb|]. split; [exact Hwf|]. split; [exact Hd|].
  split; [exact Hno|]. split; [exact Hm|]. split.
  - apply Hiff. by rewrite Hm.
  - destruct (Hone rent_task Hm) as (id & Hid & Hdel).
    injection Hid as <-. exact Hdel.
Defined.
